(** * Batch ingestion pipeline: drag-and-drop hook and manual batch processor

    A shallow embedding of

    - [src/hooks/useDragAndDrop.ts]: [debounce] and the drop handler
      [handleFileDrop] of the [useDragAndDrop] hook;
    - the [BatchFileProcessor] component (src/components/CategorySidebar.tsx,
      lines 535-920): [addFilePath], [addFromDialog], [removeFile],
      [clearAll], [resetStatus], [processFile], [processBatch],
      [togglePause];
    - the dialog of [src/components/ShortcutGrid.tsx]: [handleAddShortcut]
      and [handleSubmitShortcut].

    JavaScript strings are sequences of bytes here (UTF-8); the only
    characters the code inspects are ['.'] and ['/'], which are single
    bytes that never occur inside a multi-byte sequence.  [undefined] and
    [null] are [None].  The collaborators behind [dataService] are taken as
    state passing functions over an abstract [World]; each call returns a
    value or throws.  Everything observable that the code does besides
    updating React state (console output, toasts, calls of
    [createShortcut], callbacks) is recorded in a trace, newest first. *)

From Stdlib Require Import String Ascii List Bool Arith Lia.
From Stdlib Require Import DecimalString ZArith QArith.
Import ListNotations.

Close Scope Q_scope.
Local Open Scope string_scope.
Local Open Scope list_scope.

Set Implicit Arguments.

(** ** Values of src/types/index.ts used by the pipeline *)

Module Types.

(** [FileInfo]: the fields the pipeline reads. *)
Record FileInfo := mkFileInfo {
  is_directory : bool;
  file_name : string
}.

Record IconResult := mkIconResult {
  icon_data : string
}.

Record CreateShortcutRequest := mkRequest {
  name : string;
  file_path : string;
  category_id : string;
  icon_path : option string
}.

End Types.

(** ** Exceptions *)

(** What a [catch] clause can receive: an [Error] object with its
    [message], or any other thrown value (a Tauri [invoke] rejects with a
    plain string). *)
Inductive Thrown :=
| ErrorObject (message : string)
| ThrownValue (v : string).

(** [error instanceof Error ? error.message : '未知错误'] *)
Definition errorMessage (e : Thrown) : string :=
  match e with
  | ErrorObject m => m
  | ThrownValue _ => "未知错误"
  end.

(** ** The trace of observable effects *)

Inductive LogValue :=
| VStr (s : string)
| VNum (n : nat)
| VBool (b : bool)
| VPaths (l : list string)
| VThrown (e : Thrown).

Inductive Event :=
| ConsoleLog (msg : string)
| ConsoleWarn (msg : string)
| ConsoleError (msg : string)
| DragLog (eventName : string) (details : list (string * LogValue))
| ToastError (msg : string)
| ToastSuccess (msg : string)
| CreateShortcutCall (request : Types.CreateShortcutRequest)
| OnFileAdded (filePath : string)
| OnComplete (successCount errorCount : nat).

(** Template literals print numbers in decimal. *)
Definition showNat (n : nat) : string := NilZero.string_of_uint (Nat.to_uint n).

(** ** String helpers *)

(** [s.includes('.')] *)
Fixpoint includes (c : ascii) (s : string) : bool :=
  match s with
  | EmptyString => false
  | String d rest => Ascii.eqb d c || includes c rest
  end.

(** The character class [[^/.]]. *)
Definition notSlashDot (c : ascii) : bool :=
  negb (Ascii.eqb c "/") && negb (Ascii.eqb c ".").

Fixpoint allChars (p : ascii -> bool) (s : string) : bool :=
  match s with
  | EmptyString => true
  | String c rest => p c && allChars p rest
  end.

Definition isEmpty (s : string) : bool :=
  match s with EmptyString => true | _ => false end.

(** [s.replace(/\.[^/.]+$/, '')]: the regular expression matches a ['.']
    followed by one or more characters other than ['/'] and ['.'] up to the
    end of the input; [replace] removes the leftmost match.  The scan below
    tries each start position from the left. *)
Fixpoint replaceExtension (s : string) : string :=
  match s with
  | EmptyString => EmptyString
  | String c rest =>
      if Ascii.eqb c "." && negb (isEmpty rest) && allChars notSlashDot rest
      then EmptyString
      else String c (replaceExtension rest)
  end.

(** Lines 185-189 of the hook and 670-673 of the batch processor:
<<
    let shortcutName = file.name;
    if (!file.isDirectory && shortcutName.includes('.')) {
      shortcutName = shortcutName.replace(/\.[^/.]+$/, '');
    }
>> *)
Definition shortcutName (isDirectory : bool) (name : string) : string :=
  if negb isDirectory && includes "." name then replaceExtension name else name.

(** ** State and exceptions *)

Section Effects.

Variable World : Type.

(** A component instance: its React state (and refs), the world behind
    the collaborators, and the trace (newest event first). *)
Record Sys (St : Type) := mkSys {
  store : St;
  world : World;
  trace : list Event
}.

Definition Result (A : Type) : Type := (A + Thrown)%type.

Definition M (St A : Type) : Type := Sys St -> Result A * Sys St.

Definition ret {St A} (a : A) : M St A := fun s => (inl a, s).

Definition bind {St A B} (m : M St A) (k : A -> M St B) : M St B :=
  fun s =>
    match m s with
    | (inl a, s') => k a s'
    | (inr e, s') => (inr e, s')
    end.

Definition throw {St A} (e : Thrown) : M St A := fun s => (inr e, s).

(** [try { m } catch (error) { h error }] *)
Definition tryCatch {St A} (m : M St A) (h : Thrown -> M St A) : M St A :=
  fun s =>
    match m s with
    | (inl a, s') => (inl a, s')
    | (inr e, s') => h e s'
    end.

(** [try { m } finally { fin }] *)
Definition tryFinally {St A} (m : M St A) (fin : M St unit) : M St A :=
  fun s =>
    match m s with
    | (r, s') =>
        match fin s' with
        | (inl _, s'') => (r, s'')
        | (inr e, s'') => (inr e, s'')
        end
    end.

Definition getStore {St} : M St St := fun s => (inl (store s), s).

Definition setStore {St} (f : St -> St) : M St unit :=
  fun s => (inl tt, mkSys (f (store s)) (world s) (trace s)).

Definition emit {St} (e : Event) : M St unit :=
  fun s => (inl tt, mkSys (store s) (world s) (e :: trace s)).

(** [await] of a collaborator call. *)
Definition call {St A} (f : World -> Result A * World) : M St A :=
  fun s => let (r, w) := f (world s) in (r, mkSys (store s) w (trace s)).

Definition when {St} (b : bool) (m : M St unit) : M St unit :=
  if b then m else ret tt.

(** The events in the order they happened. *)
Definition history {St} (s : Sys St) : list Event := rev (trace s).

End Effects.

Arguments ret {World St A} a.
Arguments bind {World St A B} m k.
Arguments throw {World St A} e.
Arguments tryCatch {World St A} m h.
Arguments tryFinally {World St A} m fin.
Arguments getStore {World St}.
Arguments setStore {World St} f.
Arguments emit {World St} e.
Arguments call {World St A} f.
Arguments when {World St} b m.
Arguments history {World St} s.

Declare Scope io_scope.
Delimit Scope io_scope with io.
Notation "x <- m ;; k" := (bind m (fun x => k))
  (at level 61, m at next level, right associativity) : io_scope.
Notation "m ;; k" := (bind m (fun _ => k))
  (at level 61, right associativity) : io_scope.
Local Open Scope io_scope.

(** ** The collaborators (class [DataService]) *)

Record DataService (World : Type) := mkDataService {
  getPathInfo : string -> World -> Result Types.FileInfo * World;
  validateFilePath : string -> World -> Result bool * World;
  validateDirectoryPath : string -> World -> Result bool * World;
  checkFileExists : string -> World -> Result bool * World;
  getFileIcon : string -> bool -> World -> Result (option Types.IconResult) * World;
  getDirectoryIcon : string -> bool -> World -> Result (option Types.IconResult) * World;
  createShortcut : Types.CreateShortcutRequest -> World -> Result unit * World;
  openFileDialog : World -> Result (option string) * World
}.

Section Loops.

Variables (World St A C : Type).

(** [for (const x of l) { ... }] with the loop-carried locals [c]. *)
Fixpoint forOf (l : list A) (body : A -> C -> M World St C) (c : C)
  : M World St C :=
  match l with
  | [] => ret c
  | x :: rest => c' <- body x c ;; forOf rest body c'
  end.

End Loops.

(** ** src/hooks/useDragAndDrop.ts *)

(** *** [debounce] *)

Module Debounce.

Section Debounce.

(** The argument list of the debounced function. *)
Variable Args : Type.

(** A timer armed with [setTimeout]: its handle, the time at which it
    is due and the arguments its callback closes over. *)
Record Timer := mkTimer {
  handle : nat;
  due : nat;
  timerArgs : Args
}.

(** One debounced function: the variable [timeout] of its closure
    ([None] is [null]), the timers of the event loop, the next free
    timer handle, the clock, and the executions of [func] so far
    (newest first). *)
Record State := mkState {
  timeout : option nat;
  timers : list Timer;
  nextHandle : nat;
  now : nat;
  executed : list Args
}.

(** [debounce(func, wait)] right after its creation at time [t]. *)
Definition init (t : nat) : State := mkState None [] 0 t [].

Definition clearTimeout (h : nat) (l : list Timer) : list Timer :=
  filter (fun tm => negb (Nat.eqb (handle tm) h)) l.

(** A call of the debounced function at the current time:
<<
    if (timeout) { clearTimeout(timeout); }
    timeout = setTimeout(async () => { ... await func(...args) ... }, wait);
>> *)
Definition invoke (wait : nat) (args : Args) (d : State) : State :=
  let cleared :=
    match timeout d with
    | Some h => clearTimeout h (timers d)
    | None => timers d
    end in
  mkState (Some (nextHandle d))
          (cleared ++ [mkTimer (nextHandle d) (now d + wait) args])
          (S (nextHandle d))
          (now d)
          (executed d).

Definition isDue (t : nat) (tm : Timer) : bool := Nat.leb (due tm) t.

(** The event loop reaches time [t]: every armed timer that is due runs
    its callback, which calls [func] with the arguments it closed
    over.  (The clock does not go backwards.) *)
Definition advance (t : nat) (d : State) : State :=
  let t' := Nat.max (now d) t in
  mkState (timeout d)
          (filter (fun tm => negb (isDue t' tm)) (timers d))
          (nextHandle d)
          t'
          (rev (map timerArgs (filter (isDue t') (timers d))) ++ executed d).

(** The executions of [func], oldest first. *)
Definition executions (d : State) : list Args := rev (executed d).

(** The only timer that can be armed is the one whose handle [timeout]
    holds: every call cancels the timer of the call before it. *)
Definition armedOk (d : State) : Prop :=
  match timers d with
  | [] => True
  | [tm] => timeout d = Some (handle tm)
  | _ => False
  end.

End Debounce.

End Debounce.

(** *** The [useDragAndDrop] hook *)

Module Hook.

(** [useState(false)] twice and [useRef(false)]. *)
Record HookState := mkHook {
  isDragOver : bool;
  isProcessing : bool;
  isProcessingRef : bool
}.

Definition setIsDragOver (b : bool) (h : HookState) : HookState :=
  mkHook b (isProcessing h) (isProcessingRef h).
Definition setIsProcessing (b : bool) (h : HookState) : HookState :=
  mkHook (isDragOver h) b (isProcessingRef h).
Definition setIsProcessingRef (b : bool) (h : HookState) : HookState :=
  mkHook (isDragOver h) (isProcessing h) b.

(** The quiescence window of the debounced handler: [debounce(..., 300)]. *)
Definition debounceWait : nat := 300.

Section Hook.

Variable World : Type.
(** The props of the hook.  [hasOnFileAdded] says whether the optional
    callback is given; the only callback the repository passes
    ([handleFileAdded] of ShortcutGrid) writes to the console and
    starts an asynchronous reload, so a call is an event of the
    trace. *)
Variable dataService : DataService World.
Variable categoryId : string.
Variable hasOnFileAdded : bool.

Let IO := M World HookState.

Definition logDragEvent (eventName : string)
           (details : list (string * LogValue)) : IO unit :=
  emit (DragLog eventName details).

Definition kindName (isDirectory : bool) : string :=
  if isDirectory then "目录" else "文件".

(** [iconResult && iconResult.icon_data] *)
Definition truthyIcon (iconResult : option Types.IconResult) : option string :=
  match iconResult with
  | Some r => if isEmpty (Types.icon_data r) then None else Some (Types.icon_data r)
  | None => None
  end.

Definition isSome {A} (o : option A) : bool :=
  match o with Some _ => true | None => false end.

(** Lines 159-182: the icon is fetched inside its own [try]. *)
Definition fetchIcon (isDirectory : bool) (filePath : string)
  : IO (option string) :=
  tryCatch
    (iconResult <- call ((if isDirectory
                          then getDirectoryIcon dataService
                          else getFileIcon dataService) filePath true) ;;
     logDragEvent "图标获取"
       [("路径", VStr filePath);
        ("图标结果", VStr (if isSome iconResult then "成功" else "失败"));
        ("有图标数据", VStr (if isSome (truthyIcon iconResult) then "是" else "否"))] ;;
     ret (truthyIcon iconResult))
    (fun error =>
       logDragEvent "警告: 获取图标失败"
         [("错误", VThrown error); ("路径", VStr filePath)] ;;
       emit (ConsoleWarn "获取图标失败:") ;;
       ret None).

(** The body of the loop of [handleFileDrop] (lines 98-236), with the
    locals [successCount] and [errorCount] carried along. *)
Definition dropItem (filePath : string) (counts : nat * nat)
  : IO (nat * nat) :=
  let '(successCount, errorCount) := counts in
  logDragEvent "处理单个文件" [("文件路径", VStr filePath)] ;;
  if isEmpty filePath then
    logDragEvent "错误: 无效的文件路径" [("文件路径", VStr filePath)] ;;
    emit (ToastError "无效的文件路径") ;;
    ret (successCount, S errorCount)
  else
    tryCatch
      (pathInfo <- call (getPathInfo dataService filePath) ;;
       let isDirectory := Types.is_directory pathInfo in
       logDragEvent "路径信息获取"
         [("文件名", VStr (Types.file_name pathInfo));
          ("是否目录", VBool isDirectory);
          ("路径", VStr filePath)] ;;
       isValid <- call ((if isDirectory
                         then validateDirectoryPath dataService
                         else validateFilePath dataService) filePath) ;;
       logDragEvent "路径验证"
         [("路径", VStr filePath); ("是否有效", VBool isValid)] ;;
       if negb isValid then
         logDragEvent "错误: 路径无效"
           [("文件名", VStr (Types.file_name pathInfo))] ;;
         emit (ToastError ("路径无效: " ++ Types.file_name pathInfo)) ;;
         ret (successCount, S errorCount)
       else
         exists_ <- call (checkFileExists dataService filePath) ;;
         logDragEvent "文件存在性检查"
           [("路径", VStr filePath); ("是否存在", VBool exists_)] ;;
         if negb exists_ then
           logDragEvent "错误: 文件/目录不存在"
             [("文件名", VStr (Types.file_name pathInfo));
              ("类型", VStr (kindName isDirectory))] ;;
           emit (ToastError (kindName isDirectory ++ "不存在: "
                             ++ Types.file_name pathInfo)) ;;
           ret (successCount, S errorCount)
         else
           iconPath <- fetchIcon isDirectory filePath ;;
           let shortcutName := shortcutName isDirectory (Types.file_name pathInfo) in
           logDragEvent "快捷方式名称生成"
             [("原始名称", VStr (Types.file_name pathInfo));
              ("最终名称", VStr shortcutName);
              ("是否目录", VBool isDirectory)] ;;
           logDragEvent "创建快捷方式"
             [("名称", VStr shortcutName);
              ("路径", VStr filePath);
              ("分类ID", VStr categoryId);
              ("有图标", VBool (isSome iconPath))] ;;
           let request :=
             Types.mkRequest shortcutName filePath categoryId iconPath in
           emit (CreateShortcutCall request) ;;
           call (createShortcut dataService request) ;;
           logDragEvent "快捷方式创建成功"
             [("名称", VStr shortcutName); ("路径", VStr filePath)] ;;
           when hasOnFileAdded
             (logDragEvent "通知父组件"
                [("事件", VStr "文件已添加"); ("路径", VStr filePath)] ;;
              emit (OnFileAdded filePath)) ;;
           ret (S successCount, errorCount))
      (fun error =>
         logDragEvent "错误: 处理文件失败"
           [("错误信息", VThrown error); ("文件路径", VStr filePath)] ;;
         emit (ConsoleError "处理文件失败:") ;;
         emit (ToastError ("添加失败: " ++ filePath)) ;;
         ret (successCount, S errorCount)).

(** The function handed to [debounce] (lines 62-259). *)
Definition handleFileDrop (filePaths : list string) : IO unit :=
  st <- getStore ;;
  if isProcessingRef st then
    emit (ConsoleLog "[useDragAndDrop] 正在处理中，忽略重复调用")
  else
    emit (ConsoleLog "[useDragAndDrop] handleFileDrop被调用 - 开始处理文件释放") ;;
    emit (ConsoleLog "[useDragAndDrop] 设置isDragOver为false，isProcessing为true") ;;
    setStore (setIsDragOver false) ;;
    setStore (setIsProcessing true) ;;
    setStore (setIsProcessingRef true) ;;
    emit (ConsoleLog "[useDragAndDrop] 获取到的文件路径列表") ;;
    logDragEvent "文件释放"
      [("categoryId", VStr categoryId); ("filePaths", VPaths filePaths)] ;;
    tryFinally
      (tryCatch
         (logDragEvent "开始处理文件" [("文件数量", VNum (length filePaths))] ;;
          if Nat.eqb (length filePaths) 0 then
            logDragEvent "错误: 没有检测到文件" [] ;;
            emit (ToastError "没有检测到文件")
          else
            counts <- forOf filePaths dropItem (0, 0) ;;
            let '(successCount, errorCount) := counts in
            logDragEvent "批量处理完成"
              [("成功数量", VNum successCount);
               ("失败数量", VNum errorCount);
               ("总数量", VNum (length filePaths))] ;;
            when (Nat.ltb 0 successCount)
              (emit (ToastSuccess ("成功添加 " ++ showNat successCount
                                   ++ " 个快捷方式"))) ;;
            when (Nat.ltb 0 errorCount)
              (emit (ToastError (showNat errorCount ++ " 个项目添加失败"))))
         (fun error =>
            logDragEvent "错误: 拖拽处理失败" [("错误", VThrown error)] ;;
            emit (ConsoleError "拖拽处理失败:") ;;
            emit (ToastError "拖拽处理失败")))
      (setStore (setIsProcessing false) ;;
       setStore (setIsProcessingRef false)).

(** The listener of [webview.onDragDropEvent] (lines 277-301) is the
    only caller: a [drop] event sets [isDragOver] to false and calls
    the debounced handler with [event.payload.paths]. *)
Inductive DragEvent :=
| Enter (paths : list string)
| Over
| Drop (paths : list string)
| Leave.

(** What the listener does at once; for a drop, the paths it hands to
    the debounced handler. *)
Definition onDragDropEvent (ev : DragEvent) : IO (option (list string)) :=
  match ev with
  | Enter paths =>
      logDragEvent "拖拽进入" [("paths", VPaths paths)] ;;
      setStore (setIsDragOver true) ;; ret None
  | Over =>
      logDragEvent "拖拽悬停" [] ;;
      setStore (setIsDragOver true) ;; ret None
  | Drop paths =>
      logDragEvent "拖拽释放" [("paths", VPaths paths)] ;;
      setStore (setIsDragOver false) ;; ret (Some paths)
  | Leave =>
      logDragEvent "拖拽离开" [] ;;
      setStore (setIsDragOver false) ;; ret None
  end.

(** *** Interleaving

    The handler is suspended at each [await], and other events (a second
    dispatch among them) are handled in between.  A suspended execution is
    a [DropRun]: the dropped list, the paths still to come and the two
    counters.  The collaborator calls of one path touch no React state and
    are taken as one step. *)

Record DropRun := mkDropRun {
  dropped : list string;
  waiting : list string;
  dropCounts : nat * nat
}.

(** Lines 239-250. *)
Definition summary (filePaths : list string) (counts : nat * nat) : IO unit :=
  let '(successCount, errorCount) := counts in
  logDragEvent "批量处理完成"
    [("成功数量", VNum successCount);
     ("失败数量", VNum errorCount);
     ("总数量", VNum (length filePaths))] ;;
  when (Nat.ltb 0 successCount)
    (emit (ToastSuccess ("成功添加 " ++ showNat successCount
                         ++ " 个快捷方式"))) ;;
  when (Nat.ltb 0 errorCount)
    (emit (ToastError (showNat errorCount ++ " 个项目添加失败"))).

(** Lines 251-254: the outer [catch]. *)
Definition giveUp (error : Thrown) : IO unit :=
  logDragEvent "错误: 拖拽处理失败" [("错误", VThrown error)] ;;
  emit (ConsoleError "拖拽处理失败:") ;;
  emit (ToastError "拖拽处理失败").

(** Lines 255-258: the [finally]. *)
Definition release : IO unit :=
  setStore (setIsProcessing false) ;;
  setStore (setIsProcessingRef false).

(** The handler from its entry to its first [await]. *)
Definition beginDrop (filePaths : list string) : IO (option DropRun) :=
  st <- getStore ;;
  if isProcessingRef st then
    emit (ConsoleLog "[useDragAndDrop] 正在处理中，忽略重复调用") ;;
    ret None
  else
    emit (ConsoleLog "[useDragAndDrop] handleFileDrop被调用 - 开始处理文件释放") ;;
    emit (ConsoleLog "[useDragAndDrop] 设置isDragOver为false，isProcessing为true") ;;
    setStore (setIsDragOver false) ;;
    setStore (setIsProcessing true) ;;
    setStore (setIsProcessingRef true) ;;
    emit (ConsoleLog "[useDragAndDrop] 获取到的文件路径列表") ;;
    logDragEvent "文件释放"
      [("categoryId", VStr categoryId); ("filePaths", VPaths filePaths)] ;;
    logDragEvent "开始处理文件" [("文件数量", VNum (length filePaths))] ;;
    if Nat.eqb (length filePaths) 0 then
      logDragEvent "错误: 没有检测到文件" [] ;;
      emit (ToastError "没有检测到文件") ;;
      release ;;
      ret None
    else ret (Some (mkDropRun filePaths filePaths (0, 0))).

(** A suspended execution takes its next path in hand, or ends. *)
Definition resumeDrop (r : DropRun) : IO (option DropRun) :=
  match waiting r with
  | [] =>
      summary (dropped r) (dropCounts r) ;;
      release ;;
      ret None
  | filePath :: rest =>
      tryCatch
        (counts <- dropItem filePath (dropCounts r) ;;
         ret (Some (mkDropRun (dropped r) rest counts)))
        (fun error => giveUp error ;; release ;; ret None)
  end.

(** An execution that nothing interleaves with, in steps. *)
Fixpoint dropAlone (fuel : nat) (r : option DropRun) : IO unit :=
  match r with
  | None => ret tt
  | Some r' =>
      match fuel with
      | 0 => ret tt
      | S fuel' => r'' <- resumeDrop r' ;; dropAlone fuel' r''
      end
  end.

End Hook.

End Hook.


(** ** The [BatchFileProcessor] component
    (src/components/CategorySidebar.tsx, lines 535-920) *)

Module Batch.

(** [status: 'pending' | 'processing' | 'success' | 'error'] *)
Inductive Status := Pending | Processing | Success | Error.

Definition isTerminal (st : Status) : bool :=
  match st with
  | Success | Error => true
  | Pending | Processing => false
  end.

(** [interface FileItem]; the optional fields are [None] when
    [undefined]. *)
Record FileItem := mkFileItem {
  id : string;
  path : string;
  name : string;
  isDirectory : bool;
  status : Status;
  error : option string;
  iconData : option string
}.

(** The five [useState] cells of the component.  [progress] is a
    percentage; the quotient [(i + 1) / files.length] is kept exact. *)
Record BatchState := mkBatch {
  files : list FileItem;
  isProcessing : bool;
  isPaused : bool;
  progress : Q;
  currentIndex : nat
}.

(** [useState([])], [useState(false)], [useState(false)], [useState(0)],
    [useState(0)]. *)
Definition initialState : BatchState := mkBatch [] false false 0%Q 0.

Definition setFiles (f : list FileItem -> list FileItem) (b : BatchState) :=
  mkBatch (f (files b)) (isProcessing b) (isPaused b) (progress b) (currentIndex b).
Definition setIsProcessing (v : bool) (b : BatchState) :=
  mkBatch (files b) v (isPaused b) (progress b) (currentIndex b).
Definition setIsPaused (f : bool -> bool) (b : BatchState) :=
  mkBatch (files b) (isProcessing b) (f (isPaused b)) (progress b) (currentIndex b).
Definition setProgress (v : Q) (b : BatchState) :=
  mkBatch (files b) (isProcessing b) (isPaused b) v (currentIndex b).
Definition setCurrentIndex (v : nat) (b : BatchState) :=
  mkBatch (files b) (isProcessing b) (isPaused b) (progress b) v.

(** [{ ...f, status: 'processing' }] *)
Definition markProcessing (f : FileItem) : FileItem :=
  mkFileItem (id f) (path f) (name f) (isDirectory f) Processing (error f) (iconData f).

(** [{ ...f, status: 'success', iconData }] *)
Definition markSuccess (icon : option string) (f : FileItem) : FileItem :=
  mkFileItem (id f) (path f) (name f) (isDirectory f) Success (error f) icon.

(** [{ ...f, status: 'error', error: errorMessage }] *)
Definition markError (msg : string) (f : FileItem) : FileItem :=
  mkFileItem (id f) (path f) (name f) (isDirectory f) Error (Some msg) (iconData f).

(** [{ ...file, status: 'pending', error: undefined }] *)
Definition markPending (f : FileItem) : FileItem :=
  mkFileItem (id f) (path f) (name f) (isDirectory f) Pending None (iconData f).

(** [prev.map(f => f.id === file.id ? upd(f) : f)] *)
Definition updateById (fileId : string) (upd : FileItem -> FileItem)
           (prev : list FileItem) : list FileItem :=
  map (fun f => if id f =? fileId then upd f else f) prev.

(** [((i + 1) / files.length) * 100] *)
Definition percent (done total : nat) : Q :=
  (Qmake (Z.of_nat done) 1 / Qmake (Z.of_nat total) 1 * Qmake 100 1)%Q.

Section Batch.

Variable World : Type.
(** The props: [dataService], [categoryId] and the optional [onComplete]
    ([hasOnComplete] says whether it is given; a call is an event of the
    trace). *)
Variable dataService : DataService World.
Variable categoryId : string.
Variable hasOnComplete : bool.
(** [Date.now().toString() + Math.random()] *)
Variable newId : World -> string * World.
(** [String.prototype.trim] *)
Variable trim : string -> string.

Let IO := M World BatchState.

(** Lines 585-602. *)
Definition addFilePath (filePath : string) : IO unit :=
  if isEmpty (trim filePath) then ret tt
  else
    tryCatch
      (pathInfo <- call (getPathInfo dataService filePath) ;;
       fileId <- call (fun w => let (i, w') := newId w in (inl i, w')) ;;
       let newFile :=
         mkFileItem fileId (trim filePath) (Types.file_name pathInfo)
                    (Types.is_directory pathInfo) Pending None None in
       setStore (setFiles (fun prev => prev ++ [newFile])))
      (fun _ => emit (ToastError ("无法获取路径信息: " ++ filePath))).

(** Lines 605-614. *)
Definition addFromDialog : IO unit :=
  tryCatch
    (filePath <- call (openFileDialog dataService) ;;
     match filePath with
     | Some p => if isEmpty p then ret tt else addFilePath p
     | None => ret tt
     end)
    (fun _ => emit (ToastError "打开文件对话框失败")).

(** Lines 617-619. *)
Definition removeFile (fileId : string) : IO unit :=
  setStore (setFiles (filter (fun file => negb (id file =? fileId)))).

(** Lines 622-626. *)
Definition clearAll : IO unit :=
  setStore (setFiles (fun _ => [])) ;;
  setStore (setProgress 0%Q) ;;
  setStore (setCurrentIndex 0).

(** Lines 629-633. *)
Definition resetStatus : IO unit :=
  setStore (setFiles (map markPending)) ;;
  setStore (setProgress 0%Q) ;;
  setStore (setCurrentIndex 0).

(** Lines 744-746. *)
Definition togglePause : IO unit :=
  setStore (setIsPaused negb).

(** *** [processFile] (lines 636-699) *)

(** Lines 639-641: the first thing [processFile] does, before its first
    [await]. *)
Definition beginFile (file : FileItem) : IO unit :=
  setStore (setFiles (updateById (id file) markProcessing)).

(** Lines 659-667: the icon is fetched inside its own [try];
    [iconResult.icon_data] throws a [TypeError] on a [null] result. *)
Definition fetchIcon (file : FileItem) : IO (option string) :=
  tryCatch
    (iconResult <- call ((if isDirectory file
                          then getDirectoryIcon dataService
                          else getFileIcon dataService) (path file) true) ;;
     match iconResult with
     | Some r => ret (Some (Types.icon_data r))
     | None => throw (ErrorObject "Cannot read properties of null (reading 'icon_data')")
     end)
    (fun _ => emit (ConsoleWarn "获取图标失败:") ;; ret None).

(** Lines 643-688: from the first [await] to [return true]. *)
Definition workFile (file : FileItem) : IO bool :=
  isValid <- call ((if isDirectory file
                    then validateDirectoryPath dataService
                    else validateFilePath dataService) (path file)) ;;
  if negb isValid then throw (ErrorObject "路径无效")
  else
    exists_ <- call (checkFileExists dataService (path file)) ;;
    if negb exists_ then throw (ErrorObject "文件或目录不存在")
    else
      icon <- fetchIcon file ;;
      let shortcutName := shortcutName (isDirectory file) (name file) in
      let request :=
        Types.mkRequest shortcutName (path file) categoryId icon in
      emit (CreateShortcutCall request) ;;
      call (createShortcut dataService request) ;;
      setStore (setFiles (updateById (id file) (markSuccess icon))) ;;
      ret true.

(** Lines 689-698: the [catch] clause. *)
Definition failFile (file : FileItem) (e : Thrown) : IO bool :=
  setStore (setFiles (updateById (id file) (markError (errorMessage e)))) ;;
  ret false.

Definition processFile (file : FileItem) : IO bool :=
  tryCatch (beginFile file ;; workFile file) (failFile file).

(** What is left of [processFile] once it is suspended at its first
    [await]. *)
Definition finishFile (file : FileItem) : IO bool :=
  tryCatch (workFile file) (failFile file).

(** *** [processBatch] (lines 702-741)

    The callback is created by [useCallback] with the dependencies
    [files], [currentIndex], [isPaused]: inside one call these three names
    denote the values of the render that created the callback (the
    snapshot [snap]), whatever the setters have done to the state since. *)

Definition tally (ok : bool) (counts : nat * nat) : nat * nat :=
  if ok then (S (fst counts), snd counts) else (fst counts, S (snd counts)).

(** Lines 732-740: what follows the loop. *)
Definition endBatch (snap : BatchState) (counts : nat * nat) : IO unit :=
  setStore (setIsProcessing false) ;;
  if Nat.leb (length (files snap) - 1) (currentIndex snap) then
    emit (ToastSuccess ("批量处理完成: 成功 " ++ showNat (fst counts)
                        ++ " 个，失败 " ++ showNat (snd counts) ++ " 个")) ;;
    when hasOnComplete (emit (OnComplete (fst counts) (snd counts)))
  else ret tt.

(** Lines 714-730: the loop, over the items [files[i]], [files[i+1]], ...
    that are left ([items]). *)
Fixpoint batchLoop (snap : BatchState) (items : list FileItem) (i : nat)
         (counts : nat * nat) : IO (nat * nat) :=
  match items with
  | [] => ret counts
  | file :: rest =>
      if isPaused snap then ret counts
      else
        setStore (setCurrentIndex i) ;;
        ok <- processFile file ;;
        setStore (setProgress (percent (i + 1) (length (files snap)))) ;;
        batchLoop snap rest (S i) (tally ok counts)
  end.

(** One call of [processBatch] that nothing interleaves with. *)
Definition processBatch (snap : BatchState) : IO unit :=
  if Nat.eqb (length (files snap)) 0 then emit (ToastError "请先添加文件")
  else
    setStore (setIsProcessing true) ;;
    setStore (setIsPaused (fun _ => false)) ;;
    counts <- batchLoop snap (skipn (currentIndex snap) (files snap))
                        (currentIndex snap) (0, 0) ;;
    endBatch snap counts.

(** A click on the start button calls the callback of the last render. *)
Definition start : IO unit :=
  snap <- getStore ;; processBatch snap.

(** *** Interleaving

    [processBatch] is suspended at each [await]; the handlers of other
    events run in between.  A suspended call is a [Run]: its snapshot, its
    locals and the place where it waits.  The collaborator calls of one
    item touch no React state and are taken as one step. *)

Inductive Pc :=
| AwaitFile    (* inside [await processFile(files[i])], after line 641 *)
| AwaitDelay.  (* at [await new Promise(resolve => setTimeout(resolve, 100))] *)

Record Run := mkRun {
  snap : BatchState;
  index : nat;
  counts : nat * nat;
  pc : Pc
}.

(** The loop head at index [i]: test, [break], or the start of the turn up
    to its first [await]. *)
Definition enterLoop (snap : BatchState) (i : nat) (counts : nat * nat)
  : IO (option Run) :=
  match nth_error (files snap) i with
  | None => endBatch snap counts ;; ret None
  | Some file =>
      if isPaused snap then endBatch snap counts ;; ret None
      else
        setStore (setCurrentIndex i) ;;
        beginFile file ;;
        ret (Some (mkRun snap i counts AwaitFile))
  end.

(** A click on the start button, up to the first [await]. *)
Definition startRun : IO (option Run) :=
  snap <- getStore ;;
  if Nat.eqb (length (files snap)) 0 then emit (ToastError "请先添加文件") ;; ret None
  else
    setStore (setIsProcessing true) ;;
    setStore (setIsPaused (fun _ => false)) ;;
    enterLoop snap (currentIndex snap) (0, 0).

(** A suspended call goes on to its next [await] (or to its end). *)
Definition resume (r : Run) : IO (option Run) :=
  match pc r with
  | AwaitFile =>
      match nth_error (files (snap r)) (index r) with
      | None => ret None
      | Some file =>
          ok <- finishFile file ;;
          setStore (setProgress (percent (index r + 1) (length (files (snap r))))) ;;
          ret (Some (mkRun (snap r) (index r) (tally ok (counts r)) AwaitDelay))
      end
  | AwaitDelay => enterLoop (snap r) (S (index r)) (counts r)
  end.

(** What can happen next: a user action, or the continuation of the
    [k]-th suspended call. *)
Inductive Action :=
| DoAddFilePath (filePath : string)
| DoAddFromDialog
| DoRemoveFile (fileId : string)
| DoClearAll
| DoResetStatus
| DoTogglePause
| DoStart
| DoResume (k : nat).

(** The component with its suspended calls of [processBatch]. *)
Definition Config : Type := (Sys World BatchState * list Run)%type.

Definition quiet (m : IO unit) (c : Config) : Config :=
  (snd (m (fst c)), snd c).

Definition spawn (r : option Run) (runs : list Run) : list Run :=
  match r with
  | Some r' => runs ++ [r']
  | None => runs
  end.

Fixpoint replaceRun (k : nat) (r : option Run) (runs : list Run) : list Run :=
  match runs, k with
  | [], _ => []
  | _ :: rest, 0 => match r with Some r' => r' :: rest | None => rest end
  | r0 :: rest, S k' => r0 :: replaceRun k' r rest
  end.

Definition step (a : Action) (c : Config) : Config :=
  match a with
  | DoAddFilePath p => quiet (addFilePath p) c
  | DoAddFromDialog => quiet addFromDialog c
  | DoRemoveFile i => quiet (removeFile i) c
  | DoClearAll => quiet clearAll c
  | DoResetStatus => quiet resetStatus c
  | DoTogglePause => quiet togglePause c
  | DoStart =>
      match startRun (fst c) with
      | (inl r, s') => (s', spawn r (snd c))
      | (inr _, s') => (s', snd c)
      end
  | DoResume k =>
      match nth_error (snd c) k with
      | None => c
      | Some r =>
          match resume r (fst c) with
          | (inl r', s') => (s', replaceRun k r' (snd c))
          | (inr _, s') => (s', replaceRun k None (snd c))
          end
      end
  end.

Definition steps (l : list Action) (c : Config) : Config :=
  fold_left (fun c a => step a c) l c.

(** What the rendered controls allow (the [disabled] attributes and the
    conditional rendering of lines 780-903); a suspended call can always
    go on. *)
Definition enabled (a : Action) (c : Config) : bool :=
  let b := store (fst c) in
  let noFiles := Nat.eqb (length (files b)) 0 in
  match a with
  | DoAddFilePath _ | DoAddFromDialog | DoClearAll => negb (isProcessing b)
  | DoRemoveFile i =>
      existsb (fun f => id f =? i) (files b) && negb (isProcessing b)
  | DoResetStatus => negb (isProcessing b || noFiles)
  | DoTogglePause => negb noFiles && isProcessing b
  | DoStart => negb noFiles && negb (isProcessing b && negb (isPaused b))
  | DoResume k => Nat.ltb k (length (snd c))
  end.

Fixpoint allEnabled (l : list Action) (c : Config) : bool :=
  match l with
  | [] => true
  | a :: rest => enabled a c && allEnabled rest (step a c)
  end.

(** A call of [processBatch] that nothing interleaves with, in steps: the
    suspended call is continued again and again ([fuel] times at most; two
    continuations per item are enough). *)
Fixpoint runAlone (fuel : nat) (r : option Run) : IO unit :=
  match r with
  | None => ret tt
  | Some r' =>
      match fuel with
      | 0 => ret tt
      | S fuel' => r'' <- resume r' ;; runAlone fuel' r''
      end
  end.

(** The status of the item with a given id, as the list shows it. *)
Definition statusOf (fileId : string) (l : list FileItem) : option Status :=
  option_map status (find (fun f => id f =? fileId) l).

End Batch.

End Batch.
(** ** Reading the trace *)

(** The path of a "处理单个文件" entry: the handler writes one when it takes
    a path of the dropped list in hand (line 99). *)
Definition processedPath (e : Event) : list string :=
  match e with
  | DragLog eventName [(_, VStr p)] =>
      if eventName =? "处理单个文件" then [p] else []
  | _ => []
  end.

Definition processedPaths (l : list Event) : list string :=
  flat_map processedPath l.

(** The counters of a "批量处理完成" entry: the aggregate result computed
    after the loop (line 239). *)
Definition batchSummary (e : Event) : list (nat * nat * nat) :=
  match e with
  | DragLog eventName [(_, VNum s); (_, VNum f); (_, VNum n)] =>
      if eventName =? "批量处理完成" then [(s, f, n)] else []
  | _ => []
  end.

Definition batchSummaries (l : list Event) : list (nat * nat * nat) :=
  flat_map batchSummary l.

Definition isToast (e : Event) : bool :=
  match e with
  | ToastError _ | ToastSuccess _ => true
  | _ => false
  end.

Definition createCalls (l : list Event) : list Types.CreateShortcutRequest :=
  flat_map (fun e => match e with CreateShortcutCall r => [r] | _ => [] end) l.

Definition completions (l : list Event) : list (nat * nat) :=
  flat_map (fun e => match e with OnComplete s f => [(s, f)] | _ => [] end) l.

(** What one turn of the loop does: it returns normally, leaves the React
    state alone, writes exactly one "处理单个文件" entry and no aggregate
    entry, and adds one to exactly one of the two counters. *)
Definition itemTurn {World : Type} (filePath : string) (counts : nat * nat)
           (s : Sys World Hook.HookState) (counts' : nat * nat)
           (s' : Sys World Hook.HookState) : Prop :=
  store s' = store s /\
  (counts' = (S (fst counts), snd counts) \/
   counts' = (fst counts, S (snd counts))) /\
  exists delta,
    trace s' = delta ++ trace s /\
    processedPaths (rev delta) = [filePath] /\
    batchSummaries (rev delta) = [].


(** ** The shortcut name in the words of the specification *)

Definition notSlash (c : ascii) : bool := negb (Ascii.eqb c "/").

(** The text before the last ['.'] of a name that has one. *)
Fixpoint beforeLastDot (s : string) : string :=
  match s with
  | EmptyString => EmptyString
  | String c rest =>
      if includes "." rest then String c (beforeLastDot rest)
      else if Ascii.eqb c "." then EmptyString
      else String c rest
  end.

(** The text after the last ['.'] of a name that has one (the final
    extension segment without its dot). *)
Fixpoint afterLastDot (s : string) : string :=
  match s with
  | EmptyString => EmptyString
  | String c rest =>
      if includes "." rest then afterLastDot rest
      else if Ascii.eqb c "." then rest
      else EmptyString
  end.

(** "For files, strip the final extension segment (the last ['.'] and all
    text after it) from the display name; for directories, and for names
    without a ['.'], use the display name unmodified." *)
Definition specShortcutName (isDirectory : bool) (name : string) : string :=
  if isDirectory then name
  else if includes "." name then beforeLastDot name
  else name.

(** When the pattern matches: there is text after the last ['.'] and none
    of it is a ['/']. *)
Definition hasExtension (name : string) : bool :=
  includes "." name
  && negb (isEmpty (afterLastDot name))
  && allChars notSlash (afterLastDot name).

(** ** Reading the batch processor *)

(** How the processing of one item ends. *)
Inductive Outcome :=
| Succeeded (icon : option string)
| Failed (msg : string).

Definition outcomeOk (o : Outcome) : bool :=
  match o with Succeeded _ => true | Failed _ => false end.

Definition applyOutcome (o : Outcome) : Batch.FileItem -> Batch.FileItem :=
  match o with
  | Succeeded icon => Batch.markSuccess icon
  | Failed msg => Batch.markError msg
  end.

(** An update of the list that keeps every id and never makes an item
    pending. *)
Definition forward (g : Batch.FileItem -> Batch.FileItem) : Prop :=
  forall f, Batch.id (g f) = Batch.id f /\ Batch.status (g f) <> Batch.Pending.

(** What a call of [processBatch] does to the list between two [await]s. *)
Definition filesStep (l l' : list Batch.FileItem) : Prop :=
  l' = l \/ exists fileId g, forward g /\ l' = Batch.updateById fileId g l.

(** ** Counting what the user sees *)

Definition isToastError (e : Event) : bool :=
  match e with ToastError _ => true | _ => false end.

Definition isToastSuccess (e : Event) : bool :=
  match e with ToastSuccess _ => true | _ => false end.

Definition toastErrors (l : list Event) : nat := length (filter isToastError l).

Definition toastSuccesses (l : list Event) : nat := length (filter isToastSuccess l).

(** The paths handed to [onFileAdded]. *)
Definition fileAdded (l : list Event) : list string :=
  flat_map (fun e => match e with OnFileAdded p => [p] | _ => [] end) l.

(** What one turn of the loop of [handleFileDrop] shows: never a success
    toast; on a success no error toast, one call of [createShortcut] and
    the callback (when given); on a failure one error toast, at most one
    call of [createShortcut] and no callback. *)
Definition itemAccount (hasCallback : bool) (filePath : string)
           (counts counts' : nat * nat) (delta : list Event) : Prop :=
  toastSuccesses delta = 0 /\
  ((counts' = (S (fst counts), snd counts) /\
    toastErrors delta = 0 /\
    length (createCalls delta) = 1 /\
    fileAdded delta = if hasCallback then [filePath] else [])
   \/
   (counts' = (fst counts, S (snd counts)) /\
    toastErrors delta = 1 /\
    length (createCalls delta) <= 1 /\
    fileAdded delta = [])).

(** ** Driving the listener and the debounced function *)

(** Does the event leave the drop zone highlighted? *)
Definition hovering (ev : Hook.DragEvent) : bool :=
  match ev with
  | Hook.Enter _ | Hook.Over => true
  | Hook.Drop _ | Hook.Leave => false
  end.

Definition droppedOf (ev : Hook.DragEvent) : list (list string) :=
  match ev with
  | Hook.Drop paths => [paths]
  | _ => []
  end.

(** The listener of [onDragDropEvent] on a stream of events; the result
    is the path lists it hands to the debounced handler, in order. *)
Fixpoint listenAll {World : Type} (events : list Hook.DragEvent)
  : M World Hook.HookState (list (list string)) :=
  match events with
  | [] => ret []
  | ev :: rest =>
      d <- @Hook.onDragDropEvent World ev ;;
      ds <- listenAll rest ;;
      ret (match d with Some paths => paths :: ds | None => ds end)
  end.

Module DebounceRun.
Import Debounce.

Section DebounceRun.

Variable Args : Type.

(** What happens to one debounced function: it is called, or time
    passes. *)
Inductive Op :=
| Call (args : Args)
| Tick (t : nat).

Definition apply (wait : nat) (d : State Args) (op : Op) : State Args :=
  match op with
  | Call args => invoke wait args d
  | Tick t => advance t d
  end.

Definition run (wait : nat) (ops : list Op) (d : State Args) : State Args :=
  fold_left (apply wait) ops d.

Definition callsOf (ops : list Op) : list Args :=
  flat_map (fun op => match op with Call a => [a] | Tick _ => [] end) ops.

(** A burst: calls at given times, one after the other. *)
Definition runBurst (wait : nat) (burst : list (nat * Args)) (d : State Args)
  : State Args :=
  fold_left (fun d c => invoke wait (snd c) (advance (fst c) d)) burst d.

(** Each call of the burst comes less than [wait] after the one before
    it (the one before the first is at time [t]). *)
Fixpoint chained (wait t : nat) (burst : list (nat * Args)) : Prop :=
  match burst with
  | [] => True
  | c :: rest => t <= fst c /\ fst c < t + wait /\ chained wait (fst c) rest
  end.

(** The state right after a call at time [t] with [args]: its timer is the
    only one armed. *)
Definition armedWith (wait : nat) (d : State Args) (t : nat) (args : Args)
           (E : list Args) : Prop :=
  exists h,
    timers d = [mkTimer h (t + wait) args] /\
    timeout d = Some h /\
    now d = t /\
    executed d = E.

End DebounceRun.

End DebounceRun.

(** [l1] is [l2] with some elements left out (the order is kept). *)
Inductive subseq {A : Type} : list A -> list A -> Prop :=
| subseq_nil : subseq [] []
| subseq_skip x l1 l2 : subseq l1 l2 -> subseq l1 (x :: l2)
| subseq_take x l1 l2 : subseq l1 l2 -> subseq (x :: l1) (x :: l2).

(** ** Relating two states of the list *)


(** The icon [processFile] passes on: [iconResult.icon_data], or nothing
    when the call throws or returns [null]. *)
Definition iconOf (r : Result (option Types.IconResult)) : option string :=
  match r with
  | inl (Some i) => Some (Types.icon_data i)
  | _ => None
  end.

(** An item as the list can show it: an item in error carries its
    message, a pending item carries none. *)
Definition consistent (f : Batch.FileItem) : Prop :=
  (Batch.status f = Batch.Error -> Batch.error f <> None) /\
  (Batch.status f = Batch.Pending -> Batch.error f = None).

(** A suspended call of [processBatch] as [enterLoop] leaves it: its
    snapshot is not paused and its index is inside the list of the
    snapshot. *)
Definition liveRun (r : Batch.Run) : Prop :=
  Batch.isPaused (Batch.snap r) = false /\
  Batch.index r < length (Batch.files (Batch.snap r)).

(** ** The dialog of [ShortcutGrid] (src/components/ShortcutGrid.tsx) *)

Module Grid.

(** The [shortcutForm] state (lines 42-47). *)
Record Form := mkForm {
  name : string;
  description : string;
  file_path : string;
  icon_path : string
}.

Definition emptyForm : Form := mkForm "" "" "" "".

(** The four [useState] cells of the component (lines 39-47). *)
Record GridState := mkGrid {
  isDialogOpen : bool;
  isBatchProcessorOpen : bool;
  isAddingShortcut : bool;
  shortcutForm : Form
}.

Definition initialState : GridState := mkGrid false false false emptyForm.

Definition setIsDialogOpen (v : bool) (g : GridState) :=
  mkGrid v (isBatchProcessorOpen g) (isAddingShortcut g) (shortcutForm g).
Definition setIsAddingShortcut (v : bool) (g : GridState) :=
  mkGrid (isDialogOpen g) (isBatchProcessorOpen g) v (shortcutForm g).
Definition setShortcutForm (f : Form -> Form) (g : GridState) :=
  mkGrid (isDialogOpen g) (isBatchProcessorOpen g) (isAddingShortcut g)
         (f (shortcutForm g)).

(** The methods of [dataService] that the dialog calls.  [getFileIcon] has
    one argument here, and of the [Shortcut] that [createShortcut] returns
    only the [name] is read. *)
Record GridService (World : Type) := mkGridService {
  validateFilePath : string -> World -> Result bool * World;
  checkFileExists : string -> World -> Result bool * World;
  getFileIcon : string -> World -> Result (option Types.IconResult) * World;
  createShortcut : Types.CreateShortcutRequest -> World -> Result string * World
}.

Section Grid.

Variable World : Type.
(** The props: [dataService], [categoryId] and the optional
    [onShortcutAdded] (code of the parent: it may do anything to the
    world, and it may throw). *)
Variable dataService : GridService World.
Variable categoryId : string.
Variable onShortcutAdded : option (World -> Result unit * World).

Let IO := M World GridState.

(** Lines 29-37: the [onFileAdded] callback handed to the drop zone. *)
Definition handleFileAdded (filePath : string) : IO unit :=
  emit (ConsoleLog "[ShortcutGrid] DragDropZone onFileAdded回调被触发") ;;
  match onShortcutAdded with
  | Some notify =>
      emit (ConsoleLog "[ShortcutGrid] 调用onShortcutAdded") ;;
      call notify
  | None => emit (ConsoleLog "[ShortcutGrid] onShortcutAdded未定义")
  end.

(** Lines 49-57. *)
Definition handleAddShortcut : IO unit :=
  setStore (setIsDialogOpen true) ;;
  setStore (setShortcutForm (fun _ => emptyForm)).

(** Lines 124-141: the icon of the request. *)
Definition chooseIcon (form : Form) : IO (option string) :=
  if negb (isEmpty (icon_path form)) then
    emit (ConsoleLog "Using custom icon path:") ;;
    ret (Some (icon_path form))
  else
    tryCatch
      (emit (ConsoleLog "Getting file icon for:") ;;
       iconResult <- call (getFileIcon dataService (file_path form)) ;;
       emit (ConsoleLog "File icon result:") ;;
       ret (Hook.truthyIcon iconResult))
      (fun _ => emit (ConsoleWarn "获取文件图标失败:") ;; ret None).

(** Lines 98-164: the body of the [try]. *)
Definition submitBody (form : Form) : IO unit :=
  setStore (setIsAddingShortcut true) ;;
  emit (ConsoleLog "Validating file path:") ;;
  isValid <- call (validateFilePath dataService (file_path form)) ;;
  emit (ConsoleLog "File path validation result:") ;;
  if negb isValid then
    emit (ConsoleLog "File path validation failed") ;;
    emit (ToastError "文件路径无效")
  else
    emit (ConsoleLog "Checking if file exists:") ;;
    exists_ <- call (checkFileExists dataService (file_path form)) ;;
    emit (ConsoleLog "File exists check result:") ;;
    if negb exists_ then
      emit (ConsoleLog "File does not exist") ;;
      emit (ToastError "文件不存在")
    else
      iconPath <- chooseIcon form ;;
      emit (ConsoleLog "Creating shortcut with data:") ;;
      let request :=
        Types.mkRequest (name form) (file_path form) categoryId iconPath in
      emit (CreateShortcutCall request) ;;
      shortcutName <- call (createShortcut dataService request) ;;
      emit (ConsoleLog "Shortcut created successfully:") ;;
      emit (ToastSuccess ("已添加快捷方式: " ++ shortcutName)) ;;
      setStore (setIsDialogOpen false) ;;
      match onShortcutAdded with
      | Some notify => call notify
      | None => ret tt
      end.

(** Lines 81-171.  The handler is created at each render: [shortcutForm]
    is the form of the render in which the button was clicked.  The call
    is taken as a whole, with nothing between its [await]s. *)
Definition handleSubmitShortcut : IO unit :=
  st <- getStore ;;
  let form := shortcutForm st in
  emit (ConsoleLog "handleSubmitShortcut called") ;;
  emit (ConsoleLog "shortcutForm:") ;;
  if isEmpty (file_path form) then
    emit (ConsoleLog "No file path provided") ;;
    emit (ToastError "请选择文件")
  else if isEmpty (name form) then
    emit (ConsoleLog "No name provided") ;;
    emit (ToastError "请输入快捷方式名称")
  else
    tryFinally
      (tryCatch
         (submitBody form)
         (fun _ =>
            emit (ConsoleError "添加快捷方式失败:") ;;
            emit (ToastError "添加快捷方式失败")))
      (setStore (setIsAddingShortcut false)).

End Grid.

End Grid.

(** The toasts of a trace, oldest first. *)
Definition toasts (l : list Event) : list Event := rev (filter isToast l).

(** ** A concrete world for examples *)

Module Demo.

(** The shortcuts created so far and a counter for fresh ids. *)
Definition World : Type := (list Types.CreateShortcutRequest * nat)%type.

Definition pathInfoOf (p : string) : Types.FileInfo :=
  if p =? "/tmp/a.txt" then Types.mkFileInfo false "a.txt"
  else if p =? "/tmp/b.txt" then Types.mkFileInfo false "b.txt"
  else if p =? "/missing/b" then Types.mkFileInfo false "b"
  else if p =? "/tmp/docs" then Types.mkFileInfo true "docs"
  else Types.mkFileInfo false p.

Definition folderIcon : string := "data:image/png;base64,AAAA".

(** Every path is legal; every path but "/missing/b" exists; the icon of a
    file cannot be extracted (the call throws), a directory has one;
    creation always succeeds. *)
Definition service : DataService World :=
  mkDataService
    (fun p w => (inl (pathInfoOf p), w))
    (fun _ w => (inl true, w))
    (fun _ w => (inl true, w))
    (fun p w => (inl (negb (p =? "/missing/b")), w))
    (fun _ _ w => (inr (ThrownValue "icon extraction failed"), w))
    (fun _ _ w => (inl (Some (Types.mkIconResult folderIcon)), w))
    (fun r w => (inl tt, (fst w ++ [r], snd w)))
    (fun w => (inl None, w)).

Definition newId (w : World) : string * World :=
  (("item-" ++ showNat (snd w))%string, (fst w, S (snd w))).

(** The paths of the examples carry no white space. *)
Definition trim (s : string) : string := s.

Definition emptyWorld : World := ([], 0).

Definition categoryId : string := "tools".

(** The hook at rest. *)
Definition idle : Sys World Hook.HookState :=
  mkSys (Hook.mkHook false false false) emptyWorld [].

(** The paths of one drop: the first exists, the second does not. *)
Definition droppedPaths : list string := ["/tmp/a.txt"; "/missing/b"].

(** The execution for that drop, suspended at its first [await]. *)
Definition firstDrop : Hook.DropRun := Hook.mkDropRun droppedPaths droppedPaths (0, 0).

Definition busy : Sys World Hook.HookState :=
  snd (Hook.beginDrop categoryId droppedPaths idle).

Definition handleFileDrop := Hook.handleFileDrop service categoryId true.

Definition dropAlone := Hook.dropAlone service categoryId true.

(** The batch processor right after mounting. *)
Definition mounted : Batch.Config World :=
  (mkSys Batch.initialState emptyWorld [], []).

Definition step := Batch.step service categoryId true newId trim.
Definition steps := Batch.steps service categoryId true newId trim.

Definition filesOf (c : Batch.Config World) : list Batch.FileItem :=
  Batch.files (store (fst c)).

Definition statuses (c : Batch.Config World) : list Batch.Status :=
  map Batch.status (filesOf c).

(** A list of two items, typed in one after the other. *)
Definition twoItems : list Batch.Action :=
  [Batch.DoAddFilePath "/tmp/a.txt"; Batch.DoAddFilePath "/tmp/b.txt"].

(** A directory and a path that does not exist, typed in and processed to
    the end. *)
Definition finishedRun : list Batch.Action :=
  [Batch.DoAddFilePath "/tmp/docs"; Batch.DoAddFilePath "/missing/b";
   Batch.DoStart; Batch.DoResume 0; Batch.DoResume 0;
   Batch.DoResume 0; Batch.DoResume 0].

Definition finished : Batch.Config World := steps finishedRun mounted.

Definition allEnabled := Batch.allEnabled service categoryId true newId trim.

(** A click on start and the call continued to the end of two items. *)
Definition runToEnd : list Batch.Action :=
  [Batch.DoStart; Batch.DoResume 0; Batch.DoResume 0;
   Batch.DoResume 0; Batch.DoResume 0].

(** One item, typed in and processed to the end. *)
Definition oneItemRun : list Batch.Action :=
  [Batch.DoAddFilePath "/tmp/a.txt"; Batch.DoStart;
   Batch.DoResume 0; Batch.DoResume 0].

Definition oneItemDone : Batch.Config World := steps oneItemRun mounted.

(** Two items; start; the first item completes; pause. *)
Definition pauseAfterFirst : list Batch.Action :=
  twoItems ++ [Batch.DoStart; Batch.DoResume 0; Batch.DoTogglePause].

Definition pausedAfterFirst : Batch.Config World := steps pauseAfterFirst mounted.

(** Two calls in flight continued until both have ended. *)
Definition drainTwo : list Batch.Action :=
  [Batch.DoResume 0; Batch.DoResume 0; Batch.DoResume 0; Batch.DoResume 0;
   Batch.DoResume 0; Batch.DoResume 0; Batch.DoResume 0].

(** A file whose icon cannot be extracted, alone in the list. *)
Definition textFile : Batch.FileItem :=
  Batch.mkFileItem "item-0" "/tmp/a.txt" "a.txt" false Batch.Pending None None.

Definition withTextFile : Sys World Batch.BatchState :=
  mkSys (Batch.mkBatch [textFile] false false 0%Q 0) emptyWorld [].

End Demo.

(** ** A world where creation fails *)

Module DemoMore.

(** As [Demo.service], but [createShortcut] throws an [Error]. *)
Definition fullDisk : DataService Demo.World :=
  mkDataService
    (getPathInfo Demo.service)
    (validateFilePath Demo.service)
    (validateDirectoryPath Demo.service)
    (checkFileExists Demo.service)
    (getFileIcon Demo.service)
    (getDirectoryIcon Demo.service)
    (fun _ w => (inr (ErrorObject "磁盘已满"), w))
    (openFileDialog Demo.service).

(** An item for a path that does not exist, alone in the list. *)
Definition missingFile : Batch.FileItem :=
  Batch.mkFileItem "item-0" "/missing/b" "b" false Batch.Pending None None.

Definition withMissingFile : Sys Demo.World Batch.BatchState :=
  mkSys (Batch.mkBatch [missingFile] false false 0%Q 0) Demo.emptyWorld [].

(** A directory, alone in the list. *)
Definition docs : Batch.FileItem :=
  Batch.mkFileItem "item-0" "/tmp/docs" "docs" true Batch.Pending None None.

Definition withDocs : Sys Demo.World Batch.BatchState :=
  mkSys (Batch.mkBatch [docs] false false 0%Q 0) Demo.emptyWorld [].

(** One gesture reported three times, then nothing. *)
Definition tripleDrop : list (nat * list string) :=
  [(100, ["/tmp/a.txt"; "/tmp/b.txt"]); (250, ["/tmp/b.txt"])].

End DemoMore.

(** ** A dialog for examples *)

Module GridDemo.

(** Every path is valid; every path but "/missing/b" exists; no icon can
    be extracted; creation appends the request and returns its name. *)
Definition service : Grid.GridService Demo.World :=
  Grid.mkGridService
    (fun _ w => (inl true, w))
    (fun p w => (inl (negb (p =? "/missing/b")), w))
    (fun _ w => (inr (ThrownValue "icon extraction failed"), w))
    (fun r w => (inl (Types.name r), (fst w ++ [r], snd w))).

(** The dialog open with nothing filled in. *)
Definition blank : Sys Demo.World Grid.GridState :=
  mkSys (Grid.mkGrid true false false Grid.emptyForm) Demo.emptyWorld [].

(** The dialog open with a name, a path and an icon of the user. *)
Definition filled : Sys Demo.World Grid.GridState :=
  mkSys (Grid.mkGrid true false false
           (Grid.mkForm "notes" "" "/tmp/a.txt" "/icons/notes.png"))
        Demo.emptyWorld [].

(** A parent whose refresh does nothing that can be seen. *)
Definition refresh (w : Demo.World) : Result unit * Demo.World := (inl tt, w).

(** A parent whose refresh throws. *)
Definition failingRefresh (w : Demo.World) : Result unit * Demo.World :=
  (inr (ErrorObject "reload failed"), w).

End GridDemo.
(** ** Running the effects *)

Section Running.

Variables (World St : Type).

Lemma io_bind {A B} (m : M World St A) (k : A -> M World St B) s :
  bind m k s
  = match m s with
    | (inl a, s') => k a s'
    | (inr e, s') => (inr e, s')
    end.
Proof. reflexivity. Qed.

Lemma io_step_then {A B C} (m : M World St A) (f : A -> B)
      (h : Thrown -> M World St B) (k : B -> M World St C) s a s1 :
  m s = (inl a, s1) ->
  bind (tryCatch (bind m (fun c => ret (f c))) h) k s = k (f a) s1.
Proof. intros H. unfold bind, tryCatch, ret. rewrite H. reflexivity. Qed.

Lemma io_first_step {A B C} (m : M World St A) (k1 : A -> M World St B)
      (k2 : B -> M World St C) (h : Thrown -> M World St C)
      (fin : M World St unit) s a s1 :
  m s = (inl a, s1) ->
  tryFinally (tryCatch (bind (bind m k1) k2) h) fin s
  = tryFinally (tryCatch (bind (k1 a) k2) h) fin s1.
Proof. intros H. unfold tryFinally, tryCatch, bind. rewrite H. reflexivity. Qed.

End Running.

(** ** Properties of the drop handler *)

Lemma processedPaths_app l1 l2 :
  processedPaths (l1 ++ l2) = processedPaths l1 ++ processedPaths l2.
Proof. apply flat_map_app. Qed.

Lemma batchSummaries_app l1 l2 :
  batchSummaries (l1 ++ l2) = batchSummaries l1 ++ batchSummaries l2.
Proof. apply flat_map_app. Qed.

Module HookFacts.
Import Hook.

Section HookFacts.

Variable World : Type.
Variable dataService : DataService World.
Variable categoryId : string.
Variable hasOnFileAdded : bool.

Let dropItem := dropItem dataService categoryId hasOnFileAdded.
Let handleFileDrop := handleFileDrop dataService categoryId hasOnFileAdded.

Ltac run_io :=
  cbv beta iota delta
    [Hook.dropItem Hook.fetchIcon Hook.logDragEvent bind tryCatch tryFinally
     emit call ret when getStore setStore];
  cbn [store world trace fst snd].

Ltac run_top :=
  cbv beta iota delta
    [Hook.logDragEvent bind tryCatch tryFinally
     emit call ret when getStore setStore];
  cbn [store world trace fst snd].

Ltac split_call :=
  match goal with
  | |- context [let (_, _) := ?f (world ?s) in _] =>
      let r := fresh "r" in let w := fresh "w" in
      destruct (f (world s)) as [r w]; destruct r
  | |- context [let (_, _) := ?f ?w0 in _] =>
      let r := fresh "r" in let w := fresh "w" in
      destruct (f w0) as [r w]; destruct r
  end; cbn [store world trace fst snd].

Lemma delta_cons (e : Event) l d t : l = d ++ t -> e :: l = (e :: d) ++ t.
Proof. intros ->. reflexivity. Qed.

Lemma delta_nil (t : list Event) : t = [] ++ t.
Proof. reflexivity. Qed.

Lemma delta_app (l d1 d2 t : list Event) :
  l = d2 ++ t -> d1 ++ l = (d1 ++ d2) ++ t.
Proof. intros ->. apply app_assoc. Qed.

Ltac find_delta := repeat apply delta_cons; apply delta_nil.

Ltac close_turn :=
  do 2 eexists; split; [reflexivity|];
  cbn [store world trace fst snd];
  split; [reflexivity|];
  split; [(left; reflexivity) || (right; reflexivity)|];
  eexists; split; [find_delta|]; split; reflexivity.

Lemma dropItem_turn filePath counts s :
  exists counts' s',
    dropItem filePath counts s = (inl counts', s') /\
    itemTurn filePath counts s counts' s'.
Proof.
  destruct counts as [successCount errorCount].
  unfold dropItem, itemTurn. run_io.
  destruct (isEmpty filePath); run_io; [close_turn|].
  split_call; [|close_turn].
  split_call; [|close_turn].
  match goal with |- context [negb ?b] => destruct b end;
    cbn [negb]; run_io; [|close_turn].
  split_call; [|close_turn].
  match goal with |- context [negb ?b] => destruct b end;
    cbn [negb]; run_io; [|close_turn].
  split_call; run_io; (split_call; [|close_turn]);
    destruct hasOnFileAdded; run_io; close_turn.
Qed.

(** The automatic path isolates a failing icon call in the same way as
    [processFile]: when the other steps succeed, a path whose icon call
    throws, returns nothing or returns no data counts as a success and its
    shortcut is created without an icon. *)
Lemma dropItem_icon_failure (filePath : string) (counts : nat * nat)
      (s : Sys World HookState) (info : Types.FileInfo)
      (w0 w1 w2 w3 w4 : World) (r : Result (option Types.IconResult)) :
  isEmpty filePath = false ->
  getPathInfo dataService filePath (world s) = (inl info, w0) ->
  (if Types.is_directory info
   then validateDirectoryPath dataService
   else validateFilePath dataService) filePath w0 = (inl true, w1) ->
  checkFileExists dataService filePath w1 = (inl true, w2) ->
  (if Types.is_directory info
   then getDirectoryIcon dataService
   else getFileIcon dataService) filePath true w2 = (r, w3) ->
  (r = inl None \/ r = inl (Some (Types.mkIconResult "")) \/ exists e, r = inr e) ->
  createShortcut dataService
    (Types.mkRequest (shortcutName (Types.is_directory info) (Types.file_name info))
                     filePath categoryId None) w3 = (inl tt, w4) ->
  exists s',
    dropItem filePath counts s = (inl (S (fst counts), snd counts), s') /\
    world s' = w4 /\
    createCalls (rev (trace s'))
    = createCalls (rev (trace s))
      ++ [Types.mkRequest (shortcutName (Types.is_directory info) (Types.file_name info))
                          filePath categoryId None].
Proof.
  intros Hpath Hinfo Hvalid Hexists Hicon Hr Hcreate.
  destruct counts as [successCount errorCount].
  unfold dropItem. run_io. rewrite Hpath. run_io.
  rewrite Hinfo. cbn [store world trace].
  rewrite Hvalid. cbn [negb store world trace].
  rewrite Hexists. cbn [negb store world trace].
  rewrite Hicon.
  destruct Hr as [-> | [-> | [e ->]]]; cbn [store world trace truthyIcon isEmpty Types.icon_data isSome];
    rewrite Hcreate; cbn [store world trace];
    destruct hasOnFileAdded; run_io;
    (eexists; split; [reflexivity|]; split; [reflexivity|];
     cbn [trace rev]; unfold createCalls;
     rewrite ?flat_map_app; cbn [flat_map app];
     rewrite ?app_nil_r, <- ?app_assoc; cbn [app]; reflexivity).
Qed.

(** The loop over the dropped paths. *)
Lemma forOf_dropItem paths : forall counts s,
  exists counts' s' delta,
    forOf paths dropItem counts s = (inl counts', s') /\
    store s' = store s /\
    fst counts' + snd counts' = fst counts + snd counts + length paths /\
    trace s' = delta ++ trace s /\
    processedPaths (rev delta) = paths /\
    batchSummaries (rev delta) = [].
Proof.
  induction paths as [|filePath rest IH]; intros counts s.
  - exists counts, s, []. cbn. repeat split; lia.
  - destruct (dropItem_turn filePath counts s)
      as (c1 & s1 & Hrun & Hst & Hcnt & d1 & Htr & Hpp & Hbs).
    destruct (IH c1 s1) as (c2 & s2 & d2 & Hrun2 & Hst2 & Hcnt2 & Htr2 & Hpp2 & Hbs2).
    exists c2, s2, (d2 ++ d1).
    cbn [forOf]. unfold bind at 1. rewrite Hrun, Hrun2.
    repeat split.
    + congruence.
    + cbn [length]. destruct Hcnt as [-> | ->]; cbn [fst snd] in *; lia.
    + rewrite Htr2, Htr. apply app_assoc.
    + rewrite rev_app_distr, processedPaths_app, Hpp, Hpp2. reflexivity.
    + rewrite rev_app_distr, batchSummaries_app, Hbs, Hbs2. reflexivity.
Qed.


(** C4.  A dispatch that finds the busy flag set returns at once: the
    React state and the ref are what they were, no collaborator has been
    called (so no shortcut is created), and the only thing written is one
    console line (no toast). *)
Theorem handleFileDrop_busy (filePaths : list string) (s : Sys World HookState) :
  isProcessingRef (store s) = true ->
  exists s' msg,
    handleFileDrop filePaths s = (inl tt, s') /\
    store s' = store s /\
    world s' = world s /\
    trace s' = ConsoleLog msg :: trace s /\
    processedPaths (history s') = processedPaths (history s) /\
    createCalls (history s') = createCalls (history s) /\
    filter isToast (history s') = filter isToast (history s).
Proof.
  intros Hbusy.
  unfold handleFileDrop, Hook.handleFileDrop.
  unfold bind at 1, getStore. rewrite Hbusy. unfold emit.
  do 2 eexists. split; [reflexivity|].
  unfold history, createCalls. cbn [store world trace rev].
  rewrite processedPaths_app, flat_map_app, filter_app. cbn.
  rewrite !app_nil_r. repeat split.
Qed.

(** C10 (as the code has it).  Every execution that passes the busy guard
    returns normally, whatever the collaborators return or throw, and ends
    with the busy flag and [isProcessing] both false. *)
Theorem handleFileDrop_releases (filePaths : list string) (s : Sys World HookState) :
  isProcessingRef (store s) = false ->
  exists s',
    handleFileDrop filePaths s = (inl tt, s') /\
    isProcessingRef (store s') = false /\
    isProcessing (store s') = false.
Proof.
  intros Hfree.
  unfold handleFileDrop, Hook.handleFileDrop.
  unfold bind at 1, getStore. rewrite Hfree.
  destruct filePaths as [|p0 rest].
  - run_io. cbn. eexists. repeat split.
  - change (Nat.eqb (length (p0 :: rest)) 0) with false.
    set (paths := p0 :: rest).
    run_top. fold dropItem.
    match goal with
    | |- context [forOf paths dropItem (0, 0) ?s0] =>
        destruct (forOf_dropItem paths (0, 0) s0)
          as ([sc ec] & s1 & d & Hrun & Hst & _);
        rewrite Hrun
    end.
    destruct (Nat.ltb 0 sc), (Nat.ltb 0 ec); run_top;
      eexists; repeat split.
Qed.

(** *** The execution in steps and the execution as a whole *)

Lemma summary_runs (filePaths : list string) counts (s : Sys World HookState) :
  exists s',
    @Hook.summary World filePaths counts s = (inl tt, s') /\
    store s' = store s /\ world s' = world s.
Proof.
  destruct counts as [sc ec]. unfold Hook.summary. run_top.
  destruct (Nat.ltb 0 sc), (Nat.ltb 0 ec); run_top; eexists; repeat split.
Qed.

Lemma dropAlone_loop (filePaths rest : list string) :
  forall fuel counts (s : Sys World HookState),
    length rest < fuel ->
    Hook.dropAlone dataService categoryId hasOnFileAdded fuel
      (Some (mkDropRun filePaths rest counts)) s
    = tryFinally
        (tryCatch
           (bind (forOf rest dropItem counts) (@Hook.summary World filePaths))
           (@Hook.giveUp World))
        (@Hook.release World) s.
Proof.
  induction rest as [|filePath rest IH]; intros fuel counts s Hfuel.
  - destruct fuel as [|fuel]; [inversion Hfuel|].
    cbn [Hook.dropAlone]. unfold Hook.resumeDrop. cbn [waiting dropped dropCounts forOf].
    destruct (summary_runs filePaths counts s) as (s' & Hrun & _).
    unfold bind, tryFinally, tryCatch, ret. rewrite Hrun.
    unfold Hook.release, bind, setStore. destruct fuel; reflexivity.
  - destruct fuel as [|fuel]; [inversion Hfuel|].
    cbn [Hook.dropAlone]. unfold Hook.resumeDrop. cbn [waiting dropped dropCounts forOf].
    fold dropItem.
    destruct (dropItem_turn filePath counts s) as (c & s1 & Hrun & _).
    assert (Hf : length rest < fuel) by (cbn [length] in Hfuel; lia).
    specialize (IH fuel c s1 Hf).
    rewrite (io_step_then _ _ _ _ _ Hrun).
    rewrite IH.
    symmetry. apply io_first_step. exact Hrun.
Qed.

(** One dispatch that nothing interleaves with, taken in steps, is
    [handleFileDrop]. *)
Lemma beginDrop_alone (filePaths : list string) (s : Sys World HookState) :
  bind (@Hook.beginDrop World categoryId filePaths)
       (Hook.dropAlone dataService categoryId hasOnFileAdded (S (length filePaths))) s
  = handleFileDrop filePaths s.
Proof.
  unfold handleFileDrop, Hook.handleFileDrop, Hook.beginDrop.
  destruct filePaths as [|p0 rest].
  - unfold Hook.release. run_top.
    destruct (isProcessingRef (store s)); reflexivity.
  - change (Nat.eqb (length (p0 :: rest)) 0) with false.
    set (paths := p0 :: rest).
    run_top.
    destruct (isProcessingRef (store s)); [reflexivity|].
    cbn [store world trace].
    match goal with
    | |- Hook.dropAlone _ _ _ ?fuel (Some ?r) ?s0 = _ =>
        rewrite (@dropAlone_loop paths paths fuel (0, 0) s0 (Nat.lt_succ_diag_r _))
    end.
    unfold Hook.summary, Hook.giveUp, Hook.release. run_top. reflexivity.
Qed.

End HookFacts.
End HookFacts.

(** ** Properties of [debounce] *)

Module DebounceFacts.
Import Debounce.

Section DebounceFacts.

Variable Args : Type.

Lemma armedOk_init (t : nat) : armedOk (init Args t).
Proof. exact I. Qed.

(** Whatever was armed before, after a call exactly one timer is armed,
    due [wait] later, with the arguments of this call: the call before it,
    if it was still waiting, is superseded. *)
Lemma invoke_arms (wait : nat) (args : Args) (d : State Args) :
  armedOk d ->
  timers (invoke wait args d) = [mkTimer (nextHandle d) (now d + wait) args] /\
  timeout (invoke wait args d) = Some (nextHandle d).
Proof.
  unfold armedOk, invoke. cbn [timers timeout].
  destruct (timers d) as [|tm [|tm' l]]; intros Hok.
  - destruct (timeout d); cbn; split; reflexivity.
  - rewrite Hok. cbn. rewrite Nat.eqb_refl. cbn. split; reflexivity.
  - contradiction.
Qed.

Lemma armedOk_invoke (wait : nat) (args : Args) (d : State Args) :
  armedOk d -> armedOk (invoke wait args d).
Proof.
  intros Hok. destruct (@invoke_arms wait args d Hok) as [Ht Hc].
  unfold armedOk. rewrite Ht. exact Hc.
Qed.

Lemma armedOk_advance (t : nat) (d : State Args) :
  armedOk d -> armedOk (advance t d).
Proof.
  unfold armedOk, advance. cbn [timers timeout].
  destruct (timers d) as [|tm [|tm' l]]; intros Hok.
  - exact I.
  - cbn. destruct (isDue (Nat.max (now d) t) tm); cbn; [exact I|exact Hok].
  - contradiction.
Qed.

(** Time passing before the armed timer is due changes nothing but the
    clock. *)
Lemma advance_early (t : nat) (d : State Args) tm :
  timers d = [tm] ->
  Nat.max (now d) t < due tm ->
  timers (advance t d) = [tm] /\
  executed (advance t d) = executed d /\
  timeout (advance t d) = timeout d /\
  nextHandle (advance t d) = nextHandle d /\
  now (advance t d) = Nat.max (now d) t.
Proof.
  intros Harmed Hearly. unfold advance, isDue.
  cbn [timers executed timeout nextHandle now]. rewrite Harmed. cbn.
  apply Nat.leb_gt in Hearly. rewrite Hearly. cbn. repeat split.
Qed.

(** Once the armed timer is due, [func] runs with the arguments of the
    call that armed it. *)
Lemma advance_due (t : nat) (d : State Args) tm :
  timers d = [tm] ->
  due tm <= Nat.max (now d) t ->
  timers (advance t d) = [] /\
  executed (advance t d) = timerArgs tm :: executed d.
Proof.
  intros Harmed Hdue. unfold advance, isDue.
  cbn [timers executed]. rewrite Harmed. cbn.
  apply Nat.leb_le in Hdue. rewrite Hdue. cbn. split; reflexivity.
Qed.



End DebounceFacts.


Example debounce_burst :
  executions
    (advance 500 (invoke Hook.debounceWait ["/tmp/b.txt"]
       (advance 100 (invoke Hook.debounceWait ["/tmp/a.txt"]
          (init (list string) 0)))))
  = [["/tmp/b.txt"]].
Proof. reflexivity. Qed.

(** Outside the window both calls run. *)
Example debounce_two_gestures :
  executions
    (advance 1000 (invoke Hook.debounceWait ["/tmp/b.txt"]
       (advance 300 (invoke Hook.debounceWait ["/tmp/a.txt"]
          (init (list string) 0)))))
  = [["/tmp/a.txt"]; ["/tmp/b.txt"]].
Proof. reflexivity. Qed.

End DebounceFacts.

(** ** The drop handler on concrete inputs *)

Module HookExamples.
Import Hook.


Example handleFileDrop_scenario :
  batchSummaries (history (snd (Demo.handleFileDrop ["/tmp/a.txt"; "/missing/b"] Demo.idle)))
  = [(1, 1, 2)].
Proof. reflexivity. Qed.

Lemma handleFileDrop_busy_witness :
  exists s' msg,
    Demo.handleFileDrop ["/tmp/a.txt"] Demo.busy = (inl tt, s') /\
    store s' = store Demo.busy /\
    world s' = world Demo.busy /\
    trace s' = ConsoleLog msg :: trace Demo.busy /\
    processedPaths (history s') = processedPaths (history Demo.busy) /\
    createCalls (history s') = createCalls (history Demo.busy) /\
    filter isToast (history s') = filter isToast (history Demo.busy).
Proof.
  refine (@HookFacts.handleFileDrop_busy _ Demo.service Demo.categoryId true
            ["/tmp/a.txt"] Demo.busy _).
  reflexivity.
Defined.

Lemma handleFileDrop_releases_witness :
  exists s',
    Demo.handleFileDrop ["/tmp/a.txt"; "/missing/b"] Demo.idle = (inl tt, s') /\
    isProcessingRef (store s') = false /\
    isProcessing (store s') = false.
Proof.
  refine (@HookFacts.handleFileDrop_releases _ Demo.service Demo.categoryId true
            ["/tmp/a.txt"; "/missing/b"] Demo.idle _).
  reflexivity.
Defined.

(** C10, as stated, fails for an execution that the guard of line 64
    discards: it ends with the busy flag and [isProcessing] still true. *)
Lemma handleFileDrop_discarded_stays_busy :
  isProcessingRef (store (snd (Demo.handleFileDrop ["/tmp/a.txt"] Demo.busy))) = true /\
  isProcessing (store (snd (Demo.handleFileDrop ["/tmp/a.txt"] Demo.busy))) = true.
Proof. split; reflexivity. Qed.

(** A second dispatch while the first is in flight: the first execution
    is suspended with the busy flag set; the second is discarded and
    leaves the state as it is; the first goes on to its end, reports one
    success and one failure, and clears the flag. *)
Example dispatch_during_batch :
  Hook.beginDrop Demo.categoryId Demo.droppedPaths Demo.idle
  = (inl (Some Demo.firstDrop), Demo.busy) /\
  isProcessingRef (store Demo.busy) = true /\
  store (snd (Demo.handleFileDrop ["/tmp/b.txt"] Demo.busy)) = store Demo.busy /\
  batchSummaries
    (history (snd (Demo.dropAlone 3 (Some Demo.firstDrop)
                     (snd (Demo.handleFileDrop ["/tmp/b.txt"] Demo.busy)))))
  = [(1, 1, 2)] /\
  isProcessingRef
    (store (snd (Demo.dropAlone 3 (Some Demo.firstDrop)
                   (snd (Demo.handleFileDrop ["/tmp/b.txt"] Demo.busy)))))
  = false.
Proof. repeat split. Qed.

End HookExamples.

(** ** The shortcut name *)

Module NameFacts.

Lemma replaceExtension_no_dot (s : string) :
  includes "." s = false -> replaceExtension s = s.
Proof.
  induction s as [|c rest IH]; cbn [includes replaceExtension]; intros H.
  - reflexivity.
  - apply orb_false_iff in H. destruct H as [Hc Hrest].
    rewrite Hc. cbn [andb]. rewrite (IH Hrest). reflexivity.
Qed.

Lemma allChars_notSlashDot (s : string) :
  allChars notSlashDot s = negb (includes "." s) && allChars notSlash s.
Proof.
  induction s as [|c rest IH]; cbn [allChars includes].
  - reflexivity.
  - rewrite IH. unfold notSlashDot, notSlash.
    destruct (Ascii.eqb c "/"), (Ascii.eqb c "."), (includes "." rest),
      (allChars (fun c0 => negb (Ascii.eqb c0 "/")) rest); reflexivity.
Qed.

Lemma replaceExtension_spec (s : string) :
  includes "." s = true ->
  replaceExtension s = if hasExtension s then beforeLastDot s else s.
Proof.
  unfold hasExtension.
  induction s as [|c rest IH]; intros Hdot.
  - discriminate.
  - cbn [replaceExtension beforeLastDot afterLastDot].
    rewrite Hdot. cbn [andb].
    rewrite allChars_notSlashDot.
    destruct (includes "." rest) eqn:Hrest.
    + cbn [negb andb]. rewrite andb_false_r.
      rewrite (IH eq_refl). cbn [andb].
      destruct (negb (isEmpty (afterLastDot rest))
                && allChars notSlash (afterLastDot rest)); reflexivity.
    + cbn [includes] in Hdot. rewrite Hrest, orb_false_r in Hdot.
      rewrite Hdot. cbn [negb andb].
      rewrite (replaceExtension_no_dot rest Hrest).
      destruct (negb (isEmpty rest) && allChars notSlash rest); reflexivity.
Qed.

Lemma shortcutName_cases (isDirectory : bool) (name : string) :
  shortcutName isDirectory name
  = if negb isDirectory && hasExtension name
    then beforeLastDot name
    else name.
Proof.
  unfold shortcutName.
  destruct isDirectory; cbn [negb andb]; [reflexivity|].
  destruct (includes "." name) eqn:Hdot.
  - apply replaceExtension_spec. exact Hdot.
  - unfold hasExtension. rewrite Hdot. reflexivity.
Qed.

(** Where the code and the words of the specification agree. *)
Lemma shortcutName_agrees (isDirectory : bool) (name : string) :
  isDirectory = true \/ includes "." name = false \/ hasExtension name = true ->
  shortcutName isDirectory name = specShortcutName isDirectory name.
Proof.
  rewrite shortcutName_cases. unfold specShortcutName.
  intros [-> | [H | H]].
  - reflexivity.
  - unfold hasExtension. rewrite H. cbn. rewrite andb_false_r.
    destruct isDirectory; reflexivity.
  - rewrite H. unfold hasExtension in H.
    destruct (includes "." name); [|discriminate].
    destruct isDirectory; reflexivity.
Qed.

(** C9 (as the code has it).  The shortcut name is the display name with
    its last ['.'] and the text after it removed exactly when the item is
    a file whose display name has, after its last ['.'], at least one
    character and no ['/'] (there the words of the specification give the
    same name); in every other case (a directory, a name without ['.'], a
    name that ends in ['.']) it is the display name unmodified. *)
Theorem shortcutName_spec (isDirectory : bool) (name : string) :
  shortcutName isDirectory name
  = (if negb isDirectory && hasExtension name
     then beforeLastDot name
     else name) /\
  (if negb isDirectory && hasExtension name
   then shortcutName isDirectory name = specShortcutName isDirectory name
   else shortcutName isDirectory name = name).
Proof.
  split; [apply shortcutName_cases|].
  destruct (negb isDirectory && hasExtension name) eqn:E.
  - apply andb_true_iff in E. destruct E as [_ E].
    apply shortcutName_agrees. right. right. exact E.
  - rewrite shortcutName_cases, E. reflexivity.
Qed.

Example shortcutName_txt : shortcutName false "a.txt" = "a".
Proof. reflexivity. Qed.

Example shortcutName_tar_gz : shortcutName false "a.tar.gz" = "a.tar".
Proof. reflexivity. Qed.

Example shortcutName_directory : shortcutName true "docs.old" = "docs.old".
Proof. reflexivity. Qed.

Example shortcutName_dotfile : shortcutName false ".bashrc" = "".
Proof. reflexivity. Qed.

(** C9, as stated, fails for a file whose display name ends in ['.']: the
    name contains a ['.'], the words of the specification give "a", the
    code passes "a." on. *)
Lemma shortcutName_trailing_dot :
  includes "." "a." = true /\
  shortcutName false "a." = "a." /\
  specShortcutName false "a." = "a" /\
  shortcutName false "a." <> specShortcutName false "a.".
Proof. repeat split. discriminate. Qed.

End NameFacts.

(** ** Properties of the batch processor *)

Module BatchFacts.
Import Batch.

Section BatchFacts.

Variable World : Type.
Variable dataService : DataService World.
Variable categoryId : string.
Variable hasOnComplete : bool.
Variable newId : World -> string * World.
Variable trim : string -> string.

Let addFilePath := addFilePath dataService newId trim.
Let addFromDialog := addFromDialog dataService newId trim.
Let processFile := processFile dataService categoryId.
Let finishFile := finishFile dataService categoryId.
Let workFile := workFile dataService categoryId.
Let batchLoop := batchLoop dataService categoryId.
Let processBatch := processBatch dataService categoryId hasOnComplete.
Let endBatch := @endBatch World hasOnComplete.
Let enterLoop := @enterLoop World hasOnComplete.
Let startRun := @startRun World hasOnComplete.
Let resume := resume dataService categoryId hasOnComplete.
Let step := step dataService categoryId hasOnComplete newId trim.

Ltac run_batch :=
  cbv beta iota delta
    [Batch.processFile Batch.finishFile Batch.workFile Batch.failFile
     Batch.beginFile Batch.fetchIcon
     bind tryCatch tryFinally throw emit call ret when getStore setStore];
  cbn [store world trace fst snd].

Ltac split_call :=
  match goal with
  | |- context [let (_, _) := ?f (world ?s) in _] =>
      let r := fresh "r" in let w := fresh "w" in
      destruct (f (world s)) as [r w] eqn:?; destruct r
  | |- context [let (_, _) := ?f ?w0 in _] =>
      let r := fresh "r" in let w := fresh "w" in
      destruct (f w0) as [r w] eqn:?; destruct r
  end; cbn [store world trace fst snd].

(** [processFile] is its first step followed by what remains after the
    first [await]. *)
Lemma processFile_split (file : FileItem) (s : Sys World BatchState) :
  processFile file s = finishFile file (snd (Batch.beginFile file s)).
Proof. reflexivity. Qed.

Ltac close_outcome o :=
  exists o; eexists; split; [reflexivity|];
  cbn [store world trace fst snd outcomeOk applyOutcome];
  split; [reflexivity|]; reflexivity.

(** Whatever the collaborators do, what remains of [processFile] returns
    normally, with [true] and the item marked a success or with [false]
    and the item marked an error; it touches no other state and does not
    call [onComplete]. *)
Lemma finishFile_outcome (file : FileItem) (s : Sys World BatchState) :
  exists o s',
    finishFile file s = (inl (outcomeOk o), s') /\
    store s' = setFiles (updateById (id file) (applyOutcome o)) (store s) /\
    completions (trace s') = completions (trace s).
Proof.
  unfold finishFile. run_batch.
  split_call; [|close_outcome (Failed (errorMessage t))].
  match goal with |- context [negb ?b] => destruct b end;
    cbn [negb]; run_batch; [|close_outcome (Failed "路径无效")].
  split_call; [|close_outcome (Failed (errorMessage t))].
  match goal with |- context [negb ?b] => destruct b end;
    cbn [negb]; run_batch; [|close_outcome (Failed "文件或目录不存在")].
  split_call; run_batch.
  - destruct o; run_batch.
    + split_call; [close_outcome (Succeeded (Some (Types.icon_data i)))
                  |close_outcome (Failed (errorMessage t))].
    + split_call; [close_outcome (Succeeded None)
                  |close_outcome (Failed (errorMessage t))].
  - split_call; [close_outcome (Succeeded None)
                |close_outcome (Failed (errorMessage t0))].
Qed.


(** C7 (as the code has it).  [resetStatus] returns normally and leaves
    every item pending with no [error], [currentIndex] and [progress] at
    0; the ids, paths, names, kinds and [iconData] of the items, the two
    flags, the world and the trace are what they were. *)
Theorem resetStatus_spec (s : Sys World BatchState) :
  exists s',
    resetStatus s = (inl tt, s') /\
    Forall (fun f => status f = Pending /\ error f = None) (files (store s')) /\
    currentIndex (store s') = 0 /\
    progress (store s') = 0%Q /\
    map iconData (files (store s')) = map iconData (files (store s)) /\
    map (fun f => (id f, path f, name f, isDirectory f)) (files (store s'))
    = map (fun f => (id f, path f, name f, isDirectory f)) (files (store s)) /\
    isProcessing (store s') = isProcessing (store s) /\
    isPaused (store s') = isPaused (store s) /\
    world s' = world s /\
    trace s' = trace s.
Proof.
  eexists. split; [reflexivity|].
  cbn [store world trace files setFiles setProgress setCurrentIndex
       currentIndex progress isProcessing isPaused].
  repeat split.
  - apply Forall_forall. intros f Hf.
    apply in_map_iff in Hf. destruct Hf as (f0 & <- & _). split; reflexivity.
  - rewrite map_map. reflexivity.
  - rewrite map_map. reflexivity.
Qed.

(** *** One uninterrupted call of [processBatch] *)

Lemma processFile_outcome (file : FileItem) (s : Sys World BatchState) :
  exists o s',
    processFile file s = (inl (outcomeOk o), s') /\
    store s'
    = setFiles (updateById (id file) (applyOutcome o))
        (setFiles (updateById (id file) markProcessing) (store s)) /\
    completions (trace s') = completions (trace s).
Proof.
  rewrite processFile_split.
  destruct (finishFile_outcome file (snd (Batch.beginFile file s)))
    as (o & s' & Hrun & Hst & Htr).
  exists o, s'. repeat split; assumption.
Qed.

Lemma batchLoop_cons (snap : BatchState) (file : FileItem) (rest : list FileItem)
      i counts (s : Sys World BatchState) :
  isPaused snap = false ->
  batchLoop snap (file :: rest) i counts s
  = match processFile file (mkSys (setCurrentIndex i (store s)) (world s) (trace s)) with
    | (inl ok, s1) =>
        batchLoop snap rest (S i) (tally ok counts)
          (mkSys (setProgress (percent (i + 1) (length (files snap))) (store s1))
                 (world s1) (trace s1))
    | (inr e, s1) => (inr e, s1)
    end.
Proof.
  intros Hrun. unfold batchLoop. cbn [Batch.batchLoop]. rewrite Hrun.
  reflexivity.
Qed.

(** The loop of a call that was not created in a paused render visits
    every item that is left, adds one to one of its counters for each, and
    does not call [onComplete]. *)
Lemma batchLoop_runs (snap : BatchState) (items : list FileItem) :
  isPaused snap = false ->
  forall i counts s,
  exists counts' s',
    batchLoop snap items i counts s = (inl counts', s') /\
    fst counts' + snd counts' = fst counts + snd counts + length items /\
    completions (trace s') = completions (trace s) /\
    isPaused (store s') = isPaused (store s) /\
    (items <> [] -> currentIndex (store s') = i + length items - 1) /\
    map id (files (store s')) = map id (files (store s)).
Proof.
  intros Hrun.
  induction items as [|file rest IH]; intros i counts s.
  - exists counts, s. cbn. repeat split; try lia. congruence.
  - rewrite (batchLoop_cons snap file rest i counts s Hrun).
    match goal with
    | |- context [processFile file ?s0] =>
        destruct (processFile_outcome file s0) as (o & s1 & Hpf & Hst & Htr);
        rewrite Hpf
    end.
    match goal with
    | |- context [batchLoop snap rest (S i) ?c ?s2] =>
        destruct (IH (S i) c s2) as (c' & s' & Hloop & Hsum & Htr' & Hp & Hci & Hids)
    end.
    rewrite Hloop.
    exists c', s'. split; [reflexivity|].
    cbn [store world trace] in *. rewrite Hst in *.
    cbn [files isPaused currentIndex setFiles setProgress setCurrentIndex] in *.
    repeat split.
    + cbn [length]. rewrite Hsum. unfold tally.
      destruct (outcomeOk o); cbn [fst snd]; lia.
    + congruence.
    + assumption.
    + intros _. destruct rest as [|f2 rest'].
      * cbn in Hloop. injection Hloop as _ <-. cbn. lia.
      * rewrite Hci by discriminate. cbn [length]. lia.
    + rewrite Hids. unfold updateById. rewrite !map_map.
      apply map_ext. intros f.
      destruct (id f =? id file) eqn:E; cbn [markProcessing id].
      * rewrite E. destruct o; reflexivity.
      * rewrite E. reflexivity.
Qed.

(** The loop of a call created in a paused render leaves at once. *)
Lemma batchLoop_paused (snap : BatchState) (items : list FileItem) i counts
      (s : Sys World BatchState) :
  isPaused snap = true ->
  batchLoop snap items i counts s = (inl counts, s).
Proof.
  intros Hp. destruct items; cbn; [reflexivity|]. rewrite Hp. reflexivity.
Qed.

(** When does one uninterrupted call of [processBatch] on a non-empty list
    call [onComplete]?  Exactly when the [currentIndex] of the render that
    created the callback is at least [files.length - 1]; the loop has no
    part in it. *)
Lemma processBatch_completion (snap : BatchState) (s : Sys World BatchState) :
  files snap <> [] ->
  exists counts s',
    processBatch snap s = (inl tt, s') /\
    isProcessing (store s') = false /\
    completions (trace s')
    = (if Nat.leb (length (files snap) - 1) (currentIndex snap) && hasOnComplete
       then [counts] else [])
      ++ completions (trace s).
Proof.
  intros Hne.
  unfold processBatch, Batch.processBatch.
  destruct (files snap) as [|f0 fs] eqn:Hfiles; [congruence|].
  change (Nat.eqb (length (f0 :: fs)) 0) with false. cbv iota.
  rewrite <- Hfiles.
  unfold bind at 1. unfold setStore at 1.
  unfold bind at 1. unfold setStore at 1.
  unfold bind at 1. fold batchLoop.
  match goal with
  | |- context [batchLoop snap ?items ?i ?c ?s0] =>
      assert (Hloop : exists counts' s',
                batchLoop snap items i c s0 = (inl counts', s') /\
                completions (trace s') = completions (trace s))
  end.
  { destruct (isPaused snap) eqn:Hp.
    - rewrite batchLoop_paused by assumption. do 2 eexists. split; reflexivity.
    - match goal with
      | |- context [batchLoop snap ?items ?i ?c ?s0] =>
          destruct (batchLoop_runs snap items Hp i c s0)
            as (c' & s' & Hl & _ & Htr & _)
      end.
      exists c', s'. split; assumption. }
  destruct Hloop as (counts' & s1 & Hloop & Htr). rewrite Hloop.
  exists counts'.
  unfold Batch.endBatch.
  unfold bind at 1. unfold setStore at 1.
  destruct (Nat.leb (length (files snap) - 1) (currentIndex snap)).
  - destruct hasOnComplete; run_batch; eexists;
      (split; [reflexivity|]); cbn [store trace isProcessing setIsProcessing];
      (split; [reflexivity|]); unfold completions in *;
      cbn [flat_map app andb]; rewrite Htr;
      destruct counts'; reflexivity.
  - run_batch. eexists. split; [reflexivity|]. split; [reflexivity|].
    cbn [andb app trace]. exact Htr.
Qed.

(** In particular the first click on a list of two or more items, which
    is the call of a render with [currentIndex] 0, never calls
    [onComplete], however its items end. *)
Lemma processBatch_first_click_silent (snap : BatchState) (s : Sys World BatchState) :
  currentIndex snap = 0 ->
  2 <= length (files snap) ->
  exists s',
    processBatch snap s = (inl tt, s') /\
    completions (trace s') = completions (trace s).
Proof.
  intros Hci Hlen.
  assert (Hne : files snap <> []) by (destruct (files snap); cbn in *; [lia|discriminate]).
  destruct (processBatch_completion snap s Hne) as (c & s' & Hrun & _ & Hc).
  exists s'. split; [exact Hrun|].
  rewrite Hc, Hci.
  replace (Nat.leb (length (files snap) - 1) 0) with false; [reflexivity|].
  symmetry. apply Nat.leb_gt. lia.
Qed.

(** *** The status of an item across the operations *)

Lemma forward_markProcessing : forward markProcessing.
Proof. intros f. split; [reflexivity|discriminate]. Qed.

Lemma forward_applyOutcome (o : Outcome) : forward (applyOutcome o).
Proof. intros f. destruct o; (split; [reflexivity|discriminate]). Qed.

Lemma statusOf_updateById (x fileId : string) g (l : list FileItem) st :
  forward g ->
  statusOf x l = Some st ->
  st <> Pending ->
  statusOf x (updateById fileId g l) <> Some Pending.
Proof.
  intros Hg. unfold statusOf, updateById.
  induction l as [|f l IH]; cbn [map find]; intros Hst Hne.
  - discriminate.
  - destruct (Hg f) as [Hid Hnp].
    destruct (id f =? fileId).
    + rewrite Hid. destruct (id f =? x).
      * cbn. congruence.
      * apply IH; assumption.
    + destruct (id f =? x).
      * cbn in *. congruence.
      * apply IH; assumption.
Qed.

Lemma statusOf_filter (x fileId : string) (l : list FileItem) :
  statusOf x (filter (fun file => negb (id file =? fileId)) l)
  = if x =? fileId then None else statusOf x l.
Proof.
  unfold statusOf.
  induction l as [|f l IH]; cbn [filter find].
  - destruct (x =? fileId); reflexivity.
  - destruct (id f =? fileId) eqn:Ef; cbn [negb].
    + rewrite IH. destruct (x =? fileId) eqn:Ex; [reflexivity|].
      apply String.eqb_eq in Ef. rewrite Ef.
      rewrite String.eqb_sym, Ex. reflexivity.
    + cbn [find]. destruct (id f =? x) eqn:Efx.
      * apply String.eqb_eq in Efx. rewrite <- Efx, Ef. reflexivity.
      * exact IH.
Qed.

Lemma statusOf_app (x : string) (l : list FileItem) (f : FileItem) st :
  statusOf x l = Some st -> statusOf x (l ++ [f]) = Some st.
Proof.
  unfold statusOf.
  induction l as [|f0 l IH]; cbn [app find]; intros H.
  - discriminate.
  - destruct (id f0 =? x); [exact H|apply IH; exact H].
Qed.

(** What the user operations do to the list. *)
Lemma addFilePath_files (p : string) (s : Sys World BatchState) :
  files (store (snd (addFilePath p s))) = files (store s) \/
  exists f, files (store (snd (addFilePath p s))) = files (store s) ++ [f].
Proof.
  unfold addFilePath, Batch.addFilePath.
  destruct (isEmpty (trim p)); [left; reflexivity|].
  run_batch.
  destruct (getPathInfo dataService p (world s)) as [[info|e] w];
    cbn [store world trace]; [|left; reflexivity].
  destruct (newId w) as [i w']. cbn [store world trace snd].
  right. eexists. reflexivity.
Qed.

Lemma addFromDialog_files (s : Sys World BatchState) :
  files (store (snd (addFromDialog s))) = files (store s) \/
  exists f, files (store (snd (addFromDialog s))) = files (store s) ++ [f].
Proof.
  unfold addFromDialog, Batch.addFromDialog. run_batch.
  destruct (openFileDialog dataService (world s)) as [[[p|]|e] w];
    cbn [store world trace snd]; try (left; reflexivity).
  destruct (isEmpty p); [left; reflexivity|].
  fold addFilePath.
  pose proof (addFilePath_files p (mkSys (store s) w (trace s))) as H.
  unfold addFilePath in *.
  destruct (Batch.addFilePath dataService newId trim p (mkSys (store s) w (trace s)))
    as [[u|e] s1]; cbn [snd store] in *; exact H.
Qed.

Lemma endBatch_files snap counts (s : Sys World BatchState) :
  exists s',
    endBatch snap counts s = (inl tt, s') /\
    files (store s') = files (store s) /\
    world s' = world s /\
    isPaused (store s') = isPaused (store s) /\
    createCalls (trace s') = createCalls (trace s) /\
    isProcessing (store s') = false /\
    currentIndex (store s') = currentIndex (store s).
Proof.
  unfold endBatch, Batch.endBatch. run_batch.
  destruct (Nat.leb (length (files snap) - 1) (currentIndex snap)).
  - destruct hasOnComplete; run_batch; eexists; repeat split.
  - run_batch. eexists. repeat split.
Qed.

Lemma enterLoop_files snap i counts (s : Sys World BatchState) :
  exists r s',
    enterLoop snap i counts s = (inl r, s') /\
    filesStep (files (store s)) (files (store s')).
Proof.
  unfold enterLoop, Batch.enterLoop.
  destruct (nth_error (files snap) i) as [file|].
  - destruct (isPaused snap).
    + destruct (endBatch_files snap counts s) as (s' & Hrun & Hf & _).
      unfold endBatch in Hrun. unfold bind. rewrite Hrun.
      do 2 eexists. split; [reflexivity|]. left. exact Hf.
    + run_batch. do 2 eexists. split; [reflexivity|].
      right. exists (id file), markProcessing.
      split; [apply forward_markProcessing|reflexivity].
  - destruct (endBatch_files snap counts s) as (s' & Hrun & Hf & _).
    unfold endBatch in Hrun. unfold bind. rewrite Hrun.
    do 2 eexists. split; [reflexivity|]. left. exact Hf.
Qed.

Lemma startRun_files (s : Sys World BatchState) :
  exists r s',
    startRun s = (inl r, s') /\
    filesStep (files (store s)) (files (store s')).
Proof.
  unfold startRun, Batch.startRun.
  unfold bind at 1, getStore.
  destruct (Nat.eqb (length (files (store s))) 0).
  - run_batch. do 2 eexists. split; [reflexivity|]. left. reflexivity.
  - unfold bind at 1. unfold setStore at 1.
    unfold bind at 1. unfold setStore at 1.
    match goal with
    | |- context [Batch.enterLoop ?h ?sn ?i ?c ?s0] =>
        destruct (enterLoop_files sn i c s0) as (r & s' & Hrun & Hf)
    end.
    unfold enterLoop in Hrun. rewrite Hrun.
    exists r, s'. split; [reflexivity|]. exact Hf.
Qed.

Lemma resume_files (r : Run) (s : Sys World BatchState) :
  exists r' s',
    resume r s = (inl r', s') /\
    filesStep (files (store s)) (files (store s')).
Proof.
  unfold resume, Batch.resume.
  destruct (pc r).
  - destruct (nth_error (files (snap r)) (index r)) as [file|].
    + unfold bind at 1. fold finishFile.
      destruct (finishFile_outcome file s) as (o & s1 & Hrun & Hst & _).
      rewrite Hrun. run_batch.
      do 2 eexists. split; [reflexivity|].
      cbn [store]. rewrite Hst. cbn [files setProgress setFiles].
      right. exists (id file), (applyOutcome o).
      split; [apply forward_applyOutcome|reflexivity].
    + run_batch. do 2 eexists. split; [reflexivity|]. left. reflexivity.
  - apply enterLoop_files.
Qed.

Lemma filesStep_status (x : string) (l l' : list FileItem) st :
  filesStep l l' ->
  statusOf x l = Some st ->
  st <> Pending ->
  statusOf x l' <> Some Pending.
Proof.
  intros [-> | (fileId & g & Hg & ->)] Hst Hne.
  - congruence.
  - eapply statusOf_updateById; eassumption.
Qed.

(** C5 (as the code has it).  No operation other than [resetStatus] takes
    an item from ['success'] or ['error'] back to ['pending']; and
    [addFilePath], [addFromDialog], [removeFile], [clearAll] and
    [togglePause] leave the status of an item as it is, or remove the
    item.  (Nothing is said of ['processing']: a call of [processBatch]
    marks the item it takes in hand ['processing'] whatever its status.) *)
Theorem step_keeps_terminal (a : Action) (c : Config World)
        (fileId : string) (st : Status) :
  a <> DoResetStatus ->
  statusOf fileId (files (store (fst c))) = Some st ->
  isTerminal st = true ->
  statusOf fileId (files (store (fst (step a c)))) <> Some Pending /\
  match a with
  | DoStart | DoResume _ => True
  | _ =>
      statusOf fileId (files (store (fst (step a c)))) = Some st \/
      statusOf fileId (files (store (fst (step a c)))) = None
  end.
Proof.
  intros Ha Hst Hterm.
  assert (Hne : st <> Pending) by (destruct st; discriminate).
  destruct c as [s runs]. cbn [fst snd] in *.
  destruct a; unfold step, Batch.step, quiet; cbn [fst snd].
  - fold addFilePath.
    destruct (addFilePath_files filePath s) as [-> | [f ->]].
    + split; [congruence|left; exact Hst].
    + rewrite (statusOf_app _ _ f Hst). split; [congruence|left; reflexivity].
  - fold addFromDialog.
    destruct (addFromDialog_files s) as [-> | [f ->]].
    + split; [congruence|left; exact Hst].
    + rewrite (statusOf_app _ _ f Hst). split; [congruence|left; reflexivity].
  - cbn. rewrite statusOf_filter.
    destruct (fileId =? fileId0).
    + split; [discriminate|right; reflexivity].
    + split; [congruence|left; exact Hst].
  - cbn. split; [discriminate|right; reflexivity].
  - congruence.
  - cbn. split; [congruence|left; exact Hst].
  - destruct (startRun_files s) as (r & s' & Hrun & Hf).
    unfold startRun in Hrun. rewrite Hrun. cbn [fst].
    split; [|exact I]. eapply filesStep_status; eassumption.
  - destruct (nth_error runs k) as [r|]; cbn [fst].
    + destruct (resume_files r s) as (r' & s' & Hrun & Hf).
      unfold resume in Hrun. rewrite Hrun. cbn [fst].
      split; [|exact I]. eapply filesStep_status; eassumption.
    + split; [congruence|exact I].
Qed.

(** *** Pausing *)

(** A click on the start button while [isPaused] is true processes
    nothing: the loop of the new call leaves at its first test, no call is
    left suspended, the list and the world are what they were and no
    shortcut is created.  The click clears the two flags. *)
Lemma startRun_paused (s : Sys World BatchState) :
  isPaused (store s) = true ->
  files (store s) <> [] ->
  exists s',
    startRun s = (inl None, s') /\
    files (store s') = files (store s) /\
    world s' = world s /\
    createCalls (trace s') = createCalls (trace s) /\
    currentIndex (store s') = currentIndex (store s) /\
    isPaused (store s') = false /\
    isProcessing (store s') = false.
Proof.
  intros Hp Hne.
  unfold startRun, Batch.startRun.
  unfold bind at 1, getStore.
  destruct (files (store s)) as [|f0 fs] eqn:Hfiles; [congruence|].
  change (Nat.eqb (length (f0 :: fs)) 0) with false. cbv iota.
  unfold bind at 1. unfold setStore at 1.
  unfold bind at 1. unfold setStore at 1.
  unfold Batch.enterLoop. rewrite Hp.
  match goal with
  | |- context [Batch.endBatch ?h ?sn ?c] =>
      assert (Hend : forall s0 : Sys World BatchState,
        (match nth_error (files sn) (currentIndex sn) with
         | Some _ => bind (Batch.endBatch h sn c) (fun _ => ret (@None Run))
         | None => bind (Batch.endBatch h sn c) (fun _ => ret (@None Run))
         end) s0
        = bind (Batch.endBatch h sn c) (fun _ => ret (@None Run)) s0)
        by (intros s0; destruct (nth_error (files sn) (currentIndex sn)); reflexivity);
      rewrite Hend; clear Hend;
      match goal with
      | |- context [bind _ _ ?s0] =>
          destruct (endBatch_files sn c s0)
            as (s' & Hrun & Hf & Hw & Hps & Hcc & Hpr & Hci)
      end
  end.
  unfold endBatch in Hrun. unfold bind. rewrite Hrun.
  exists s'. cbn [store world trace] in *.
  cbn [files isPaused currentIndex setIsPaused setIsProcessing] in *.
  repeat split; try assumption.
  congruence.
Qed.

(** A suspended call does not look at the state: it goes on in the same
    way whatever is done to [isPaused] in the meantime. *)
Lemma finishFile_ignores_pause (file : FileItem) (s : Sys World BatchState) g :
  finishFile file (mkSys (setIsPaused g (store s)) (world s) (trace s))
  = (fst (finishFile file s),
     mkSys (setIsPaused g (store (snd (finishFile file s))))
           (world (snd (finishFile file s)))
           (trace (snd (finishFile file s)))).
Proof.
  unfold finishFile. run_batch.
  split_call; [|reflexivity].
  match goal with |- context [negb ?b] => destruct b end;
    cbn [negb]; run_batch; [|reflexivity].
  split_call; [|reflexivity].
  match goal with |- context [negb ?b] => destruct b end;
    cbn [negb]; run_batch; [|reflexivity].
  split_call; run_batch.
  - destruct o; run_batch; split_call; reflexivity.
  - split_call; reflexivity.
Qed.

Lemma resume_ignores_pause (r : Run) (s : Sys World BatchState) g :
  resume r (mkSys (setIsPaused g (store s)) (world s) (trace s))
  = (fst (resume r s),
     mkSys (setIsPaused g (store (snd (resume r s))))
           (world (snd (resume r s)))
           (trace (snd (resume r s)))).
Proof.
  unfold resume, Batch.resume.
  destruct (pc r).
  - destruct (nth_error (files (snap r)) (index r)) as [file|]; [|reflexivity].
    unfold bind. fold finishFile.
    rewrite finishFile_ignores_pause.
    destruct (finishFile file s) as [[ok|e] s1]; run_batch; reflexivity.
  - unfold Batch.enterLoop.
    destruct (nth_error (files (snap r)) (S (index r))) as [file|].
    + destruct (isPaused (snap r)).
      * unfold Batch.endBatch. run_batch.
        destruct (Nat.leb (length (files (snap r)) - 1) (currentIndex (snap r)));
          [destruct hasOnComplete|]; reflexivity.
      * reflexivity.
    + unfold Batch.endBatch. run_batch.
      destruct (Nat.leb (length (files (snap r)) - 1) (currentIndex (snap r)));
        [destruct hasOnComplete|]; reflexivity.
Qed.

(** *** The call in steps and the call as a whole *)

Lemma skipn_nth_error {A} (l : list A) : forall i,
  match skipn i l with
  | [] => nth_error l i = None
  | x :: rest => nth_error l i = Some x /\ skipn (S i) l = rest
  end.
Proof.
  induction l as [|a l IH]; intros [|i]; cbn; try reflexivity.
  - split; reflexivity.
  - apply IH.
Qed.

Lemma endBatch_alone snap counts (s : Sys World BatchState) fuel :
  bind (bind (endBatch snap counts) (fun _ => ret (@None Run)))
       (Batch.runAlone dataService categoryId hasOnComplete fuel) s
  = endBatch snap counts s.
Proof.
  destruct (endBatch_files snap counts s) as (s' & Hrun & _).
  unfold bind. rewrite Hrun. destruct fuel; reflexivity.
Qed.

(** Continuing a suspended call until it ends, with nothing in between,
    is the loop of [processBatch] followed by what comes after it. *)
Lemma runAlone_batchLoop (snap : BatchState) (items : list FileItem) :
  forall fuel i counts (s : Sys World BatchState),
    skipn i (files snap) = items ->
    2 * length items <= fuel ->
    bind (enterLoop snap i counts)
         (Batch.runAlone dataService categoryId hasOnComplete fuel) s
    = bind (batchLoop snap items i counts) (endBatch snap) s.
Proof.
  induction items as [|file rest IH]; intros fuel i counts s Hskip Hfuel.
  - pose proof (skipn_nth_error (files snap) i) as Hn. rewrite Hskip in Hn.
    unfold enterLoop, Batch.enterLoop. rewrite Hn.
    fold endBatch. rewrite endBatch_alone. reflexivity.
  - pose proof (skipn_nth_error (files snap) i) as Hn. rewrite Hskip in Hn.
    destruct Hn as [Hnth Hrest].
    unfold enterLoop, Batch.enterLoop. rewrite Hnth.
    destruct (isPaused snap) eqn:Hp.
    + fold endBatch. rewrite endBatch_alone.
      unfold bind at 1.
      rewrite (batchLoop_paused snap (file :: rest) i counts s Hp).
      reflexivity.
    + destruct fuel as [|[|fuel]]; cbn [length] in Hfuel; try lia.
      rewrite (io_bind (batchLoop snap (file :: rest) i counts)).
      rewrite (batchLoop_cons snap file rest i counts s Hp).
      rewrite processFile_split.
      run_batch. cbn [Batch.runAlone].
      rewrite io_bind.
      unfold Batch.resume at 1. cbn [Batch.pc Batch.snap Batch.index Batch.counts]. rewrite Hnth.
      rewrite io_bind. fold finishFile.
      match goal with
      | |- context [finishFile file ?s0] =>
          destruct (finishFile_outcome file s0) as (o & s1 & Hfin & _);
          rewrite Hfin
      end.
      run_batch.
      unfold Batch.resume at 1. cbn [Batch.pc Batch.snap Batch.index Batch.counts].
      assert (Hf : 2 * length rest <= fuel) by lia.
      specialize (IH fuel (S i) (tally (outcomeOk o) counts)
                     (mkSys (setProgress (percent (i + 1) (length (files snap))) (store s1))
                            (world s1) (trace s1)) Hrest Hf).
      rewrite (io_bind (batchLoop snap rest (S i) (tally (outcomeOk o) counts))) in IH.
      rewrite <- IH. reflexivity.
Qed.

(** One click on the start button, continued to its end with nothing in
    between, is one uninterrupted call of [processBatch]. *)
Lemma startRun_alone (s : Sys World BatchState) :
  bind startRun
       (Batch.runAlone dataService categoryId hasOnComplete
          (2 * length (files (store s)))) s
  = Batch.start dataService categoryId hasOnComplete s.
Proof.
  unfold startRun, Batch.startRun, Batch.start, Batch.processBatch.
  rewrite !io_bind. unfold getStore.
  destruct (Nat.eqb (length (files (store s))) 0).
  - run_batch. destruct (length (files (store s))); reflexivity.
  - unfold bind, setStore. cbn [store world trace].
    pose proof (@runAlone_batchLoop (store s)
                  (skipn (currentIndex (store s)) (files (store s)))
                  (2 * length (files (store s)))
                  (currentIndex (store s)) (0, 0)
                  (mkSys (setIsPaused (fun _ => false)
                            (setIsProcessing true (store s)))
                         (world s) (trace s))
                  eq_refl) as H.
    rewrite !io_bind in H.
    unfold enterLoop, batchLoop, endBatch in H.
    apply H. rewrite length_skipn. lia.
Qed.

End BatchFacts.

End BatchFacts.

(** ** The batch processor on concrete inputs *)

Module BatchExamples.
Import Batch.

(** The session [Demo.finished]: the directory is done and carries its
    icon, the missing path has failed. *)
Example finished_files :
  Demo.allEnabled Demo.finishedRun Demo.mounted = true /\
  Demo.filesOf Demo.finished
  = [mkFileItem "item-0" "/tmp/docs" "docs" true Success None (Some Demo.folderIcon);
     mkFileItem "item-1" "/missing/b" "b" false Error (Some "文件或目录不存在") None].
Proof. split; reflexivity. Qed.

(** C7, as stated, fails on that session: after [resetStatus] the first
    item still carries its [iconData]. *)
Lemma resetStatus_keeps_iconData :
  Demo.allEnabled (Demo.finishedRun ++ [DoResetStatus]) Demo.mounted = true /\
  map iconData (files (store (snd (resetStatus (fst Demo.finished)))))
  = [Some Demo.folderIcon; None] /\
  ~ Forall (fun f => iconData f = None)
      (files (store (snd (resetStatus (fst Demo.finished))))).
Proof.
  split; [reflexivity|]. split; [reflexivity|].
  intros H. inversion H as [|f l Hf _ Heq]. discriminate Hf.
Qed.


(** *** Completion *)

(** C2 (the code at the failing input).  Two pending items, a click on
    start, and the call continued to its end: both items reach a terminal
    status, no call is left suspended, [isProcessing] is false again, and
    [onComplete] has not been called.  The same holds of the call taken as
    a whole. *)
Theorem processBatch_two_items_no_onComplete :
  Demo.allEnabled (Demo.twoItems ++ Demo.runToEnd) Demo.mounted = true /\
  Demo.statuses (Demo.steps (Demo.twoItems ++ Demo.runToEnd) Demo.mounted)
  = [Success; Success] /\
  snd (Demo.steps (Demo.twoItems ++ Demo.runToEnd) Demo.mounted) = [] /\
  isProcessing (store (fst (Demo.steps (Demo.twoItems ++ Demo.runToEnd) Demo.mounted)))
  = false /\
  completions (history (fst (Demo.steps (Demo.twoItems ++ Demo.runToEnd) Demo.mounted)))
  = [] /\
  completions
    (history (snd (start Demo.service Demo.categoryId true
                         (fst (Demo.steps Demo.twoItems Demo.mounted)))))
  = [].
Proof. repeat split. Qed.

(** With a single item the callback is called. *)
Example processBatch_one_item_onComplete :
  completions
    (history (fst (Demo.steps [DoAddFilePath "/tmp/a.txt";
                               DoStart; DoResume 0; DoResume 0] Demo.mounted)))
  = [(1, 0)].
Proof. reflexivity. Qed.

(** *** Starting again after the end *)

(** C5, as stated, fails: after a run that has ended (no call suspended),
    a click on start takes the finished item from ['success'] back to
    ['processing']. *)
Lemma start_reprocesses_finished_item :
  Demo.allEnabled (Demo.oneItemRun ++ [DoStart]) Demo.mounted = true /\
  statusOf "item-0" (Demo.filesOf Demo.oneItemDone) = Some Success /\
  snd Demo.oneItemDone = [] /\
  statusOf "item-0" (Demo.filesOf (Demo.step DoStart Demo.oneItemDone))
  = Some Processing.
Proof. repeat split. Qed.

Lemma step_keeps_terminal_witness :
  statusOf "item-0" (files (store (fst (Demo.step (DoRemoveFile "item-1") Demo.finished))))
  <> Some Pending /\
  (statusOf "item-0" (files (store (fst (Demo.step (DoRemoveFile "item-1") Demo.finished))))
   = Some Success \/
   statusOf "item-0" (files (store (fst (Demo.step (DoRemoveFile "item-1") Demo.finished))))
   = None).
Proof.
  refine (@BatchFacts.step_keeps_terminal _ Demo.service Demo.categoryId true
            Demo.newId Demo.trim (DoRemoveFile "item-1") Demo.finished
            "item-0" Success _ _ _).
  - discriminate.
  - reflexivity.
  - reflexivity.
Defined.

(** *** Pause and start *)

(** C6 (the code at the failing input).  The batch is paused after item 1
    of 2 has completed: [isPaused] is true and the second item is pending.
    The call in flight does not halt: its next step takes the second item
    in hand while [isPaused] is true.  A click on start in the paused
    state does not resume the scan: it leaves no call suspended besides
    the first one, changes no item, creates no shortcut; the second item
    is completed by the first call.  That click has cleared [isPaused] and
    [isProcessing], so the button stays enabled; one more click scans from
    [currentIndex] 0, takes the completed first item in hand again, and
    in the end every shortcut has been created twice. *)
Theorem pause_then_start_demo :
  Demo.allEnabled (Demo.pauseAfterFirst ++ [DoStart; DoResume 0; DoResume 0])
                  Demo.mounted = true /\
  (isPaused (store (fst Demo.pausedAfterFirst)) = true /\
   Demo.statuses Demo.pausedAfterFirst = [Success; Pending]) /\
  (isPaused (store (fst (Demo.step (DoResume 0) Demo.pausedAfterFirst))) = true /\
   Demo.statuses (Demo.step (DoResume 0) Demo.pausedAfterFirst) = [Success; Processing]) /\
  (snd (Demo.step DoStart Demo.pausedAfterFirst) = snd Demo.pausedAfterFirst /\
   Demo.filesOf (Demo.step DoStart Demo.pausedAfterFirst) = Demo.filesOf Demo.pausedAfterFirst /\
   world (fst (Demo.step DoStart Demo.pausedAfterFirst)) = world (fst Demo.pausedAfterFirst)) /\
  (Demo.statuses (Demo.steps [DoStart; DoResume 0; DoResume 0] Demo.pausedAfterFirst)
   = [Success; Success] /\
   map counts (snd (Demo.steps [DoStart; DoResume 0; DoResume 0] Demo.pausedAfterFirst))
   = [(2, 0)]) /\
  (Demo.allEnabled (Demo.pauseAfterFirst ++ [DoStart; DoStart] ++ Demo.drainTwo)
                   Demo.mounted = true /\
   Demo.statuses (Demo.steps [DoStart; DoStart] Demo.pausedAfterFirst)
   = [Processing; Pending] /\
   snd (Demo.steps ([DoStart; DoStart] ++ Demo.drainTwo) Demo.pausedAfterFirst) = [] /\
   map Types.name
       (fst (world (fst (Demo.steps ([DoStart; DoStart] ++ Demo.drainTwo)
                                    Demo.pausedAfterFirst))))
   = ["a"; "b"; "a"; "b"]).
Proof. repeat split. Qed.

End BatchExamples.

(** ** More on the drop handler *)

Module HookMore.
Import Hook.

Lemma toastErrors_app l1 l2 : toastErrors (l1 ++ l2) = toastErrors l1 + toastErrors l2.
Proof. unfold toastErrors. rewrite filter_app. apply length_app. Qed.

Lemma toastSuccesses_app l1 l2 :
  toastSuccesses (l1 ++ l2) = toastSuccesses l1 + toastSuccesses l2.
Proof. unfold toastSuccesses. rewrite filter_app. apply length_app. Qed.

Lemma fileAdded_app l1 l2 : fileAdded (l1 ++ l2) = fileAdded l1 ++ fileAdded l2.
Proof. apply flat_map_app. Qed.

Lemma createCalls_app l1 l2 : createCalls (l1 ++ l2) = createCalls l1 ++ createCalls l2.
Proof. apply flat_map_app. Qed.

Section HookMore.

Variable World : Type.
Variable dataService : DataService World.
Variable categoryId : string.
Variable hasOnFileAdded : bool.

Let dropItem := dropItem dataService categoryId hasOnFileAdded.
Let handleFileDrop := handleFileDrop dataService categoryId hasOnFileAdded.

Ltac run_io :=
  cbv beta iota delta
    [Hook.dropItem Hook.fetchIcon Hook.logDragEvent bind tryCatch tryFinally
     emit call ret when getStore setStore];
  cbn [store world trace fst snd].

Ltac run_top :=
  cbv beta iota delta
    [Hook.logDragEvent bind tryCatch tryFinally
     emit call ret when getStore setStore];
  cbn [store world trace fst snd].

Ltac split_call :=
  match goal with
  | |- context [let (_, _) := ?f (world ?s) in _] =>
      let r := fresh "r" in let w := fresh "w" in
      destruct (f (world s)) as [r w]; destruct r
  | |- context [let (_, _) := ?f ?w0 in _] =>
      let r := fresh "r" in let w := fresh "w" in
      destruct (f w0) as [r w]; destruct r
  end; cbn [store world trace fst snd].

Ltac find_delta := repeat apply HookFacts.delta_cons; apply HookFacts.delta_nil.

Ltac close_account :=
  do 3 eexists; split; [reflexivity|];
  cbn [store world trace fst snd];
  split; [find_delta|];
  split; [reflexivity|];
  first [ left; repeat split; (reflexivity || (cbn; lia))
        | right; repeat split; (reflexivity || (cbn; lia)) ].

Lemma dropItem_account filePath counts (s : Sys World HookState) :
  exists counts' s' delta,
    dropItem filePath counts s = (inl counts', s') /\
    trace s' = delta ++ trace s /\
    itemAccount hasOnFileAdded filePath counts counts' delta.
Proof.
  destruct counts as [successCount errorCount].
  unfold dropItem, itemAccount. run_io.
  destruct (isEmpty filePath); run_io; [close_account|].
  split_call; [|close_account].
  split_call; [|close_account].
  match goal with |- context [negb ?b] => destruct b end;
    cbn [negb]; run_io; [|close_account].
  split_call; [|close_account].
  match goal with |- context [negb ?b] => destruct b end;
    cbn [negb]; run_io; [|close_account].
  split_call; run_io; (split_call; [|close_account]);
    destruct hasOnFileAdded; run_io; close_account.
Qed.

(** The loop: [k] paths succeed; the callback (when given) is called [k]
    times; every failure shows one error toast; [createShortcut] is called
    at least [k] times and at most once per path. *)
Lemma forOf_dropItem_account paths : forall counts (s : Sys World HookState),
  exists counts' s' delta k,
    forOf paths dropItem counts s = (inl counts', s') /\
    trace s' = delta ++ trace s /\
    fst counts' = fst counts + k /\
    snd counts' = snd counts + toastErrors delta /\
    toastSuccesses delta = 0 /\
    length (fileAdded delta) = (if hasOnFileAdded then k else 0) /\
    k <= length (createCalls delta) /\
    length (createCalls delta) <= length paths.
Proof.
  induction paths as [|filePath rest IH]; intros counts s.
  - exists counts, s, [], 0. cbn. repeat split; try lia.
    destruct hasOnFileAdded; reflexivity.
  - destruct (dropItem_account filePath counts s)
      as (c1 & s1 & d1 & Hrun & Htr & Hts & Hacc).
    destruct (IH c1 s1)
      as (c2 & s2 & d2 & k & Hrun2 & Htr2 & Hk & He & Hts2 & Hfa & Hlo & Hhi).
    cbn [forOf]. rewrite io_bind, Hrun, Hrun2.
    destruct Hacc as [(-> & Hte & Hcc & Hadd) | (-> & Hte & Hcc & Hadd)];
      cbn [fst snd] in *.
    + exists c2, s2, (d2 ++ d1), (S k). split; [reflexivity|].
      rewrite Htr2, Htr, toastErrors_app, toastSuccesses_app,
        fileAdded_app, createCalls_app, !length_app, Hadd, Hfa, Hcc.
      cbn [length]. repeat split; try lia.
      * apply app_assoc.
      * destruct hasOnFileAdded; cbn [length]; lia.
    + exists c2, s2, (d2 ++ d1), k. split; [reflexivity|].
      rewrite Htr2, Htr, toastErrors_app, toastSuccesses_app,
        fileAdded_app, createCalls_app, !length_app, Hadd, Hfa.
      cbn [length]. repeat split; try lia.
      apply app_assoc.
Qed.

(** The execution of a non-empty drop that passes the guard, with what it
    shows. *)
Lemma handleFileDrop_account (filePaths : list string) (s : Sys World HookState) :
  filePaths <> [] ->
  isProcessingRef (store s) = false ->
  exists successCount errorCount delta s',
    handleFileDrop filePaths s = (inl tt, s') /\
    trace s' = delta ++ trace s /\
    batchSummaries (rev delta) = [(successCount, errorCount, length filePaths)] /\
    toastErrors delta = errorCount + (if Nat.ltb 0 errorCount then 1 else 0) /\
    toastSuccesses delta = (if Nat.ltb 0 successCount then 1 else 0) /\
    length (fileAdded delta) = (if hasOnFileAdded then successCount else 0) /\
    successCount <= length (createCalls delta) /\
    length (createCalls delta) <= length filePaths.
Proof.
  intros Hne Hfree.
  unfold handleFileDrop, Hook.handleFileDrop.
  rewrite io_bind. unfold getStore. rewrite Hfree.
  destruct filePaths as [|p0 rest]; [congruence|].
  change (Nat.eqb (length (p0 :: rest)) 0) with false.
  set (paths := p0 :: rest).
  run_top.
  match goal with
  | |- context [forOf paths _ (0, 0) ?s0] =>
      destruct (HookFacts.forOf_dropItem dataService categoryId hasOnFileAdded
                  paths (0, 0) s0)
        as (c0 & s0' & d0 & Hrun0 & _ & _ & Htr0 & _ & Hbs);
      destruct (forOf_dropItem_account paths (0, 0) s0)
        as ([sc ec] & s1 & d & k & Hrun & Htr & Hk & He & Hts & Hfa & Hlo & Hhi)
  end.
  unfold dropItem in Hrun. rewrite Hrun in Hrun0.
  injection Hrun0 as <- <-.
  rewrite Htr in Htr0. apply app_inv_tail in Htr0. subst d0.
  rewrite Hrun.
  cbn [fst snd trace] in *. subst sc. change (0 + k) with k in *.
  rewrite Nat.add_0_l in He.
  exists k, ec.
  destruct (Nat.ltb 0 k), (Nat.ltb 0 ec); run_top;
    (eexists; eexists; split; [reflexivity|]; cbn [trace];
     rewrite Htr;
     split; [repeat apply HookFacts.delta_cons; apply HookFacts.delta_app; find_delta|];
     split;
     [ cbn [rev]; rewrite ?rev_app_distr;
       rewrite ?batchSummaries_app, Hbs; cbn; reflexivity
     | unfold toastErrors, toastSuccesses in *;
       cbn [filter isToastError isToastSuccess length fileAdded createCalls flat_map app];
       rewrite ?filter_app, ?length_app, ?fileAdded_app, ?createCalls_app, ?length_app;
       cbn [filter isToastError isToastSuccess length fileAdded createCalls flat_map app];
       rewrite ?app_nil_r;
       repeat split; try lia ]).
Qed.

(** X1.  A drop with an empty list of paths that passes the guard shows
    the one toast "没有检测到文件", takes no path in hand, calls no
    collaborator, computes no aggregate, and ends with [isDragOver],
    [isProcessing] and the busy flag all false. *)
Theorem handleFileDrop_empty (s : Sys World HookState) :
  isProcessingRef (store s) = false ->
  exists s',
    handleFileDrop [] s = (inl tt, s') /\
    world s' = world s /\
    filter isToast (history s')
    = filter isToast (history s) ++ [ToastError "没有检测到文件"] /\
    processedPaths (history s') = processedPaths (history s) /\
    batchSummaries (history s') = batchSummaries (history s) /\
    store s' = mkHook false false false.
Proof.
  intros Hfree.
  unfold handleFileDrop, Hook.handleFileDrop.
  rewrite io_bind. unfold getStore. rewrite Hfree.
  change (Nat.eqb (length (@nil string)) 0) with true.
  run_top. eexists. split; [reflexivity|].
  unfold history. cbn [store world trace rev].
  repeat rewrite ?filter_app, ?processedPaths_app, ?batchSummaries_app.
  cbn. rewrite !app_nil_r. repeat split.
Qed.

(** X2.  What a non-empty drop that passes the guard shows: one error
    toast for every path that failed and, when any failed, one more that
    gives their number; one success toast when any path succeeded, none
    otherwise. *)
Theorem handleFileDrop_toasts (filePaths : list string) (s : Sys World HookState) :
  filePaths <> [] ->
  isProcessingRef (store s) = false ->
  exists successCount errorCount delta s',
    handleFileDrop filePaths s = (inl tt, s') /\
    trace s' = delta ++ trace s /\
    batchSummaries (rev delta) = [(successCount, errorCount, length filePaths)] /\
    toastErrors delta = errorCount + (if Nat.ltb 0 errorCount then 1 else 0) /\
    toastSuccesses delta = (if Nat.ltb 0 successCount then 1 else 0).
Proof.
  intros Hne Hfree.
  destruct (@handleFileDrop_account filePaths s Hne Hfree)
    as (sc & ec & d & s' & Hrun & Htr & Hbs & Hte & Hts & _).
  exists sc, ec, d, s'. repeat split; assumption.
Qed.

(** X3.  In a non-empty drop that passes the guard, [onFileAdded] (when
    given) is called once for every path counted as a success and never
    for another; [createShortcut] is called at least once per success and
    at most once per path. *)
Theorem handleFileDrop_callbacks (filePaths : list string) (s : Sys World HookState) :
  filePaths <> [] ->
  isProcessingRef (store s) = false ->
  exists successCount errorCount delta s',
    handleFileDrop filePaths s = (inl tt, s') /\
    trace s' = delta ++ trace s /\
    batchSummaries (rev delta) = [(successCount, errorCount, length filePaths)] /\
    length (fileAdded delta) = (if hasOnFileAdded then successCount else 0) /\
    successCount <= length (createCalls delta) /\
    length (createCalls delta) <= length filePaths.
Proof.
  intros Hne Hfree.
  destruct (@handleFileDrop_account filePaths s Hne Hfree)
    as (sc & ec & d & s' & Hrun & Htr & Hbs & _ & _ & Hfa & Hlo & Hhi).
  exists sc, ec, d, s'. repeat split; assumption.
Qed.

(** X4.  A path that is empty, that fails validation or that does not
    exist is counted as an error with one error toast, and
    [createShortcut] is not called for it. *)
Theorem dropItem_rejected (filePath : string) (counts : nat * nat)
        (s : Sys World HookState) :
  (isEmpty filePath = true \/
   exists info w0 w1,
     isEmpty filePath = false /\
     getPathInfo dataService filePath (world s) = (inl info, w0) /\
     ((if Types.is_directory info
       then validateDirectoryPath dataService
       else validateFilePath dataService) filePath w0 = (inl false, w1)
      \/
      exists w2,
        (if Types.is_directory info
         then validateDirectoryPath dataService
         else validateFilePath dataService) filePath w0 = (inl true, w1) /\
        checkFileExists dataService filePath w1 = (inl false, w2))) ->
  exists s' delta,
    dropItem filePath counts s = (inl (fst counts, S (snd counts)), s') /\
    trace s' = delta ++ trace s /\
    createCalls delta = [] /\
    fileAdded delta = [] /\
    toastErrors delta = 1 /\
    store s' = store s.
Proof.
  destruct counts as [successCount errorCount].
  unfold dropItem. run_io.
  intros [Hempty | (info & w0 & w1 & Hpath & Hinfo & Hcheck)].
  - rewrite Hempty. run_io. do 2 eexists. split; [reflexivity|].
    cbn [store trace]. split; [find_delta|]. repeat split.
  - rewrite Hpath. run_io. rewrite Hinfo. cbn [store world trace].
    destruct Hcheck as [Hvalid | (w2 & Hvalid & Hexists)].
    + rewrite Hvalid. cbn [negb store world trace]. run_io.
      do 2 eexists. split; [reflexivity|].
      cbn [store trace]. split; [find_delta|]. repeat split.
    + rewrite Hvalid. cbn [negb store world trace].
      rewrite Hexists. cbn [negb store world trace]. run_io.
      do 2 eexists. split; [reflexivity|].
      cbn [store trace]. split; [find_delta|]. repeat split.
Qed.

(** X5.  The listener on any stream of drag events: it hands the path
    lists of the [drop] events to the debounced handler, in order; it
    leaves [isProcessing], the busy flag and the world as they are; and
    after the last event [isDragOver] is true exactly when that event is
    an [enter] or an [over]. *)
Theorem listenAll_spec (events : list DragEvent) (s : Sys World HookState) :
  exists s',
    listenAll events s = (inl (flat_map droppedOf events), s') /\
    isProcessing (store s') = isProcessing (store s) /\
    isProcessingRef (store s') = isProcessingRef (store s) /\
    world s' = world s /\
    isDragOver (store s')
    = fold_left (fun _ ev => hovering ev) events (isDragOver (store s)).
Proof.
  revert s. induction events as [|ev rest IH]; intros s.
  - exists s. repeat split.
  - cbn [listenAll]. rewrite io_bind.
    assert (Hev : exists s1,
      @Hook.onDragDropEvent World ev s = (inl (match ev with Drop p => Some p | _ => None end), s1) /\
      isProcessing (store s1) = isProcessing (store s) /\
      isProcessingRef (store s1) = isProcessingRef (store s) /\
      world s1 = world s /\
      isDragOver (store s1) = hovering ev).
    { destruct ev; eexists; (split; [reflexivity|]); repeat split. }
    destruct Hev as (s1 & Hrun & Hp & Hr & Hw & Hd).
    rewrite Hrun.
    destruct (IH s1) as (s' & Hrun' & Hp' & Hr' & Hw' & Hd').
    rewrite io_bind, Hrun'.
    exists s'. split.
    + destruct ev; reflexivity.
    + cbn [fold_left]. rewrite Hd', Hd. repeat split; congruence.
Qed.

End HookMore.

End HookMore.

Module HookMoreExamples.
Import Hook.

Lemma handleFileDrop_empty_witness :
  exists s',
    Demo.handleFileDrop [] Demo.idle = (inl tt, s') /\
    world s' = world Demo.idle /\
    filter isToast (history s')
    = filter isToast (history Demo.idle) ++ [ToastError "没有检测到文件"] /\
    processedPaths (history s') = processedPaths (history Demo.idle) /\
    batchSummaries (history s') = batchSummaries (history Demo.idle) /\
    store s' = mkHook false false false.
Proof.
  refine (@HookMore.handleFileDrop_empty _ Demo.service Demo.categoryId true
            Demo.idle _).
  reflexivity.
Defined.

Lemma handleFileDrop_toasts_witness :
  exists successCount errorCount delta s',
    Demo.handleFileDrop Demo.droppedPaths Demo.idle = (inl tt, s') /\
    trace s' = delta ++ trace Demo.idle /\
    batchSummaries (rev delta) = [(successCount, errorCount, 2)] /\
    toastErrors delta = errorCount + (if Nat.ltb 0 errorCount then 1 else 0) /\
    toastSuccesses delta = (if Nat.ltb 0 successCount then 1 else 0).
Proof.
  refine (@HookMore.handleFileDrop_toasts _ Demo.service Demo.categoryId true
            Demo.droppedPaths Demo.idle _ _).
  - discriminate.
  - reflexivity.
Defined.

Lemma handleFileDrop_callbacks_witness :
  exists successCount errorCount delta s',
    Demo.handleFileDrop Demo.droppedPaths Demo.idle = (inl tt, s') /\
    trace s' = delta ++ trace Demo.idle /\
    batchSummaries (rev delta) = [(successCount, errorCount, 2)] /\
    length (fileAdded delta) = successCount /\
    successCount <= length (createCalls delta) /\
    length (createCalls delta) <= 2.
Proof.
  refine (@HookMore.handleFileDrop_callbacks _ Demo.service Demo.categoryId true
            Demo.droppedPaths Demo.idle _ _).
  - discriminate.
  - reflexivity.
Defined.

Lemma dropItem_rejected_witness :
  exists s' delta,
    dropItem Demo.service Demo.categoryId true "/missing/b" (1, 0) Demo.idle
    = (inl (1, 1), s') /\
    trace s' = delta ++ trace Demo.idle /\
    createCalls delta = [] /\
    fileAdded delta = [] /\
    toastErrors delta = 1 /\
    store s' = store Demo.idle.
Proof.
  refine (@HookMore.dropItem_rejected _ Demo.service Demo.categoryId true
            "/missing/b" (1, 0) Demo.idle _).
  right. exists (Types.mkFileInfo false "b"), Demo.emptyWorld, Demo.emptyWorld.
  split; [reflexivity|]. split; [reflexivity|].
  right. exists Demo.emptyWorld. split; reflexivity.
Defined.

Example listenAll_gesture :
  fst (listenAll [Enter ["/tmp/a.txt"]; Over; Over; Drop ["/tmp/a.txt"]] Demo.idle)
  = inl [["/tmp/a.txt"]] /\
  isDragOver (store (snd (listenAll [Enter ["/tmp/a.txt"]; Over; Over] Demo.idle)))
  = true /\
  isDragOver (store (snd (listenAll [Enter ["/tmp/a.txt"]; Over; Leave] Demo.idle)))
  = false.
Proof. repeat split. Qed.

End HookMoreExamples.

(** ** More on [debounce] *)

Module DebounceMore.
Import Debounce DebounceRun.

Section Subseq.

Variable A : Type.

Lemma subseq_refl (l : list A) : subseq l l.
Proof. induction l; constructor; assumption. Qed.

Lemma subseq_nil_l (l : list A) : subseq [] l.
Proof. induction l; constructor; assumption. Qed.

Lemma subseq_app_last (l1 l2 : list A) a :
  subseq l1 l2 -> subseq (l1 ++ [a]) (l2 ++ [a]).
Proof.
  induction 1; cbn.
  - apply subseq_take. constructor.
  - apply subseq_skip. assumption.
  - apply subseq_take. assumption.
Qed.

Lemma subseq_app_l (l1 l2 l : list A) : subseq (l1 ++ l2) l -> subseq l1 l.
Proof.
  revert l1. induction l as [|x l IH]; intros l1 H.
  - inversion H as [Heq| |]. destruct l1; [constructor|discriminate].
  - inversion H as [|y m1 m2 Hs|y m1 m2 Hs Heq]; subst.
    + apply subseq_skip. apply IH. assumption.
    + destruct l1 as [|z l1]; [apply subseq_nil_l|].
      cbn in Heq. injection Heq as -> ->.
      apply subseq_take. apply IH. assumption.
Qed.

Lemma subseq_length (l1 l2 : list A) : subseq l1 l2 -> length l1 <= length l2.
Proof. induction 1; cbn; lia. Qed.

End Subseq.

Section DebounceMore.

Variable Args : Type.
Variable wait : nat.

Lemma callsOf_app (l1 l2 : list (Op Args)) :
  callsOf (l1 ++ l2) = callsOf l1 ++ callsOf l2.
Proof. apply flat_map_app. Qed.

Lemma run_app (l1 l2 : list (Op Args)) (d : State Args) :
  run wait (l1 ++ l2) d = run wait l2 (run wait l1 d).
Proof. apply fold_left_app. Qed.

Lemma armedOk_run (ops : list (Op Args)) : forall d : State Args,
  armedOk d -> armedOk (run wait ops d).
Proof.
  induction ops as [|op ops IH]; intros d Hok; [exact Hok|].
  cbn [run fold_left]. apply IH.
  destruct op; cbn [apply].
  - apply DebounceFacts.armedOk_invoke. exact Hok.
  - apply DebounceFacts.armedOk_advance. exact Hok.
Qed.

(** X6.  Whatever the calls of a debounced function and however time
    passes between them, at most one timer is armed, and it is the one
    whose handle the closure holds in [timeout]. *)
Theorem run_single_timer (ops : list (Op Args)) (t0 : nat) :
  length (timers (run wait ops (init Args t0))) <= 1 /\
  (forall tm, In tm (timers (run wait ops (init Args t0))) ->
              timeout (run wait ops (init Args t0)) = Some (handle tm)).
Proof.
  pose proof (@armedOk_run ops (init Args t0) (DebounceFacts.armedOk_init Args t0)) as Hok.
  unfold armedOk in Hok.
  destruct (timers (run wait ops (init Args t0))) as [|tm [|tm' l]].
  - split; [cbn; lia|]. intros tm [].
  - split; [cbn; lia|]. intros tm0 [<- | []]. exact Hok.
  - contradiction.
Qed.

(** Executions and the armed timer, in the order of the calls they come
    from. *)
Lemma run_subseq (ops : list (Op Args)) : forall (d : State Args) (calls : list Args),
  armedOk d ->
  subseq (executions d ++ map (@timerArgs Args) (timers d)) calls ->
  subseq (executions (run wait ops d) ++ map (@timerArgs Args) (timers (run wait ops d)))
         (calls ++ callsOf ops).
Proof.
  induction ops as [|op ops IH]; intros d calls Hok Hsub.
  - cbn. rewrite app_nil_r. exact Hsub.
  - cbn [run fold_left]. change (fold_left (apply wait) ops) with (run wait ops).
    replace (callsOf (op :: ops))
      with (callsOf [op] ++ callsOf ops)
      by (cbn; rewrite app_nil_r; reflexivity).
    rewrite app_assoc.
    apply IH.
    + destruct op; cbn [apply];
        [apply DebounceFacts.armedOk_invoke|apply DebounceFacts.armedOk_advance];
        exact Hok.
    + destruct op as [a|t]; cbn [apply callsOf flat_map app].
      * destruct (@DebounceFacts.invoke_arms Args wait a d Hok) as [Ht _].
        rewrite Ht. cbn [map timerArgs].
        change (executions (invoke wait a d)) with (executions d).
        apply subseq_app_last.
        apply subseq_app_l in Hsub. exact Hsub.
      * rewrite app_nil_r. unfold advance, executions. cbn [executed timers].
        unfold armedOk in Hok. unfold executions in Hsub.
        destruct (timers d) as [|tm [|tm' l]]; [exact Hsub| |contradiction].
        cbn [filter map]. destruct (isDue (Nat.max (now d) t) tm); cbn [negb map rev app].
        -- rewrite app_nil_r. cbn [rev]. exact Hsub.
        -- exact Hsub.
Qed.

(** X7.  The handler only ever runs on argument lists it was called
    with, in the order of the calls and each call at most once: the
    executions are the calls with some left out, so there are never more
    executions than calls. *)
Theorem run_executions_subseq (ops : list (Op Args)) (t0 : nat) :
  subseq (executions (run wait ops (init Args t0))) (callsOf ops) /\
  length (executions (run wait ops (init Args t0))) <= length (callsOf ops).
Proof.
  pose proof (@run_subseq ops (init Args t0) [] (DebounceFacts.armedOk_init Args t0)
                (@subseq_nil Args)) as H.
  cbn [app] in H. apply subseq_app_l in H.
  split; [exact H|]. apply subseq_length. exact H.
Qed.

Lemma armedWith_invoke (d : State Args) (args : Args) :
  armedOk d ->
  armedWith wait (invoke wait args d) (now d) args (executed d).
Proof.
  intros Hok. destruct (@DebounceFacts.invoke_arms Args wait args d Hok) as [Ht Hc].
  exists (nextHandle d). repeat split; assumption.
Qed.

Lemma armedWith_ok (d : State Args) t a E : armedWith wait d t a E -> armedOk d.
Proof.
  intros (h & Ht & Hc & _). unfold armedOk. rewrite Ht. exact Hc.
Qed.

(** A call that comes before the armed timer is due takes its place. *)
Lemma armedWith_next (d : State Args) t a E t' a' :
  armedWith wait d t a E ->
  t <= t' ->
  t' < t + wait ->
  armedWith wait (invoke wait a' (advance t' d)) t' a' E.
Proof.
  intros Harmed Hle Hlt.
  pose proof (armedWith_ok Harmed) as Hok.
  destruct Harmed as (h & Ht & Hc & Hnow & Hex).
  destruct (@DebounceFacts.advance_early Args t' d _ Ht) as (Ht' & Hex' & _ & _ & Hnow').
  { cbn [due]. rewrite Hnow. lia. }
  pose proof (@armedWith_invoke (advance t' d) a'
                (@DebounceFacts.armedOk_advance Args t' d Hok)) as H.
  rewrite Hnow', Hnow, Hex', Hex in H.
  replace (Nat.max t t') with t' in H by lia. exact H.
Qed.

Lemma last_cons {A} (c : A) (l : list A) (d : A) : last (c :: l) d = last l c.
Proof.
  revert c d. induction l as [|x l IH]; intros c d; [reflexivity|].
  change (last (c :: x :: l) d) with (last (x :: l) d).
  rewrite IH. symmetry. apply IH.
Qed.

Lemma armedWith_burst (rest : list (nat * Args)) : forall (d : State Args) t a E,
  armedWith wait d t a E ->
  chained wait t rest ->
  armedWith wait (runBurst wait rest d)
            (fst (last rest (t, a))) (snd (last rest (t, a))) E.
Proof.
  induction rest as [|[t' a'] rest IH]; intros d t a E Harmed Hchain.
  - exact Harmed.
  - cbn [chained fst snd] in Hchain. destruct Hchain as (Hle & Hlt & Hrest).
    rewrite last_cons.
    cbn [runBurst fold_left fst snd].
    apply IH; [|exact Hrest].
    eapply armedWith_next; eassumption.
Qed.

(** X8.  A burst of any number of calls, each less than [wait] after the
    one before it: from the last call until its window closes the handler
    has not run since the first call, and from the moment it closes the
    handler has run exactly once since the first call, with the arguments
    of the last call. *)
Theorem burst_last_wins (d0 : State Args) (t1 : nat) (P1 : Args)
        (rest : list (nat * Args)) :
  armedOk d0 ->
  now d0 <= t1 ->
  chained wait t1 rest ->
  (forall t, fst (last rest (t1, P1)) <= t ->
             t < fst (last rest (t1, P1)) + wait ->
     executions (advance t (runBurst wait ((t1, P1) :: rest) d0))
     = executions (advance t1 d0)) /\
  (forall t, fst (last rest (t1, P1)) + wait <= t ->
     executions (advance t (runBurst wait ((t1, P1) :: rest) d0))
     = executions (advance t1 d0) ++ [snd (last rest (t1, P1))]).
Proof.
  intros Hok H01 Hchain.
  pose proof (@armedWith_invoke (advance t1 d0) P1
                (@DebounceFacts.armedOk_advance Args t1 d0 Hok)) as H1.
  replace (now (advance t1 d0)) with t1 in H1
    by (symmetry; unfold advance; cbn [now]; apply Nat.max_r; exact H01).
  pose proof (@armedWith_burst rest _ _ _ _ H1 Hchain) as Hend.
  change (runBurst wait rest (invoke wait P1 (advance t1 d0)))
    with (runBurst wait ((t1, P1) :: rest) d0) in Hend.
  destruct Hend as (h & Ht & _ & Hnow & Hex).
  split.
  - intros t Hge Hlt.
    destruct (@DebounceFacts.advance_early Args t _ _ Ht) as (_ & Hex' & _).
    + cbn [due]. rewrite Hnow. lia.
    + unfold executions. rewrite Hex', Hex. reflexivity.
  - intros t Hlt.
    destruct (@DebounceFacts.advance_due Args t _ _ Ht) as (_ & Hex').
    + cbn [due]. rewrite Hnow. lia.
    + unfold executions. rewrite Hex', Hex. reflexivity.
Qed.

(** X9.  Two calls at least [wait] apart are two gestures: nothing is
    lost, the handler runs on the arguments of the first and then on those
    of the second. *)
Theorem debounce_isolated_calls (d0 : State Args) (P1 P2 : Args) (t1 t2 : nat) :
  armedOk d0 ->
  now d0 <= t1 ->
  t1 + wait <= t2 ->
  forall t, t2 + wait <= t ->
    executions
      (advance t (invoke wait P2 (advance t2 (invoke wait P1 (advance t1 d0)))))
    = executions (advance t1 d0) ++ [P1; P2].
Proof.
  intros Hok H01 H12 t Ht.
  pose proof (@armedWith_invoke (advance t1 d0) P1
                (@DebounceFacts.armedOk_advance Args t1 d0 Hok)) as H1.
  replace (now (advance t1 d0)) with t1 in H1
    by (symmetry; unfold advance; cbn [now]; apply Nat.max_r; exact H01).
  pose proof (armedWith_ok H1) as Hok1.
  destruct H1 as (h & Ht1 & _ & Hnow1 & Hex1).
  set (d1 := invoke wait P1 (advance t1 d0)) in *.
  destruct (@DebounceFacts.advance_due Args t2 d1 _ Ht1) as (Hfired & Hex2).
  { cbn [due]. rewrite Hnow1. lia. }
  assert (Hokb : armedOk (advance t2 d1))
    by (apply DebounceFacts.armedOk_advance; exact Hok1).
  pose proof (@armedWith_invoke (advance t2 d1) P2 Hokb) as H2.
  destruct H2 as (h2 & Ht2 & _ & Hnow2 & Hexb).
  destruct (@DebounceFacts.advance_due Args t _ _ Ht2) as (_ & Hex3).
  { cbn [due]. rewrite Hnow2. unfold advance at 1. cbn [now]. rewrite Hnow1. lia. }
  unfold executions. rewrite Hex3. cbn [timerArgs].
  rewrite Hexb, Hex2. cbn [timerArgs rev]. rewrite Hex1.
  rewrite <- !app_assoc. reflexivity.
Qed.

End DebounceMore.

End DebounceMore.

(** ** More on the batch processor *)

Module BatchMore.
Import Batch.

Section BatchMore.

Variable World : Type.
Variable dataService : DataService World.
Variable categoryId : string.
Variable hasOnComplete : bool.
Variable newId : World -> string * World.
Variable trim : string -> string.

Let addFilePath := addFilePath dataService newId trim.
Let addFromDialog := addFromDialog dataService newId trim.
Let processFile := processFile dataService categoryId.
Let batchLoop := batchLoop dataService categoryId.
Let start := start dataService categoryId hasOnComplete.

Ltac run_batch :=
  cbv beta iota delta
    [Batch.processFile Batch.finishFile Batch.workFile Batch.failFile
     Batch.beginFile Batch.fetchIcon
     bind tryCatch tryFinally throw emit call ret when getStore setStore];
  cbn [store world trace fst snd].

(** X10.  [processFile] never throws and never leaves its item in
    ['processing']: it returns [true] with every item of that id a
    ['success'], or [false] with every item of that id an ['error'] that
    carries a message; the items of other ids, the order of the list and
    the rest of the state are what they were. *)
Theorem processFile_terminal (file : FileItem) (s : Sys World BatchState) :
  exists ok s',
    processFile file s = (inl ok, s') /\
    (forall f, In f (files (store s')) -> id f = id file ->
       status f = (if ok then Success else Error) /\
       (ok = false -> error f <> None)) /\
    map id (files (store s')) = map id (files (store s)) /\
    filter (fun f => negb (id f =? id file)) (files (store s'))
    = filter (fun f => negb (id f =? id file)) (files (store s)) /\
    isProcessing (store s') = isProcessing (store s) /\
    isPaused (store s') = isPaused (store s) /\
    currentIndex (store s') = currentIndex (store s).
Proof.
  destruct (BatchFacts.processFile_outcome dataService categoryId file s)
    as (o & s' & Hrun & Hst & _).
  exists (outcomeOk o), s'. split; [exact Hrun|].
  rewrite Hst. cbn [files isProcessing isPaused currentIndex setFiles].
  unfold updateById. rewrite !map_map.
  repeat split.
  - apply in_map_iff in H. destruct H as (f0 & <- & _).
    destruct (id f0 =? id file) eqn:E.
    + cbn [markProcessing id]. rewrite E. destruct o; reflexivity.
    + rewrite E in *. apply String.eqb_neq in E. contradiction.
  - intros Hok. apply in_map_iff in H. destruct H as (f0 & <- & _).
    destruct (id f0 =? id file) eqn:E.
    + cbn [markProcessing id]. rewrite E.
      destruct o; [discriminate Hok|]. cbn. discriminate.
    + rewrite E in *. apply String.eqb_neq in E. contradiction.
  - apply map_ext. intros f.
    destruct (id f =? id file) eqn:E; cbn [markProcessing id]; rewrite E;
      [destruct o|]; reflexivity.
  - induction (files (store s)) as [|f l IH]; [reflexivity|].
    cbn [map filter].
    destruct (id f =? id file) eqn:E.
    + cbn [markProcessing id]. rewrite E.
      assert (Hid : id (applyOutcome o (markProcessing f)) = id f)
        by (destruct o; reflexivity).
      rewrite Hid, E. cbn [negb]. exact IH.
    + cbn beta. rewrite !E. cbn [negb]. rewrite IH. reflexivity.
Qed.

(** X11.  A path that fails validation, or that passes it and does not
    exist, makes [processFile] return [false] with the cause on the item
    ("路径无效", respectively "文件或目录不存在"); no further collaborator is
    called and [createShortcut] is not. *)
Theorem processFile_rejected (file : FileItem) (s : Sys World BatchState)
        (msg : string) (wEnd : World) :
  ((if isDirectory file
    then validateDirectoryPath dataService
    else validateFilePath dataService) (path file) (world s) = (inl false, wEnd) /\
   msg = "路径无效")
  \/
  (exists w1,
     (if isDirectory file
      then validateDirectoryPath dataService
      else validateFilePath dataService) (path file) (world s) = (inl true, w1) /\
     checkFileExists dataService (path file) w1 = (inl false, wEnd) /\
     msg = "文件或目录不存在") ->
  exists s',
    processFile file s = (inl false, s') /\
    files (store s')
    = updateById (id file) (markError msg)
        (updateById (id file) markProcessing (files (store s))) /\
    world s' = wEnd /\
    trace s' = trace s.
Proof.
  unfold processFile. run_batch.
  intros [(Hvalid & ->) | (w1 & Hvalid & Hexists & ->)].
  - rewrite Hvalid. cbn [negb store world trace].
    eexists. repeat split.
  - rewrite Hvalid. cbn [negb store world trace].
    rewrite Hexists. cbn [negb store world trace].
    eexists. repeat split.
Qed.

(** X12.  When validation and the existence check pass and
    [createShortcut] throws, [processFile] returns [false] and the item
    carries the message of the thrown [Error] as it is ("未知错误" for any
    other thrown value); the icon that was fetched is not attached. *)
Theorem processFile_creation_error (file : FileItem) (s : Sys World BatchState)
        (w1 w2 w3 w4 : World) (r : Result (option Types.IconResult)) (e : Thrown) :
  (if isDirectory file
   then validateDirectoryPath dataService
   else validateFilePath dataService) (path file) (world s) = (inl true, w1) ->
  checkFileExists dataService (path file) w1 = (inl true, w2) ->
  (if isDirectory file
   then getDirectoryIcon dataService
   else getFileIcon dataService) (path file) true w2 = (r, w3) ->
  createShortcut dataService
    (Types.mkRequest (shortcutName (isDirectory file) (name file))
                     (path file) categoryId (iconOf r)) w3 = (inr e, w4) ->
  exists s',
    processFile file s = (inl false, s') /\
    files (store s')
    = updateById (id file) (markError (errorMessage e))
        (updateById (id file) markProcessing (files (store s))) /\
    map iconData (files (store s')) = map iconData (files (store s)) /\
    world s' = w4.
Proof.
  intros Hvalid Hexists Hicon Hcreate.
  assert (Hrun :
    processFile file s
    = (inl false,
       mkSys (setFiles (updateById (id file) (markError (errorMessage e)))
                (setFiles (updateById (id file) markProcessing) (store s)))
             w4
             (CreateShortcutCall
                (Types.mkRequest (shortcutName (isDirectory file) (name file))
                                 (path file) categoryId (iconOf r))
              :: match r with
                 | inl (Some _) => trace s
                 | _ => ConsoleWarn "获取图标失败:" :: trace s
                 end))).
  { unfold processFile. run_batch.
    rewrite Hvalid. cbn [negb store world trace].
    rewrite Hexists. cbn [negb store world trace].
    rewrite Hicon.
    destruct r as [[i|]|e0]; cbn [iconOf store world trace] in *;
      rewrite Hcreate; reflexivity. }
  eexists. split; [exact Hrun|].
  cbn [store world files setFiles]. repeat split.
  unfold updateById. rewrite !map_map. apply map_ext. intros f.
  destruct (id f =? id file) eqn:E; cbn [markProcessing id]; rewrite E; reflexivity.
Qed.


(** X14.  A file dialog that the user cancels (no path, or an empty one)
    is a silent no-op: the state is what it was and nothing is shown. *)
Theorem addFromDialog_cancelled (s : Sys World BatchState) (w : World)
        (chosen : option string) :
  openFileDialog dataService (world s) = (inl chosen, w) ->
  chosen = None \/ chosen = Some "" ->
  addFromDialog s = (inl tt, mkSys (store s) w (trace s)).
Proof.
  intros Hdialog Hcancel.
  unfold addFromDialog, Batch.addFromDialog. run_batch.
  rewrite Hdialog. destruct Hcancel as [-> | ->]; reflexivity.
Qed.

(** X15.  After [removeFile] no item of the list has the removed id; the
    other items are all there, in the order they had; removing an id that
    is not in the list changes nothing; removing twice is removing once. *)
Theorem removeFile_spec (fileId : string) (s : Sys World BatchState) :
  exists s',
    @removeFile World fileId s = (inl tt, s') /\
    Forall (fun f => id f <> fileId) (files (store s')) /\
    (forall f, In f (files (store s)) -> id f <> fileId ->
               In f (files (store s'))) /\
    subseq (files (store s')) (files (store s)) /\
    (Forall (fun f => id f <> fileId) (files (store s)) -> s' = s) /\
    @removeFile World fileId s' = (inl tt, s').
Proof.
  unfold removeFile, setStore. eexists. split; [reflexivity|].
  cbn [store world trace files setFiles].
  assert (Hkeep : forall l : list FileItem,
            Forall (fun f => id f <> fileId) l ->
            filter (fun file => negb (id file =? fileId)) l = l).
  { induction 1 as [|f l Hf _ IH]; [reflexivity|].
    cbn [filter]. apply String.eqb_neq in Hf. rewrite Hf. cbn [negb].
    rewrite IH. reflexivity. }
  assert (Hgone : Forall (fun f => id f <> fileId)
                    (filter (fun file => negb (id file =? fileId)) (files (store s)))).
  { apply Forall_forall. intros f Hf. apply filter_In in Hf.
    destruct Hf as [_ Hf]. apply negb_true_iff in Hf.
    apply String.eqb_neq. exact Hf. }
  repeat split.
  - exact Hgone.
  - intros f Hin Hne. apply filter_In. split; [exact Hin|].
    apply negb_true_iff. apply String.eqb_neq. exact Hne.
  - generalize (files (store s)) as l.
    induction l as [|f l IH]; [apply subseq_nil|].
    cbn [filter]. destruct (negb (id f =? fileId));
      [apply subseq_take | apply subseq_skip]; exact IH.
  - intros Hall. unfold setFiles. rewrite (Hkeep _ Hall).
    destruct s as [st w t]. destruct st. reflexivity.
  - unfold setFiles. cbn [files isProcessing isPaused progress currentIndex].
    rewrite (Hkeep _ Hgone). reflexivity.
Qed.






(** X17.  A click on start with an empty list shows the toast "请先添加文件"
    and does nothing else: no flag is set, the world is not touched and no
    call is left suspended. *)
Theorem start_empty (c : Config World) :
  files (store (fst c)) = [] ->
  Batch.step dataService categoryId hasOnComplete newId trim DoStart c
  = (mkSys (store (fst c)) (world (fst c))
           (ToastError "请先添加文件" :: trace (fst c)),
     snd c) /\
  start (fst c)
  = (inl tt,
     mkSys (store (fst c)) (world (fst c))
           (ToastError "请先添加文件" :: trace (fst c))).
Proof.
  intros Hempty. destruct c as [s runs]. cbn [fst snd] in *.
  unfold Batch.step, Batch.startRun, start, Batch.start, Batch.processBatch.
  cbn [fst snd]. rewrite !io_bind. unfold getStore.
  rewrite Hempty. split; reflexivity.
Qed.

(** *** Invariants of the component *)

Section Invariant.

Variable P : FileItem -> Prop.
Hypothesis P_fresh : forall i p n d, P (mkFileItem i p n d Pending None None).
Hypothesis P_processing : forall f, P f -> P (markProcessing f).
Hypothesis P_success : forall icon f, P f -> P (markSuccess icon f).
Hypothesis P_error : forall msg f, P f -> P (markError msg f).
Hypothesis P_pending : forall f, P f -> P (markPending f).

Let inv (s : Sys World BatchState) : Prop := Forall P (files (store s)).

Lemma updateById_keeps fileId g (l : list FileItem) :
  (forall f, P f -> P (g f)) -> Forall P l -> Forall P (updateById fileId g l).
Proof.
  intros Hg Hl. unfold updateById. apply Forall_map.
  eapply Forall_impl; [|exact Hl].
  intros f Hf. cbn beta. destruct (id f =? fileId); auto.
Qed.

Lemma addFilePath_keeps p (s : Sys World BatchState) :
  inv s -> inv (snd (addFilePath p s)).
Proof.
  unfold inv, addFilePath, Batch.addFilePath. intros H.
  destruct (isEmpty (trim p)); [exact H|].
  run_batch.
  destruct (getPathInfo dataService p (world s)) as [[info|e] w];
    cbn [store world trace snd]; [|exact H].
  destruct (newId w) as [i w']. cbn [store world trace snd files setFiles].
  apply Forall_app. split; [exact H|]. constructor; [apply P_fresh|constructor].
Qed.

Lemma addFromDialog_keeps (s : Sys World BatchState) :
  inv s -> inv (snd (addFromDialog s)).
Proof.
  intros H. unfold addFromDialog, Batch.addFromDialog. run_batch.
  destruct (openFileDialog dataService (world s)) as [[[p|]|e] w];
    cbn [store world trace snd]; try exact H.
  destruct (isEmpty p); [exact H|].
  pose proof (@addFilePath_keeps p (mkSys (store s) w (trace s)) H) as H'.
  unfold addFilePath in H'.
  destruct (Batch.addFilePath dataService newId trim p (mkSys (store s) w (trace s)))
    as [[u|e] s1]; cbn [snd store] in *; exact H'.
Qed.

Lemma enterLoop_keeps snap i counts (s : Sys World BatchState) :
  inv s -> inv (snd (Batch.enterLoop hasOnComplete snap i counts s)).
Proof.
  intros H.
  destruct (BatchFacts.endBatch_files dataService categoryId hasOnComplete
              newId trim snap counts s) as (s' & Hrun & Hf & _).
  unfold Batch.enterLoop.
  destruct (nth_error (files snap) i) as [file|].
  - destruct (isPaused snap).
    + unfold bind. rewrite Hrun. run_batch. unfold inv. rewrite Hf. exact H.
    + run_batch. unfold inv. cbn [store files setFiles setCurrentIndex].
      apply updateById_keeps; [exact P_processing|exact H].
  - unfold bind. rewrite Hrun. run_batch. unfold inv. rewrite Hf. exact H.
Qed.

Lemma startRun_keeps (s : Sys World BatchState) :
  inv s -> inv (snd (Batch.startRun hasOnComplete s)).
Proof.
  intros H. unfold Batch.startRun.
  unfold bind at 1, getStore.
  destruct (Nat.eqb (length (files (store s))) 0).
  - run_batch. exact H.
  - unfold bind at 1. unfold setStore at 1.
    unfold bind at 1. unfold setStore at 1.
    apply enterLoop_keeps. exact H.
Qed.

Lemma resume_keeps (r : Run) (s : Sys World BatchState) :
  inv s -> inv (snd (Batch.resume dataService categoryId hasOnComplete r s)).
Proof.
  intros H. unfold Batch.resume.
  destruct (pc r).
  - destruct (nth_error (files (snap r)) (index r)) as [file|].
    + unfold bind at 1.
      destruct (BatchFacts.finishFile_outcome dataService categoryId file s)
        as (o & s1 & Hrun & Hst & _).
      rewrite Hrun. run_batch. unfold inv. cbn [store]. rewrite Hst.
      cbn [files setProgress setFiles].
      apply updateById_keeps; [|exact H].
      destruct o; [apply P_success | apply P_error].
    + run_batch. exact H.
  - apply enterLoop_keeps. exact H.
Qed.

Lemma step_keeps (a : Action) (c : Config World) :
  inv (fst c) ->
  inv (fst (Batch.step dataService categoryId hasOnComplete newId trim a c)).
Proof.
  intros H. destruct c as [s runs]. cbn [fst snd] in *.
  destruct a; unfold Batch.step, quiet; cbn [fst snd].
  - apply addFilePath_keeps. exact H.
  - apply addFromDialog_keeps. exact H.
  - unfold inv. cbn. apply Forall_forall. intros f Hf.
    apply filter_In in Hf. destruct Hf as [Hf _].
    revert f Hf. apply Forall_forall. exact H.
  - unfold inv. cbn. constructor.
  - unfold inv. cbn. apply Forall_map.
    eapply Forall_impl; [|exact H]. exact P_pending.
  - exact H.
  - pose proof (startRun_keeps H) as H'.
    destruct (Batch.startRun hasOnComplete s) as [[r|e] s']; exact H'.
  - destruct (nth_error runs k) as [r|]; cbn [fst]; [|exact H].
    pose proof (@resume_keeps r s H) as H'.
    destruct (Batch.resume dataService categoryId hasOnComplete r s)
      as [[r'|e] s']; exact H'.
Qed.

Lemma steps_keep (l : list Action) : forall c : Config World,
  inv (fst c) ->
  inv (fst (Batch.steps dataService categoryId hasOnComplete newId trim l c)).
Proof.
  induction l as [|a l IH]; intros c H; [exact H|].
  cbn [Batch.steps fold_left]. apply IH. apply step_keeps. exact H.
Qed.

End Invariant.

(** X18.  Whatever the user does and however the suspended calls of
    [processBatch] interleave, an item shown in error carries a message
    and a pending item carries none. *)
Theorem steps_consistent (l : list Action) (c : Config World) :
  Forall consistent (files (store (fst c))) ->
  Forall consistent
    (files (store (fst (Batch.steps dataService categoryId hasOnComplete
                                    newId trim l c)))).
Proof.
  apply steps_keep; unfold consistent; cbn; intros;
    repeat split; intros; try discriminate; try reflexivity; try tauto.
Qed.

Lemma enterLoop_live snap i counts (s : Sys World BatchState) r s' :
  Batch.enterLoop hasOnComplete snap i counts s = (inl (Some r), s') ->
  liveRun r.
Proof.
  unfold Batch.enterLoop.
  destruct (BatchFacts.endBatch_files dataService categoryId hasOnComplete
              newId trim snap counts s) as (s1 & Hrun & _).
  destruct (nth_error (files snap) i) as [file|] eqn:Hnth.
  - destruct (isPaused snap) eqn:Hp.
    + unfold bind. rewrite Hrun. discriminate.
    + run_batch. intros H. injection H as <- _.
      split; [exact Hp|]. cbn [Batch.index Batch.snap].
      apply nth_error_Some. congruence.
  - unfold bind. rewrite Hrun. discriminate.
Qed.

Lemma replaceRun_live k r (runs : list Run) :
  (forall r', r = Some r' -> liveRun r') ->
  Forall liveRun runs -> Forall liveRun (replaceRun k r runs).
Proof.
  intros Hr Hruns. revert k.
  induction Hruns as [|r0 rest H0 Hrest IH]; intros k;
    [destruct k; constructor|].
  destruct k as [|k]; cbn [replaceRun].
  - destruct r as [r'|]; [constructor; auto | exact Hrest].
  - constructor; [exact H0 | apply IH].
Qed.

Lemma step_live (a : Action) (c : Config World) :
  Forall liveRun (snd c) ->
  Forall liveRun
    (snd (Batch.step dataService categoryId hasOnComplete newId trim a c)).
Proof.
  intros H. destruct c as [s runs]. cbn [fst snd] in *.
  destruct a; unfold Batch.step, quiet; cbn [fst snd]; try exact H.
  - destruct (Batch.startRun hasOnComplete s) as [[r|e] s'] eqn:Hrun;
      cbn [snd]; [|exact H].
    destruct r as [r|]; cbn [spawn]; [|exact H].
    apply Forall_app. split; [exact H|]. constructor; [|constructor].
    revert Hrun. unfold Batch.startRun.
    unfold bind at 1, getStore.
    destruct (Nat.eqb (length (files (store s))) 0).
    + run_batch. discriminate.
    + unfold bind at 1. unfold setStore at 1.
      unfold bind at 1. unfold setStore at 1.
      apply enterLoop_live.
  - destruct (nth_error runs k) as [r|] eqn:Hk; cbn [snd]; [|exact H].
    destruct (Batch.resume dataService categoryId hasOnComplete r s)
      as [[r'|e] s'] eqn:Hrun; cbn [snd].
    + apply replaceRun_live; [|exact H].
      intros r1 ->.
      assert (Hr : liveRun r).
      { eapply Forall_forall; [exact H|]. eapply nth_error_In. exact Hk. }
      revert Hrun. unfold Batch.resume. destruct (pc r).
      * destruct (nth_error (files (snap r)) (index r)) as [file|].
        -- unfold bind at 1.
           destruct (BatchFacts.finishFile_outcome dataService categoryId file s)
             as (o & s1 & Hfin & _).
           rewrite Hfin. run_batch. intros Heq. injection Heq as <- _.
           exact Hr.
        -- run_batch. discriminate.
      * apply enterLoop_live.
    + apply replaceRun_live; [discriminate|exact H].
Qed.

(** X19.  Every call of [processBatch] that is suspended works on a
    snapshot that is not paused, at an index inside the list of that
    snapshot: whatever happens to [isPaused] afterwards, the loop test of
    a call in flight never sees it. *)
Theorem steps_live (l : list Action) (c : Config World) :
  Forall liveRun (snd c) ->
  Forall liveRun
    (snd (Batch.steps dataService categoryId hasOnComplete newId trim l c)).
Proof.
  revert c. induction l as [|a l IH]; intros c H; [exact H|].
  cbn [Batch.steps fold_left]. apply IH. apply step_live. exact H.
Qed.

End BatchMore.

End BatchMore.

(** ** Instances of the further properties *)

Module MoreExamples.
Import Debounce DebounceRun Batch.

(** Three notifications at 0, 100 and 250 with a window of 300. *)
Lemma burst_last_wins_witness :
  (forall t, 250 <= t -> t < 250 + Hook.debounceWait ->
     executions
       (advance t (runBurst Hook.debounceWait
                     ((0, ["/tmp/a.txt"]) :: DemoMore.tripleDrop)
                     (init (list string) 0)))
     = executions (advance 0 (init (list string) 0))) /\
  (forall t, 250 + Hook.debounceWait <= t ->
     executions
       (advance t (runBurst Hook.debounceWait
                     ((0, ["/tmp/a.txt"]) :: DemoMore.tripleDrop)
                     (init (list string) 0)))
     = executions (advance 0 (init (list string) 0)) ++ [["/tmp/b.txt"]]).
Proof.
  refine (@DebounceMore.burst_last_wins (list string) Hook.debounceWait
            (init (list string) 0) 0 ["/tmp/a.txt"] DemoMore.tripleDrop _ _ _).
  - apply DebounceFacts.armedOk_init.
  - cbn. lia.
  - cbn. unfold Hook.debounceWait. lia.
Defined.

(** Two drops one second apart. *)
Lemma debounce_isolated_calls_witness :
  executions
    (advance 1400
       (invoke Hook.debounceWait ["/tmp/b.txt"]
          (advance 1000
             (invoke Hook.debounceWait ["/tmp/a.txt"]
                (advance 0 (init (list string) 0))))))
  = executions (advance 0 (init (list string) 0))
    ++ [["/tmp/a.txt"]; ["/tmp/b.txt"]].
Proof.
  refine (@DebounceMore.debounce_isolated_calls (list string) Hook.debounceWait
            (init (list string) 0) ["/tmp/a.txt"] ["/tmp/b.txt"] 0 1000
            _ _ _ 1400 _).
  - apply DebounceFacts.armedOk_init.
  - cbn. lia.
  - unfold Hook.debounceWait. lia.
  - unfold Hook.debounceWait. lia.
Defined.

Lemma processFile_rejected_witness :
  exists s',
    processFile Demo.service Demo.categoryId DemoMore.missingFile
                DemoMore.withMissingFile
    = (inl false, s') /\
    files (store s')
    = updateById "item-0" (markError "文件或目录不存在")
        (updateById "item-0" markProcessing [DemoMore.missingFile]) /\
    world s' = Demo.emptyWorld /\
    trace s' = [].
Proof.
  refine (@BatchMore.processFile_rejected _ Demo.service Demo.categoryId
            DemoMore.missingFile DemoMore.withMissingFile
            "文件或目录不存在" Demo.emptyWorld _).
  right. exists Demo.emptyWorld. repeat split.
Defined.

Lemma processFile_creation_error_witness :
  exists s',
    processFile DemoMore.fullDisk Demo.categoryId DemoMore.docs DemoMore.withDocs
    = (inl false, s') /\
    files (store s')
    = updateById "item-0" (markError "磁盘已满")
        (updateById "item-0" markProcessing [DemoMore.docs]) /\
    map iconData (files (store s')) = [None] /\
    world s' = Demo.emptyWorld.
Proof.
  refine (@BatchMore.processFile_creation_error _ DemoMore.fullDisk
            Demo.categoryId DemoMore.docs DemoMore.withDocs
            Demo.emptyWorld Demo.emptyWorld Demo.emptyWorld Demo.emptyWorld
            (inl (Some (Types.mkIconResult Demo.folderIcon)))
            (ErrorObject "磁盘已满") _ _ _ _); reflexivity.
Defined.

Lemma addFromDialog_cancelled_witness :
  addFromDialog Demo.service Demo.newId Demo.trim Demo.withTextFile
  = (inl tt, Demo.withTextFile).
Proof.
  refine (@BatchMore.addFromDialog_cancelled _ Demo.service Demo.newId Demo.trim
            Demo.withTextFile Demo.emptyWorld None _ _).
  - reflexivity.
  - left. reflexivity.
Defined.


Lemma start_empty_witness :
  Demo.step DoStart Demo.mounted
  = (mkSys initialState Demo.emptyWorld [ToastError "请先添加文件"], []) /\
  start Demo.service Demo.categoryId true (fst Demo.mounted)
  = (inl tt, mkSys initialState Demo.emptyWorld [ToastError "请先添加文件"]).
Proof.
  refine (@BatchMore.start_empty _ Demo.service Demo.categoryId true
            Demo.newId Demo.trim Demo.mounted _).
  reflexivity.
Defined.

End MoreExamples.

(** ** Properties of the dialog of [ShortcutGrid] *)

Module GridFacts.
Import Grid.

Section GridFacts.

Variable World : Type.
Variable dataService : GridService World.
Variable categoryId : string.
Variable onShortcutAdded : option (World -> Result unit * World).

Let handleSubmitShortcut :=
  handleSubmitShortcut dataService categoryId onShortcutAdded.

Ltac run_grid :=
  cbv beta iota delta
    [Grid.handleSubmitShortcut Grid.submitBody Grid.chooseIcon
     bind tryCatch tryFinally throw emit call ret when getStore setStore];
  cbn [store world trace fst snd].

Ltac split_call :=
  match goal with
  | |- context [let (_, _) := ?f (world ?s) in _] =>
      let r := fresh "r" in let w := fresh "w" in
      destruct (f (world s)) as [r w]; destruct r
  | |- context [let (_, _) := ?f ?w0 in _] =>
      let r := fresh "r" in let w := fresh "w" in
      destruct (f w0) as [r w]; destruct r
  end; cbn [store world trace fst snd].

Ltac find_delta := repeat apply HookFacts.delta_cons; apply HookFacts.delta_nil.

Ltac close_case :=
  repeat match goal with u : unit |- _ => destruct u end;
  do 2 eexists; split; [reflexivity|];
  cbn [store world trace fst snd];
  split; [find_delta|];
  cbn [shortcutForm isBatchProcessorOpen isAddingShortcut isDialogOpen
       setIsDialogOpen setIsAddingShortcut];
  do 3 (split; [reflexivity|]);
  first
    [ left; split; [reflexivity|]; split; [|cbn; lia];
      cbn; first [ left; reflexivity
                 | right; left; reflexivity
                 | right; right; reflexivity ]
    | right; do 2 eexists; split; [reflexivity|]; split; [reflexivity|];
      first [ left; reflexivity
            | right; split; [reflexivity|discriminate] ] ].

(** A submission with both fields filled in: it ends without throwing,
    with [isAddingShortcut] reset; either nothing was created and one
    error toast says why, or the shortcut was created, the dialog is
    closed and the success toast carries the name that [createShortcut]
    returned (followed by an error toast only if [onShortcutAdded]
    threw). *)
Lemma handleSubmitShortcut_cases (s : Sys World GridState) :
  isEmpty (file_path (shortcutForm (store s))) = false ->
  isEmpty (name (shortcutForm (store s))) = false ->
  exists s' delta,
    handleSubmitShortcut s = (inl tt, s') /\
    trace s' = delta ++ trace s /\
    shortcutForm (store s') = shortcutForm (store s) /\
    isBatchProcessorOpen (store s') = isBatchProcessorOpen (store s) /\
    isAddingShortcut (store s') = false /\
    ((isDialogOpen (store s') = isDialogOpen (store s) /\
      (toasts delta = [ToastError "文件路径无效"] \/
       toasts delta = [ToastError "文件不存在"] \/
       toasts delta = [ToastError "添加快捷方式失败"]) /\
      length (createCalls delta) <= 1)
     \/
     (exists created icon,
        createCalls delta
        = [Types.mkRequest (name (shortcutForm (store s)))
                           (file_path (shortcutForm (store s)))
                           categoryId icon] /\
        isDialogOpen (store s') = false /\
        (toasts delta = [ToastSuccess ("已添加快捷方式: " ++ created)] \/
         (toasts delta = [ToastSuccess ("已添加快捷方式: " ++ created);
                          ToastError "添加快捷方式失败"] /\
          onShortcutAdded <> None)))).
Proof.
  intros Hpath Hname.
  unfold handleSubmitShortcut. run_grid. rewrite Hpath, Hname.
  split_call; [|close_case].
  match goal with |- context [negb ?b] => destruct b end;
    cbn [negb]; run_grid; [|close_case].
  split_call; [|close_case].
  match goal with |- context [negb ?b] => destruct b end;
    cbn [negb]; run_grid; [|close_case].
  destruct (isEmpty (icon_path (shortcutForm (store s))));
    cbn [negb]; run_grid.
  - split_call; run_grid; (split_call; [|close_case]);
      destruct onShortcutAdded as [notify|]; run_grid;
      try split_call; close_case.
  - split_call; [|close_case].
    destruct onShortcutAdded as [notify|]; run_grid;
      try split_call; close_case.
Qed.

(** X20.  A submission with no file path, or with a path and no name,
    shows one error toast ("请选择文件" before "请输入快捷方式名称") and does
    nothing else: the state is untouched ([isAddingShortcut] included),
    no collaborator is called and nothing is created. *)
Theorem handleSubmitShortcut_missing_field (s : Sys World GridState) :
  isEmpty (file_path (shortcutForm (store s))) = true \/
  isEmpty (name (shortcutForm (store s))) = true ->
  exists s',
    handleSubmitShortcut s = (inl tt, s') /\
    store s' = store s /\
    world s' = world s /\
    filter isToast (trace s')
    = ToastError (if isEmpty (file_path (shortcutForm (store s)))
                  then "请选择文件" else "请输入快捷方式名称")
      :: filter isToast (trace s) /\
    createCalls (trace s') = createCalls (trace s).
Proof.
  intros Hmissing. unfold handleSubmitShortcut. run_grid.
  destruct (isEmpty (file_path (shortcutForm (store s)))).
  - run_grid. eexists. repeat split.
  - destruct Hmissing as [Hpath | Hname]; [discriminate|].
    rewrite Hname. run_grid. eexists. repeat split.
Qed.

(** X21.  [handleSubmitShortcut] never throws, whatever the collaborators
    and the callback do.  It leaves the form and the batch dialog as they
    are, calls [createShortcut] at most once, shows one toast or two, and
    unless it returned before its [try] it ends with [isAddingShortcut]
    false. *)
Theorem handleSubmitShortcut_settles (s : Sys World GridState) :
  exists s' delta,
    handleSubmitShortcut s = (inl tt, s') /\
    trace s' = delta ++ trace s /\
    shortcutForm (store s') = shortcutForm (store s) /\
    isBatchProcessorOpen (store s') = isBatchProcessorOpen (store s) /\
    (isAddingShortcut (store s') = false \/ store s' = store s) /\
    length (createCalls delta) <= 1 /\
    1 <= length (toasts delta) <= 2.
Proof.
  destruct (isEmpty (file_path (shortcutForm (store s)))) eqn:Hpath;
    [|destruct (isEmpty (name (shortcutForm (store s)))) eqn:Hname].
  - unfold handleSubmitShortcut. run_grid. rewrite Hpath. run_grid.
    do 2 eexists. split; [reflexivity|]. cbn [store trace].
    split; [find_delta|]. cbn. repeat split; auto.
  - unfold handleSubmitShortcut. run_grid. rewrite Hpath, Hname. run_grid.
    do 2 eexists. split; [reflexivity|]. cbn [store trace].
    split; [find_delta|]. cbn. repeat split; auto.
  - destruct (handleSubmitShortcut_cases s Hpath Hname)
      as (s' & delta & Hrun & Htr & Hform & Hbatch & Hadding & Hcases).
    exists s', delta. do 4 (split; [assumption|]).
    split; [left; exact Hadding|].
    destruct Hcases as [(_ & Htoast & Hcalls)
                       | (created & icon & Hcalls & _ & Htoast)].
    + split; [exact Hcalls|].
      destruct Htoast as [-> | [-> | ->]]; cbn; lia.
    + rewrite Hcalls.
      destruct Htoast as [-> | [-> _]]; cbn; lia.
Qed.

(** X22.  The dialog is closed by a submission exactly when a shortcut was
    created: then the one call of [createShortcut] carries the name and
    the path of the form and the category of the grid, and the success
    toast is the first toast shown; otherwise [isDialogOpen] is what it
    was and no success toast is shown. *)
Theorem handleSubmitShortcut_closes_dialog (s : Sys World GridState) :
  exists s' delta,
    handleSubmitShortcut s = (inl tt, s') /\
    trace s' = delta ++ trace s /\
    ((toastSuccesses delta = 0 /\
      isDialogOpen (store s') = isDialogOpen (store s))
     \/
     (toastSuccesses delta = 1 /\
      isDialogOpen (store s') = false /\
      (exists created, hd_error (toasts delta)
                       = Some (ToastSuccess ("已添加快捷方式: " ++ created))) /\
      map (fun r => (Types.name r, Types.file_path r, Types.category_id r))
          (createCalls delta)
      = [(name (shortcutForm (store s)), file_path (shortcutForm (store s)),
          categoryId)])).
Proof.
  destruct (isEmpty (file_path (shortcutForm (store s)))) eqn:Hpath;
    [|destruct (isEmpty (name (shortcutForm (store s)))) eqn:Hname].
  - unfold handleSubmitShortcut. run_grid. rewrite Hpath. run_grid.
    do 2 eexists. split; [reflexivity|]. cbn [store trace].
    split; [find_delta|]. left. split; reflexivity.
  - unfold handleSubmitShortcut. run_grid. rewrite Hpath, Hname. run_grid.
    do 2 eexists. split; [reflexivity|]. cbn [store trace].
    split; [find_delta|]. left. split; reflexivity.
  - destruct (handleSubmitShortcut_cases s Hpath Hname)
      as (s' & delta & Hrun & Htr & _ & _ & _ & Hcases).
    exists s', delta. do 2 (split; [assumption|]).
    assert (Hcount : forall l, toastSuccesses l = toastSuccesses (rev (toasts l))).
    { intros l. unfold toasts. rewrite rev_involutive.
      unfold toastSuccesses. f_equal.
      induction l as [|e l IH]; [reflexivity|].
      destruct e; cbn; rewrite <- ?IH; reflexivity. }
    rewrite Hcount.
    destruct Hcases as [(Hopen & Htoast & _)
                       | (created & icon & Hcalls & Hopen & Htoast)].
    + left. split; [|exact Hopen].
      destruct Htoast as [-> | [-> | ->]]; reflexivity.
    + right. rewrite Hcalls.
      destruct Htoast as [-> | [-> _]];
        (split; [reflexivity|]; split; [exact Hopen|];
         split; [exists created; reflexivity|reflexivity]).
Qed.

Ltac finish Hend := eapply Hend; [find_delta|reflexivity].

Ltac notified Hquiet Hend :=
  match goal with
  | |- context [let (_, _) := ?notify ?w in _] =>
      let w' := fresh "w" in let E := fresh "E" in
      destruct (Hquiet notify eq_refl w) as [w' E]; rewrite E
  end; cbn [store world trace fst snd]; finish Hend.

Ltac done Hend := eapply Hend; [find_delta|cbn; repeat constructor].

(** X23.  When [onShortcutAdded] is not given, or never throws, a
    submission shows exactly one toast. *)
Theorem handleSubmitShortcut_one_toast (s : Sys World GridState) :
  (forall notify, onShortcutAdded = Some notify ->
     forall w, exists w', notify w = (inl tt, w')) ->
  exists s' delta,
    handleSubmitShortcut s = (inl tt, s') /\
    trace s' = delta ++ trace s /\
    length (toasts delta) = 1.
Proof.
  intros Hquiet.
  unfold handleSubmitShortcut. run_grid.
  destruct (isEmpty (file_path (shortcutForm (store s))));
    [run_grid; do 2 eexists; split; [reflexivity|];
     split; [cbn [trace]; find_delta|reflexivity]|].
  destruct (isEmpty (name (shortcutForm (store s))));
    [run_grid; do 2 eexists; split; [reflexivity|];
     split; [cbn [trace]; find_delta|reflexivity]|].
  assert (Hend : forall (st : GridState) (w : World) (tr d : list Event),
            tr = d ++ trace s -> length (toasts d) = 1 ->
            exists s' delta,
              (@inl unit Thrown tt, mkSys st w tr) = (inl tt, s') /\
              trace s' = delta ++ trace s /\ length (toasts delta) = 1).
  { intros st w tr d -> Hd. do 2 eexists. split; [reflexivity|].
    split; [reflexivity|exact Hd]. }
  split_call; [|finish Hend].
  match goal with |- context [negb ?b] => destruct b end;
    cbn [negb]; run_grid; [|finish Hend].
  split_call; [|finish Hend].
  match goal with |- context [negb ?b] => destruct b end;
    cbn [negb]; run_grid; [|finish Hend].
  destruct (isEmpty (icon_path (shortcutForm (store s))));
    cbn [negb]; run_grid.
  - split_call; run_grid; (split_call; [|finish Hend]);
      destruct onShortcutAdded as [notify|]; run_grid;
      [notified Hquiet Hend | finish Hend
      | notified Hquiet Hend | finish Hend].
  - split_call; [|finish Hend].
    destruct onShortcutAdded as [notify|]; run_grid;
      [notified Hquiet Hend | finish Hend].
Qed.

(** X24.  The [catch] clause covers the callback too: with an
    [onShortcutAdded] that throws, a submission that created the shortcut
    and said so goes on to say "添加快捷方式失败"; the shortcut stays created
    and the dialog closed. *)
Theorem handleSubmitShortcut_callback_throws (s : Sys World GridState)
        (notify : World -> Result unit * World) :
  onShortcutAdded = Some notify ->
  (forall w, exists e w', notify w = (inr e, w')) ->
  exists s' delta,
    handleSubmitShortcut s = (inl tt, s') /\
    trace s' = delta ++ trace s /\
    (toastSuccesses delta = 0 \/
     (exists created,
        toasts delta = [ToastSuccess ("已添加快捷方式: " ++ created);
                        ToastError "添加快捷方式失败"]) /\
     length (createCalls delta) = 1 /\
     isDialogOpen (store s') = false /\
     isAddingShortcut (store s') = false).
Proof.
  intros Hgiven Hthrows.
  unfold handleSubmitShortcut. rewrite Hgiven. run_grid.
  assert (Hquiet : forall (st : GridState) (w : World) (tr d : list Event),
            tr = d ++ trace s -> toastSuccesses d = 0 ->
            exists s' delta,
              (@inl unit Thrown tt, mkSys st w tr) = (inl tt, s') /\
              trace s' = delta ++ trace s /\
              (toastSuccesses delta = 0 \/
               (exists created,
                  toasts delta = [ToastSuccess ("已添加快捷方式: " ++ created);
                                  ToastError "添加快捷方式失败"]) /\
               length (createCalls delta) = 1 /\
               isDialogOpen (store s') = false /\
               isAddingShortcut (store s') = false)).
  { intros st w tr d -> Hd. do 2 eexists. split; [reflexivity|].
    split; [reflexivity|left; exact Hd]. }
  destruct (isEmpty (file_path (shortcutForm (store s)))); [finish Hquiet|].
  destruct (isEmpty (name (shortcutForm (store s)))); [finish Hquiet|].
  run_grid.
  split_call; [|finish Hquiet].
  match goal with |- context [negb ?b] => destruct b end;
    cbn [negb]; run_grid; [|finish Hquiet].
  split_call; [|finish Hquiet].
  match goal with |- context [negb ?b] => destruct b end;
    cbn [negb]; run_grid; [|finish Hquiet].
  destruct (isEmpty (icon_path (shortcutForm (store s))));
    cbn [negb]; run_grid.
  - split_call; run_grid; (split_call; [|finish Hquiet]);
      match goal with
      | |- context [let (_, _) := notify ?w in _] =>
          destruct (Hthrows w) as (e & w' & E); rewrite E
      end; cbn [store world trace fst snd];
      (do 2 eexists; split; [reflexivity|]; cbn [store trace];
       split; [find_delta|]; right; repeat split; eexists; reflexivity).
  - split_call; [|finish Hquiet].
    match goal with
    | |- context [let (_, _) := notify ?w in _] =>
        destruct (Hthrows w) as (e & w' & E); rewrite E
    end; cbn [store world trace fst snd].
    do 2 eexists. split; [reflexivity|]. cbn [store trace].
    split; [find_delta|]. right. repeat split. eexists. reflexivity.
Qed.

(** X25.  A custom icon path wins: when the form has one, [getFileIcon]
    plays no part in the submission (another [getFileIcon] gives the same
    result, state, world and trace), and a request that is made carries
    the icon path of the form. *)
Theorem handleSubmitShortcut_custom_icon (s : Sys World GridState)
        (other : string -> World -> Result (option Types.IconResult) * World) :
  isEmpty (icon_path (shortcutForm (store s))) = false ->
  Grid.handleSubmitShortcut
    (mkGridService (validateFilePath dataService) (checkFileExists dataService)
                   other (createShortcut dataService))
    categoryId onShortcutAdded s
  = handleSubmitShortcut s /\
  exists delta,
    trace (snd (handleSubmitShortcut s)) = delta ++ trace s /\
    Forall (fun r => Types.icon_path r
                     = Some (icon_path (shortcutForm (store s))))
           (createCalls delta).
Proof.
  intros Hicon. split.
  - unfold handleSubmitShortcut. run_grid. rewrite Hicon. cbn [negb].
    destruct dataService; reflexivity.
  - destruct (isEmpty (file_path (shortcutForm (store s)))) eqn:Hpath;
      [|destruct (isEmpty (name (shortcutForm (store s)))) eqn:Hname];
      unfold handleSubmitShortcut; run_grid;
      rewrite ?Hpath, ?Hname, ?Hicon; cbn [negb]; run_grid.
    1, 2: eexists; split; [find_delta|constructor].
    assert (Hend : forall tr d : list Event,
              tr = d ++ trace s ->
              Forall (fun r => Types.icon_path r
                               = Some (icon_path (shortcutForm (store s))))
                     (createCalls d) ->
              exists delta,
                tr = delta ++ trace s /\
                Forall (fun r => Types.icon_path r
                                 = Some (icon_path (shortcutForm (store s))))
                       (createCalls delta)).
    { intros tr d -> Hd. eexists. split; [reflexivity|exact Hd]. }
    split_call; [|done Hend].
    match goal with |- context [negb ?b] => destruct b end;
      cbn [negb]; run_grid; [|done Hend].
    split_call; [|done Hend].
    match goal with |- context [negb ?b] => destruct b end;
      cbn [negb]; run_grid; [|done Hend].
    split_call; [|done Hend].
    destruct onShortcutAdded as [notify|]; run_grid;
      try split_call; done Hend.
Qed.

(** X26.  Opening the dialog empties the form: a submission right after
    it is refused with "请选择文件", the dialog stays open and nothing is
    created, whatever the state was before. *)
Theorem submit_after_open (s : Sys World GridState) :
  exists s1 s2,
    @handleAddShortcut World s = (inl tt, s1) /\
    handleSubmitShortcut s1 = (inl tt, s2) /\
    store s2 = mkGrid true (isBatchProcessorOpen (store s))
                      (isAddingShortcut (store s)) emptyForm /\
    world s2 = world s /\
    toasts (trace s2) = toasts (trace s) ++ [ToastError "请选择文件"] /\
    createCalls (trace s2) = createCalls (trace s).
Proof.
  unfold handleSubmitShortcut, handleAddShortcut. run_grid.
  do 2 eexists. repeat split.
Qed.

End GridFacts.

End GridFacts.

(** ** More on the shortcut name *)

Module NameMore.

Lemma replaceExtension_suffix (s : string) :
  exists ext,
    s = (replaceExtension s ++ ext)%string /\
    (ext = "" \/
     exists e, ext = String "." e /\ isEmpty e = false /\
               allChars notSlashDot e = true).
Proof.
  induction s as [|c rest (ext & Heq & Hext)].
  - exists "". split; [reflexivity|left; reflexivity].
  - cbn [replaceExtension].
    destruct (Ascii.eqb c "." && negb (isEmpty rest) && allChars notSlashDot rest)
      eqn:E.
    + apply andb_true_iff in E. destruct E as [E Hall].
      apply andb_true_iff in E. destruct E as [Hc Hne].
      apply Ascii.eqb_eq in Hc. subst c.
      exists (String "." rest). split; [reflexivity|].
      right. exists rest. repeat split; [|exact Hall].
      destruct (isEmpty rest); [discriminate|reflexivity].
    + exists ext. split; [|exact Hext].
      cbn [String.append]. rewrite <- Heq. reflexivity.
Qed.

(** X27.  The shortcut name is the display name with, at most, a final
    piece taken off: a ['.'] followed by one character or more, none of
    them a ['.'] or a ['/'].  Nothing is taken off the name of a
    directory. *)
Theorem shortcutName_removes_suffix (isDirectory : bool) (name : string) :
  exists ext,
    name = (shortcutName isDirectory name ++ ext)%string /\
    (ext = "" \/
     (isDirectory = false /\
      exists e, ext = String "." e /\ isEmpty e = false /\
                allChars notSlashDot e = true)).
Proof.
  unfold shortcutName.
  destruct isDirectory; cbn [negb andb].
  - exists "". split; [|left; reflexivity].
    induction name as [|c rest IH]; [reflexivity|].
    cbn [String.append]. rewrite <- IH. reflexivity.
  - destruct (includes "." name).
    + destruct (replaceExtension_suffix name) as (ext & Heq & Hext).
      exists ext. split; [exact Heq|].
      destruct Hext as [-> | Hext]; [left; reflexivity|right; split; auto].
    + exists "". split; [|left; reflexivity].
      induction name as [|c rest IH]; [reflexivity|].
      cbn [String.append]. rewrite <- IH. reflexivity.
Qed.

(** X28.  The request can carry an empty name: the shortcut name is empty
    exactly when the display name is empty, or the item is a file whose
    display name is a ['.'] followed by one character or more, none of
    them a ['.'] or a ['/'] (a name like ".bashrc"). *)
Theorem shortcutName_empty (isDirectory : bool) (name : string) :
  shortcutName isDirectory name = "" <->
  name = "" \/
  (isDirectory = false /\
   exists e, name = String "." e /\ isEmpty e = false /\
             allChars notSlashDot e = true).
Proof.
  unfold shortcutName. split.
  - destruct isDirectory; cbn [negb andb]; [intros ->; left; reflexivity|].
    destruct (includes "." name); [|intros ->; left; reflexivity].
    destruct name as [|c rest]; [left; reflexivity|].
    cbn [replaceExtension].
    destruct (Ascii.eqb c "." && negb (isEmpty rest) && allChars notSlashDot rest)
      eqn:E; [|discriminate].
    intros _. right. split; [reflexivity|].
    apply andb_true_iff in E. destruct E as [E Hall].
    apply andb_true_iff in E. destruct E as [Hc Hne].
    apply Ascii.eqb_eq in Hc. subst c.
    exists rest. repeat split; [|exact Hall].
    destruct (isEmpty rest); [discriminate|reflexivity].
  - intros [-> | (-> & e & -> & Hne & Hall)]; [destruct isDirectory; reflexivity|].
    cbn [negb andb includes replaceExtension].
    rewrite Hne, Hall. reflexivity.
Qed.

End NameMore.

(** ** Instances for the invariants, the dialog and the name *)

Module GridExamples.
Import Grid.

Lemma steps_consistent_witness :
  Forall consistent (Demo.filesOf Demo.finished).
Proof.
  refine (@BatchMore.steps_consistent _ Demo.service Demo.categoryId true
            Demo.newId Demo.trim Demo.finishedRun Demo.mounted _).
  constructor.
Defined.

Lemma steps_live_witness :
  Forall liveRun (snd Demo.pausedAfterFirst).
Proof.
  refine (@BatchMore.steps_live _ Demo.service Demo.categoryId true
            Demo.newId Demo.trim Demo.pauseAfterFirst Demo.mounted _).
  constructor.
Defined.

Lemma handleSubmitShortcut_missing_field_witness :
  exists s',
    handleSubmitShortcut GridDemo.service Demo.categoryId None GridDemo.blank
    = (inl tt, s') /\
    store s' = store GridDemo.blank /\
    world s' = Demo.emptyWorld /\
    filter isToast (trace s') = [ToastError "请选择文件"] /\
    createCalls (trace s') = [].
Proof.
  refine (@GridFacts.handleSubmitShortcut_missing_field _ GridDemo.service
            Demo.categoryId None GridDemo.blank _).
  left. reflexivity.
Defined.

Lemma handleSubmitShortcut_one_toast_witness :
  exists s' delta,
    handleSubmitShortcut GridDemo.service Demo.categoryId
                         (Some GridDemo.refresh) GridDemo.filled
    = (inl tt, s') /\
    trace s' = delta ++ [] /\
    length (toasts delta) = 1.
Proof.
  refine (@GridFacts.handleSubmitShortcut_one_toast _ GridDemo.service
            Demo.categoryId (Some GridDemo.refresh) GridDemo.filled _).
  intros notify H w. injection H as <-. exists w. reflexivity.
Defined.

Lemma handleSubmitShortcut_custom_icon_witness :
  handleSubmitShortcut
    (mkGridService (validateFilePath GridDemo.service)
                   (checkFileExists GridDemo.service)
                   (fun _ w => (inl None, w))
                   (createShortcut GridDemo.service))
    Demo.categoryId None GridDemo.filled
  = handleSubmitShortcut GridDemo.service Demo.categoryId None GridDemo.filled /\
  exists delta,
    trace (snd (handleSubmitShortcut GridDemo.service Demo.categoryId None
                                     GridDemo.filled))
    = delta ++ [] /\
    Forall (fun r => Types.icon_path r = Some "/icons/notes.png")
           (createCalls delta).
Proof.
  refine (@GridFacts.handleSubmitShortcut_custom_icon _ GridDemo.service
            Demo.categoryId None GridDemo.filled (fun _ w => (inl None, w)) _).
  reflexivity.
Defined.

Lemma handleSubmitShortcut_callback_throws_witness :
  exists s' delta,
    handleSubmitShortcut GridDemo.service Demo.categoryId
                         (Some GridDemo.failingRefresh) GridDemo.filled
    = (inl tt, s') /\
    trace s' = delta ++ [] /\
    (toastSuccesses delta = 0 \/
     (exists created,
        toasts delta = [ToastSuccess ("已添加快捷方式: " ++ created);
                        ToastError "添加快捷方式失败"]) /\
     length (createCalls delta) = 1 /\
     isDialogOpen (store s') = false /\
     isAddingShortcut (store s') = false).
Proof.
  refine (@GridFacts.handleSubmitShortcut_callback_throws _ GridDemo.service
            Demo.categoryId (Some GridDemo.failingRefresh) GridDemo.filled
            GridDemo.failingRefresh _ _).
  - reflexivity.
  - intros w. exists (ErrorObject "reload failed"), w. reflexivity.
Defined.

(** The submission of the filled form with a parent whose refresh throws:
    both toasts, and the shortcut is there. *)
Example submit_then_refresh_fails :
  let s' := snd (handleSubmitShortcut GridDemo.service Demo.categoryId
                   (Some GridDemo.failingRefresh) GridDemo.filled) in
  toasts (trace s')
  = [ToastSuccess "已添加快捷方式: notes"; ToastError "添加快捷方式失败"] /\
  fst (world s')
  = [Types.mkRequest "notes" "/tmp/a.txt" Demo.categoryId
                     (Some "/icons/notes.png")] /\
  isDialogOpen (store s') = false.
Proof. repeat split. Qed.

End GridExamples.
